(** * dde-cooperation: the peer session core

    A shallow embedding of [src/utils/message_helper.h] (the framed codec)
    and [src/dde-cooperation-daemon/Machine/Machine.cc] (the per-peer
    session: dispatcher and service handlers), with the properties of the
    specification stated and proved over it. *)

From stdpp Require Import base option list gmap strings.
From Stdlib Require Import ZArith Lia Strings.Byte Strings.Ascii.

Open Scope Z_scope.

(** ** Machine integers and bytes *)

#[global] Instance byte_eq_dec : EqDecision byte := Byte.byte_eq_dec.

Module Word.

Definition uint32 (x : Z) : Z := x mod 2 ^ 32.
Definition uint64 (x : Z) : Z := x mod 2 ^ 64.

Definition INT_MAX : Z := 2 ^ 31 - 1.

(** Conversion of an unsigned 64-bit value to [int] (32-bit, two's
    complement): the low 32 bits, read as a signed number. *)
Definition to_int (x : Z) : Z :=
  let r := x mod 2 ^ 32 in
  if r <? 2 ^ 31 then r else r - 2 ^ 32.

Definition byte_of_Z (z : Z) : byte :=
  default "000"%byte (Byte.of_N (Z.to_N (z mod 256))).

Definition Z_of_byte (b : byte) : Z := Z.of_N (Byte.to_N b).

(** The eight bytes of a 64-bit value, least significant first. *)
Definition le_bytes64 (v : Z) : list byte :=
  (fun i => byte_of_Z (Z.shiftr v (8 * i))) <$> [0; 1; 2; 3; 4; 5; 6; 7].

Definition of_le_bytes (bs : list byte) : Z :=
  foldr (fun b acc => Z_of_byte b + 256 * acc) 0 bs.

End Word.

Import Word.

(** The host the daemon is compiled for: [__BIG_ENDIAN__] selects the
    branch of the [htonll]/[ntohll] macros and fixes how a [uint64_t] lies
    in memory. *)
Class Host := { BIG_ENDIAN : bool }.

Section ByteOrder.
Context `{Host}.

(** In-memory image of a [uint64_t] (what [memcpy] of the packed header
    copies) and the value read back through a [uint64_t] lvalue. *)
Definition store64 (v : Z) : list byte :=
  if BIG_ENDIAN then reverse (le_bytes64 v) else le_bytes64 v.

Definition load64 (bs : list byte) : Z :=
  of_le_bytes (if BIG_ENDIAN then reverse bs else bs).

(** [__bswap_32] of <byteswap.h>. *)
Definition bswap_32 (x : Z) : Z :=
  Z.lor (Z.lor (Z.shiftr (Z.land x 0xff000000) 24)
               (Z.shiftr (Z.land x 0x00ff0000) 8))
        (Z.lor (Z.shiftl (Z.land x 0x0000ff00) 8)
               (Z.shiftl (Z.land x 0x000000ff) 24)).

(** [htonl]/[ntohl] of <arpa/inet.h>; the argument is converted to
    [uint32_t]. *)
Definition htonl (x : Z) : Z :=
  if BIG_ENDIAN then uint32 x else bswap_32 (uint32 x).

Definition ntohl (x : Z) : Z := htonl x.

(** message_helper.h, lines 18-24. *)
Definition htonll (x : Z) : Z :=
  if BIG_ENDIAN then x
  else Z.lor (uint64 (Z.shiftl (htonl (Z.land x 0xFFFFFFFF)) 32))
             (htonl (Z.shiftr x 32)).

Definition ntohll (x : Z) : Z :=
  if BIG_ENDIAN then x
  else Z.lor (uint64 (Z.shiftl (ntohl (Z.land x 0xFFFFFFFF)) 32))
             (ntohl (Z.shiftr x 32)).

End ByteOrder.

(** ** The frame header (message_helper.h, lines 26-43) *)

(** [static constexpr char MAGIC[] = "DDECPRT"]: seven letters and the
    terminating NUL, so [sizeof(MAGIC)] is 8. *)
Definition MAGIC : list byte :=
  ["D"; "D"; "E"; "C"; "P"; "R"; "T"; "000"]%byte.

Record MessageHeader := mkHeader {
  magic_ : list byte;
  size_ : Z
}.

(** [sizeof(MessageHeader)] under [#pragma pack(1)]. *)
Definition header_size : Z := 16.

Section Header.
Context `{Host}.

(** Constructor [MessageHeader(uint64_t size)]. *)
Definition MessageHeader_new (size : Z) : MessageHeader :=
  {| magic_ := MAGIC; size_ := htonll size |}.

(** [legal()]: [memcmp] of the eight magic bytes. *)
Definition legal (h : MessageHeader) : bool :=
  bool_decide (magic_ h = MAGIC).

(** [size()]. *)
Definition MessageHeader_size (h : MessageHeader) : Z :=
  ntohll (size_ h).

(** The sixteen bytes [memcpy(buff.data(), &header, header_size)]
    copies. *)
Definition header_bytes (h : MessageHeader) : list byte :=
  magic_ h ++ store64 (size_ h).

End Header.

(** ** uvxx::Buffer *)

(** Modelled from the spec: [uvxx::Buffer] (uvxx/Buffer.h is not under
    src/), section 4.2: a growable byte buffer with [peek<T>()] (view the
    first [sizeof(T)] bytes as a POD header without consuming),
    [retrieve(n)] (consume prefix), [data()], [size()], [clear()].
    [buf_readable] are the bytes received and not yet consumed;
    [buf_storage] is what the storage behind them holds, which is what a
    read through [data()] past [size()] sees. *)
Record Buffer := mkBuffer {
  buf_readable : list byte;
  buf_storage : nat -> byte
}.

Module Buffer.

Definition size (b : Buffer) : Z := Z.of_nat (length (buf_readable b)).

(** The memory [data()] points to, by offset. *)
Definition data (b : Buffer) : nat -> byte :=
  fun i =>
    match buf_readable b !! i with
    | Some x => x
    | None => buf_storage b (i - length (buf_readable b))%nat
    end.

Definition retrieve (n : Z) (b : Buffer) : Buffer :=
  {| buf_readable := drop (Z.to_nat n) (buf_readable b);
     buf_storage := buf_storage b |}.

Definition clear (b : Buffer) : Buffer :=
  {| buf_readable := []; buf_storage := buf_storage b |}.

(** [n] bytes of memory starting [off] bytes after [p]. *)
Definition read (p : nat -> byte) (off n : nat) : list byte :=
  p <$> seq off n.

(** [peak<MessageHeader>()]. *)
Definition peak_MessageHeader `{Host} (b : Buffer) : MessageHeader :=
  {| magic_ := read (data b) 0 8;
     size_ := load64 (read (data b) 8 8) |}.

End Buffer.

(** ** google::protobuf::Message *)

(** The part of the protobuf interface the codec uses.  [SerializeAsBytes]
    is the wire image of a message; [ParseFromArray p n] is the message
    left in a fresh [T] by [T::ParseFromArray(p, n)], whose result flag
    the callers ignore. *)
Class Protobuf (T : Type) := {
  SerializeAsBytes : T -> list byte;
  ParseFromArray : (nat -> byte) -> Z -> T
}.

Inductive PARSE_ERROR := PARTIAL_MESSAGE | ILLEGAL_MESSAGE.

Section Framing.
Context `{Host} {T : Type} `{!Protobuf T}.

Definition ByteSizeLong (msg : T) : Z :=
  Z.of_nat (length (SerializeAsBytes msg)).

(** [SerializeToArray(data, size)] onto the bytes [dst] at [data]: it
    refuses (returning false, which the callers ignore) a message larger
    than [INT_MAX] or than [size]. *)
Definition SerializeToArray (msg : T) (dst : list byte) (size : Z) : list byte :=
  if (ByteSizeLong msg <=? INT_MAX) && (ByteSizeLong msg <=? size)
  then SerializeAsBytes msg ++ drop (length (SerializeAsBytes msg)) dst
  else dst.

(** message_helper.h, lines 63-71. *)
Definition genMessage (msg : T) : list byte :=
  let header := MessageHeader_new (ByteSizeLong msg) in
  let buff := replicate (Z.to_nat (uint64 (header_size + ByteSizeLong msg))) "000"%byte in
  let buff := header_bytes header ++ drop (Z.to_nat header_size) buff in
  take (Z.to_nat header_size) buff ++
    SerializeToArray msg (drop (Z.to_nat header_size) buff) (to_int (ByteSizeLong msg)).

Inductive expected := value (msg : T) | unexpected (e : PARSE_ERROR).

(** message_helper.h, lines 97-113.  The buffer is passed by reference:
    the second component is the buffer afterwards. *)
Definition parseMessage (buff : Buffer) : expected * Buffer :=
  let header := Buffer.peak_MessageHeader buff in
  if negb (legal header) then (unexpected ILLEGAL_MESSAGE, buff)
  else if Buffer.size buff <? uint64 (header_size + MessageHeader_size header)
  then (unexpected PARTIAL_MESSAGE, buff)
  else
    let msg :=
      ParseFromArray (fun i => Buffer.data buff (Z.to_nat header_size + i)%nat)
                     (to_int (MessageHeader_size header)) in
    (value msg, Buffer.retrieve (uint64 (header_size + MessageHeader_size header)) buff).

(** message_helper.h, lines 52-61.  [QByteArray::resize(int)] does not
    initialize the bytes it adds ([fresh] is what they hold), and a
    negative size gives an empty array. *)
Definition genMessageQ (fresh : nat -> byte) (msg : T) : list byte :=
  let header := MessageHeader_new (ByteSizeLong msg) in
  let buff :=
    Buffer.read fresh 0 (Z.to_nat (to_int (uint64 (header_size + ByteSizeLong msg)))) in
  let buff := header_bytes header ++ drop (Z.to_nat header_size) buff in
  take (Z.to_nat header_size) buff ++
    SerializeToArray msg (drop (Z.to_nat header_size) buff) (to_int (ByteSizeLong msg)).

(** Lines 73-75 and 85-87: the header seen through a pointer to the
    bytes. *)
Definition parseMessageHeader (buffer : nat -> byte) : MessageHeader :=
  {| magic_ := Buffer.read buffer 0 8;
     size_ := load64 (Buffer.read buffer 8 8) |}.

(** Lines 89-95; [size] is a [size_t], converted to [int]. *)
Definition parseMessageBody (buffer : nat -> byte) (size : Z) : T :=
  ParseFromArray buffer (to_int size).

(** Lines 77-83: the body held by a [QByteArray] whose bytes are
    [buffer], with [beyond] the memory after them; [size()] is an
    [int]. *)
Definition parseMessageBodyQ (buffer : list byte) (beyond : nat -> byte) : T :=
  ParseFromArray (Buffer.data (mkBuffer buffer beyond)) (Z.of_nat (length buffer)).

End Framing.

Arguments expected : clear implicits.

(** ** The message schema *)

(** Modelled from the spec: the message schema (protocol/message.proto is
    not under src/), section 3, with the fields Machine.cc reads and
    writes.  A proto3 enum field can carry a number outside its
    enumerators; the [_UNRECOGNIZED] constructors stand for those. *)

Inductive DeviceOS :=
  | DEVICE_OS_UOS | DEVICE_OS_LINUX | DEVICE_OS_WINDOWS
  | DEVICE_OS_MACOS | DEVICE_OS_ANDROID | DEVICE_OS_OTHER.

Inductive Compositor := COMPOSITOR_X11 | COMPOSITOR_WAYLAND | COMPOSITOR_NONE.

Inductive FlowDirection :=
  | FLOW_DIRECTION_TOP | FLOW_DIRECTION_BOTTOM
  | FLOW_DIRECTION_LEFT | FLOW_DIRECTION_RIGHT
  | FLOW_DIRECTION_UNRECOGNIZED (n : Z).

(** Modelled from the spec: [InputDeviceType] (common.h is not under
    src/), sections 3 and 4.5: the input devices KEYBOARD, MOUSE and
    TOUCHPAD.  Machine.cc handles the type as an enumeration over
    [uint8_t] (lines 432 and 623-629) and it is taken so here, with the
    enumerators numbered in the order the spec lists them, as the
    protocol's [DeviceType] numbers them. *)
Definition InputDeviceType : Type := byte.

Definition KEYBOARD : InputDeviceType := "000"%byte.
Definition MOUSE : InputDeviceType := "001"%byte.
Definition TOUCHPAD : InputDeviceType := "002"%byte.

(** The protocol's enum [DeviceType], the type of the field [devicetype]:
    a proto3 enum field carries any [int32], so the field is held as its
    number. *)
Definition DeviceType : Type := Z.

(** [static_cast<InputDeviceType>(d)] (line 428): the number converted to
    the underlying [uint8_t]. *)
Definition static_cast_InputDeviceType (d : DeviceType) : InputDeviceType :=
  byte_of_Z d.

(** [static_cast<DeviceType>(deviceType)] (line 629). *)
Definition static_cast_DeviceType (deviceType : InputDeviceType) : DeviceType :=
  Z_of_byte deviceType.

Record DeviceInfo := {
  di_uuid : string;
  di_name : string;
  di_os : DeviceOS;
  di_compositor : Compositor
}.

Record PairRequest := { preq_key : string; preq_deviceinfo : DeviceInfo }.

Record PairResponse := {
  presp_key : string;
  presp_deviceinfo : DeviceInfo;
  presp_agree : bool
}.

Record ServiceOnOffNotification := {
  sharedclipboardon : bool;
  shareddeviceson : bool
}.

Record DeviceSharingStartResponse := { dss_accept : bool }.

Record InputEventRequest := {
  ireq_serial : Z;
  ireq_devicetype : DeviceType;
  ireq_type : Z;
  ireq_code : Z;
  ireq_value : Z
}.

Record InputEventResponse := { iresp_serial : Z; iresp_success : bool }.

Record FlowDirectionNtf := { ntf_direction : FlowDirection }.

Record FlowRequest := { flow_direction : FlowDirection; flow_x : Z; flow_y : Z }.

Record FsResponse := { fs_accepted : bool; fs_port : Z }.

Record FsSendFileRequest := { sfreq_serial : Z; sfreq_path : string }.

Record FsSendFileResponse := { sfresp_serial : Z; sfresp_accepted : bool }.

Record FsSendFileResult := {
  sfres_serial : Z;
  sfres_path : string;
  sfres_result : bool
}.

Record ClipboardNotify := { cn_targets : list string }.

Record ClipboardGetContentRequest := { cgreq_target : string }.

Record ClipboardGetContentResponse := {
  cgresp_target : string;
  cgresp_content : string
}.

(** [Message]: the oneof [payload]; [PAYLOAD_NOT_SET] is a message with no
    payload. *)
Inductive Message :=
  | PAYLOAD_NOT_SET
  | kPairRequest (m : PairRequest)
  | kPairResponse (m : PairResponse)
  | kServiceOnOffNotification (m : ServiceOnOffNotification)
  | kDeviceSharingStartRequest
  | kDeviceSharingStartResponse (m : DeviceSharingStartResponse)
  | kDeviceSharingStopRequest
  | kDeviceSharingStopResponse
  | kInputEventRequest (m : InputEventRequest)
  | kInputEventResponse (m : InputEventResponse)
  | kFlowDirectionNtf (m : FlowDirectionNtf)
  | kFlowRequest (m : FlowRequest)
  | kFlowResponse
  | kFsRequest
  | kFsResponse (m : FsResponse)
  | kFsSendFileRequest (m : FsSendFileRequest)
  | kFsSendFileResponse (m : FsSendFileResponse)
  | kFsSendFileResult (m : FsSendFileResult)
  | kClipboardNotify (m : ClipboardNotify)
  | kClipboardGetContentRequest (m : ClipboardGetContentRequest)
  | kClipboardGetContentResponse (m : ClipboardGetContentResponse).

Definition SCAN_KEY : string := "UOS-COOPERATION".

(** Modelled from the spec: the confirm dialog's answer bytes (their
    header is not under src/), section 6: [ACCEPT=1], [REJECT=0]. *)
Definition ACCEPT : byte := "001"%byte.
Definition REJECT : byte := "000"%byte.

#[global] Instance InputDeviceType_eq_dec : EqDecision InputDeviceType :=
  Byte.byte_eq_dec.

#[global] Instance InputDeviceType_countable : Countable InputDeviceType :=
  inj_countable Byte.to_N Byte.of_N Byte.of_to_N.

#[global] Instance FlowDirection_eq_dec : EqDecision FlowDirection.
Proof. solve_decision. Defined.

#[global] Instance DeviceOS_eq_dec : EqDecision DeviceOS.
Proof. solve_decision. Defined.

#[global] Instance PARSE_ERROR_eq_dec : EqDecision PARSE_ERROR.
Proof. solve_decision. Defined.

(** ** Collaborators of a Machine *)

(** Modelled from the spec: [uvxx::Timer] (uvxx/Timer.h is not under
    src/), section 4.3: [start(periodMs)], [oneshot(delayMs)], [reset()]
    (re-arm with original interval), [stop()], [close()]. *)
Record Timer := {
  timer_interval : Z;
  timer_periodic : bool;
  timer_armed : bool;
  timer_closed : bool
}.

Module Timer.
Definition new : Timer :=
  {| timer_interval := 0; timer_periodic := false;
     timer_armed := false; timer_closed := false |}.
Definition start (period : Z) (t : Timer) : Timer :=
  {| timer_interval := period; timer_periodic := true;
     timer_armed := true; timer_closed := timer_closed t |}.
Definition oneshot (delay : Z) (t : Timer) : Timer :=
  {| timer_interval := delay; timer_periodic := false;
     timer_armed := true; timer_closed := timer_closed t |}.
Definition reset (t : Timer) : Timer :=
  {| timer_interval := timer_interval t; timer_periodic := timer_periodic t;
     timer_armed := true; timer_closed := timer_closed t |}.
Definition stop (t : Timer) : Timer :=
  {| timer_interval := timer_interval t; timer_periodic := timer_periodic t;
     timer_armed := false; timer_closed := timer_closed t |}.
Definition close (t : Timer) : Timer :=
  {| timer_interval := timer_interval t; timer_periodic := timer_periodic t;
     timer_armed := false; timer_closed := true |}.
End Timer.

(** The member functions and lambdas of Machine.cc that are handed to a
    stream as callbacks. *)
Inductive ClosedCb := cb_handleDisconnectedAux.
Inductive ReceivedCb := cb_dispatcher.
Inductive ConnectedCb := cb_connect_onConnected.
Inductive ConnectFailedCb := cb_connect_onConnectFailed.

(** Modelled from the spec: the stream part of [uvxx::TCP] (uvxx/Stream.h
    is not under src/), section 4.3; the two connect callbacks are those of
    uvxx/TCP.h.  [close()] starts the shutdown; the stream's [onClosed]
    callback runs later, from the loop. *)
Record TCP := {
  connectedCb_ : option ConnectedCb;
  connectFailedCb_ : option ConnectFailedCb;
  closedCb_ : option ClosedCb;
  receivedCb_ : option ReceivedCb;
  tcp_nodelay : bool;
  tcp_keepalive : option Z;
  tcp_reading : bool;
  tcp_closing : bool
}.

Module TCP.
Definition new : TCP :=
  {| connectedCb_ := None; connectFailedCb_ := None; closedCb_ := None;
     receivedCb_ := None; tcp_nodelay := false; tcp_keepalive := None;
     tcp_reading := false; tcp_closing := false |}.
Definition onConnected (cb : option ConnectedCb) (c : TCP) : TCP :=
  {| connectedCb_ := cb; connectFailedCb_ := connectFailedCb_ c;
     closedCb_ := closedCb_ c; receivedCb_ := receivedCb_ c;
     tcp_nodelay := tcp_nodelay c; tcp_keepalive := tcp_keepalive c;
     tcp_reading := tcp_reading c; tcp_closing := tcp_closing c |}.
Definition onConnectFailed (cb : option ConnectFailedCb) (c : TCP) : TCP :=
  {| connectedCb_ := connectedCb_ c; connectFailedCb_ := cb;
     closedCb_ := closedCb_ c; receivedCb_ := receivedCb_ c;
     tcp_nodelay := tcp_nodelay c; tcp_keepalive := tcp_keepalive c;
     tcp_reading := tcp_reading c; tcp_closing := tcp_closing c |}.
Definition onClosed (cb : option ClosedCb) (c : TCP) : TCP :=
  {| connectedCb_ := connectedCb_ c; connectFailedCb_ := connectFailedCb_ c;
     closedCb_ := cb; receivedCb_ := receivedCb_ c;
     tcp_nodelay := tcp_nodelay c; tcp_keepalive := tcp_keepalive c;
     tcp_reading := tcp_reading c; tcp_closing := tcp_closing c |}.
Definition onReceived (cb : option ReceivedCb) (c : TCP) : TCP :=
  {| connectedCb_ := connectedCb_ c; connectFailedCb_ := connectFailedCb_ c;
     closedCb_ := closedCb_ c; receivedCb_ := cb;
     tcp_nodelay := tcp_nodelay c; tcp_keepalive := tcp_keepalive c;
     tcp_reading := tcp_reading c; tcp_closing := tcp_closing c |}.
Definition tcpNoDelay (c : TCP) : TCP :=
  {| connectedCb_ := connectedCb_ c; connectFailedCb_ := connectFailedCb_ c;
     closedCb_ := closedCb_ c; receivedCb_ := receivedCb_ c;
     tcp_nodelay := true; tcp_keepalive := tcp_keepalive c;
     tcp_reading := tcp_reading c; tcp_closing := tcp_closing c |}.
Definition keepalive (enable : bool) (idle : Z) (c : TCP) : TCP :=
  {| connectedCb_ := connectedCb_ c; connectFailedCb_ := connectFailedCb_ c;
     closedCb_ := closedCb_ c; receivedCb_ := receivedCb_ c;
     tcp_nodelay := tcp_nodelay c;
     tcp_keepalive := if enable then Some idle else None;
     tcp_reading := tcp_reading c; tcp_closing := tcp_closing c |}.
Definition startRead (c : TCP) : TCP :=
  {| connectedCb_ := connectedCb_ c; connectFailedCb_ := connectFailedCb_ c;
     closedCb_ := closedCb_ c; receivedCb_ := receivedCb_ c;
     tcp_nodelay := tcp_nodelay c; tcp_keepalive := tcp_keepalive c;
     tcp_reading := true; tcp_closing := tcp_closing c |}.
Definition close (c : TCP) : TCP :=
  {| connectedCb_ := connectedCb_ c; connectFailedCb_ := connectFailedCb_ c;
     closedCb_ := closedCb_ c; receivedCb_ := receivedCb_ c;
     tcp_nodelay := tcp_nodelay c; tcp_keepalive := tcp_keepalive c;
     tcp_reading := tcp_reading c; tcp_closing := true |}.
End TCP.

Record InputEmittorWrapper := { m_type : InputDeviceType }.

(** Modelled from the spec: the wrappers a Machine owns (their code is
    not under src/), section 4.6, as far as Machine.cc constructs them:
    the confirm dialog for a peer, the FUSE server on its port, the FUSE
    client mounted on a peer's export. *)
Record ConfirmDialogWrapper := {
  dlg_ip : string;
  dlg_name : string
}.

Record FuseServer := { fuse_server_port : Z }.

Record FuseClient := {
  fuse_client_ip : string;
  fuse_client_port : Z;
  fuse_client_mountpoint : string
}.

(** The lambdas Machine.cc hands to [uvxx::Async::wake], to
    [uvxx::Process::onExit] and to [ClipboardBase::readTargetContent],
    with what they capture. *)
Inductive WakeFn :=
  | wake_DeviceSharingStartRequest (accepted : bool)
  | wake_sendFiles (filePaths : list string).

Inductive ExitCb :=
  | exit_FsSendFile (storagePath : string) (serial : Z) (path : string).

Inductive ReadTargetCb :=
  | read_ClipboardGetContent (target : string).

(** Modelled from the spec: [uvxx::Process] (uvxx/Process.h is not under
    src/), section 4.3: spawn a child with argv; [onExit(status, signal)]
    fires once. *)
Record Process := {
  proc_file : string;
  proc_args : list string;
  proc_exitCb : option ExitCb
}.

(** ** The Machine *)

(** The data members of [Machine] that Machine.cc reads or writes. *)
Record Machine := mkMachine {
  m_mountpoint : string;
  m_port : Z;
  m_uuid : string;
  m_name : string;
  m_connected : bool;
  m_os : DeviceOS;
  m_compositor : Compositor;
  m_deviceSharing : bool;
  m_direction : FlowDirection;
  m_pingTimer : Timer;
  m_offlineTimer : Timer;
  m_mounted : bool;
  m_ip : string;
  m_conn : option TCP;
  m_confirmDialog : option ConfirmDialogWrapper;
  m_inputEmittors : gmap InputDeviceType InputEmittorWrapper;
  m_fuseServer : option FuseServer;
  m_fuseClient : option FuseClient;
  m_sharedClipboard : bool
}.

(** Assignment to one member. *)
Definition set_m_port (v : Z) (m : Machine) : Machine :=
  let '(mkMachine y0 _ y2 y3 y4 y5 y6 y7 y8 y9 y10 y11 y12 y13 y14 y15 y16 y17 y18) := m in
  mkMachine y0 v y2 y3 y4 y5 y6 y7 y8 y9 y10 y11 y12 y13 y14 y15 y16 y17 y18.
Definition set_m_name (v : string) (m : Machine) : Machine :=
  let '(mkMachine y0 y1 y2 _ y4 y5 y6 y7 y8 y9 y10 y11 y12 y13 y14 y15 y16 y17 y18) := m in
  mkMachine y0 y1 y2 v y4 y5 y6 y7 y8 y9 y10 y11 y12 y13 y14 y15 y16 y17 y18.
Definition set_m_connected (v : bool) (m : Machine) : Machine :=
  let '(mkMachine y0 y1 y2 y3 _ y5 y6 y7 y8 y9 y10 y11 y12 y13 y14 y15 y16 y17 y18) := m in
  mkMachine y0 y1 y2 y3 v y5 y6 y7 y8 y9 y10 y11 y12 y13 y14 y15 y16 y17 y18.
Definition set_m_compositor (v : Compositor) (m : Machine) : Machine :=
  let '(mkMachine y0 y1 y2 y3 y4 y5 _ y7 y8 y9 y10 y11 y12 y13 y14 y15 y16 y17 y18) := m in
  mkMachine y0 y1 y2 y3 y4 y5 v y7 y8 y9 y10 y11 y12 y13 y14 y15 y16 y17 y18.
Definition set_m_deviceSharing (v : bool) (m : Machine) : Machine :=
  let '(mkMachine y0 y1 y2 y3 y4 y5 y6 _ y8 y9 y10 y11 y12 y13 y14 y15 y16 y17 y18) := m in
  mkMachine y0 y1 y2 y3 y4 y5 y6 v y8 y9 y10 y11 y12 y13 y14 y15 y16 y17 y18.
Definition set_m_direction (v : FlowDirection) (m : Machine) : Machine :=
  let '(mkMachine y0 y1 y2 y3 y4 y5 y6 y7 _ y9 y10 y11 y12 y13 y14 y15 y16 y17 y18) := m in
  mkMachine y0 y1 y2 y3 y4 y5 y6 y7 v y9 y10 y11 y12 y13 y14 y15 y16 y17 y18.
Definition set_m_pingTimer (v : Timer) (m : Machine) : Machine :=
  let '(mkMachine y0 y1 y2 y3 y4 y5 y6 y7 y8 _ y10 y11 y12 y13 y14 y15 y16 y17 y18) := m in
  mkMachine y0 y1 y2 y3 y4 y5 y6 y7 y8 v y10 y11 y12 y13 y14 y15 y16 y17 y18.
Definition set_m_offlineTimer (v : Timer) (m : Machine) : Machine :=
  let '(mkMachine y0 y1 y2 y3 y4 y5 y6 y7 y8 y9 _ y11 y12 y13 y14 y15 y16 y17 y18) := m in
  mkMachine y0 y1 y2 y3 y4 y5 y6 y7 y8 y9 v y11 y12 y13 y14 y15 y16 y17 y18.
Definition set_m_ip (v : string) (m : Machine) : Machine :=
  let '(mkMachine y0 y1 y2 y3 y4 y5 y6 y7 y8 y9 y10 y11 _ y13 y14 y15 y16 y17 y18) := m in
  mkMachine y0 y1 y2 y3 y4 y5 y6 y7 y8 y9 y10 y11 v y13 y14 y15 y16 y17 y18.
Definition set_m_conn (v : option TCP) (m : Machine) : Machine :=
  let '(mkMachine y0 y1 y2 y3 y4 y5 y6 y7 y8 y9 y10 y11 y12 _ y14 y15 y16 y17 y18) := m in
  mkMachine y0 y1 y2 y3 y4 y5 y6 y7 y8 y9 y10 y11 y12 v y14 y15 y16 y17 y18.
Definition set_m_confirmDialog (v : option ConfirmDialogWrapper) (m : Machine) : Machine :=
  let '(mkMachine y0 y1 y2 y3 y4 y5 y6 y7 y8 y9 y10 y11 y12 y13 _ y15 y16 y17 y18) := m in
  mkMachine y0 y1 y2 y3 y4 y5 y6 y7 y8 y9 y10 y11 y12 y13 v y15 y16 y17 y18.
Definition set_m_fuseServer (v : option FuseServer) (m : Machine) : Machine :=
  let '(mkMachine y0 y1 y2 y3 y4 y5 y6 y7 y8 y9 y10 y11 y12 y13 y14 y15 _ y17 y18) := m in
  mkMachine y0 y1 y2 y3 y4 y5 y6 y7 y8 y9 y10 y11 y12 y13 y14 y15 v y17 y18.
Definition set_m_fuseClient (v : option FuseClient) (m : Machine) : Machine :=
  let '(mkMachine y0 y1 y2 y3 y4 y5 y6 y7 y8 y9 y10 y11 y12 y13 y14 y15 y16 _ y18) := m in
  mkMachine y0 y1 y2 y3 y4 y5 y6 y7 y8 y9 y10 y11 y12 y13 y14 y15 y16 v y18.
Definition set_m_sharedClipboard (v : bool) (m : Machine) : Machine :=
  let '(mkMachine y0 y1 y2 y3 y4 y5 y6 y7 y8 y9 y10 y11 y12 y13 y14 y15 y16 y17 _) := m in
  mkMachine y0 y1 y2 y3 y4 y5 y6 y7 y8 y9 y10 y11 y12 y13 y14 y15 y16 y17 v.

(** What the code hands to its collaborators, in the order it does. *)
Inductive ManagerCall :=
  | mgr_ping (ip : string)
  | mgr_onMachineOffline (uuid : string)
  | mgr_onStopDeviceSharing
  | mgr_onStartDeviceSharing (machine_uuid : string) (flag : bool)
  | mgr_machineCooperated (uuid : string)
  | mgr_onFlowBack (direction : FlowDirection) (x y : Z)
  | mgr_onMachineOwnClipboard (machine_uuid : string) (targets : list string).

Inductive DBusUpdate :=
  | updateConnected (b : bool)
  | updateDeviceSharing (b : bool)
  | updateDirection (d : FlowDirection).

Inductive Effect :=
  | tcp_connect (ip : string) (port : Z)
  | tcp_write (bytes : list byte)
  | tcp_close
  | call_manager (c : ManagerCall)
  | dbus_adaptor (u : DBusUpdate)
  | virt_handleConnected
  | virt_handleDisconnected
  | confirm_dialog_show (ip name : string)
  | input_emitEvent (dev : InputDeviceType) (type code value : Z)
  | fuse_client_exit
  | process_spawn (file : string) (args : list string)
  | notify_received_file (path : string) (isSuccess : bool)
  | clipboard_readTargetContent (target : string) (cb : ReadTargetCb)
  | clipboard_updateTargetContent (target : string) (content : string).

(** Modelled from the spec: what Machine.cc asks of collaborators whose
    code is not under src/ ([Manager], [Net], [ClipboardBase],
    [FuseServer], the injector pipes). *)
Record Env := {
  manager_uuid : string;
  manager_isSharedClipboard : bool;
  manager_isSharedDevices : bool;
  manager_fileStoragePath : string;
  net_hostname : string;
  clipboard_isFiles : bool;
  fuse_server_listen_port : Z;
  pipe_accepts : InputDeviceType -> bool
}.

(** A Machine in its loop: the object, the closures queued on
    [m_async], the child processes spawned, and the trace of effects. *)
Record World := mkWorld {
  machine : Machine;
  env : Env;
  wakes : list WakeFn;
  processes : list Process;
  trace : list Effect
}.

Definition set_machine (v : Machine) (w : World) : World :=
  mkWorld v (env w) (wakes w) (processes w) (trace w).
Definition set_wakes (v : list WakeFn) (w : World) : World :=
  mkWorld (machine w) (env w) v (processes w) (trace w).
Definition set_processes (v : list Process) (w : World) : World :=
  mkWorld (machine w) (env w) (wakes w) v (trace w).
Definition set_trace (v : list Effect) (w : World) : World :=
  mkWorld (machine w) (env w) (wakes w) (processes w) v.

(** ** The monad of member functions *)

(** A member function either returns, or has no defined behaviour because
    it goes through [m_conn] after it was reset ([NullConn]); the
    dispatcher's loop is run with a bound on its iterations
    ([OutOfFuel]). *)
Inductive Fault := NullConn | OutOfFuel.

Inductive Result (A : Type) :=
  | Ok (a : A) (w : World)
  | Err (f : Fault).
Arguments Ok {A} a w.
Arguments Err {A} f.

Definition M (A : Type) : Type := World -> Result A.

#[global] Instance M_ret : MRet M := fun A a w => Ok a w.
#[global] Instance M_bind : MBind M := fun A B f c w =>
  match c w with
  | Ok a w' => f a w'
  | Err e => Err e
  end.

Definition gets {A} (f : Machine -> A) : M A := fun w => Ok (f (machine w)) w.
Definition modify (f : Machine -> Machine) : M unit :=
  fun w => Ok tt (set_machine (f (machine w)) w).
Definition ask {A} (f : Env -> A) : M A := fun w => Ok (f (env w)) w.
Definition emit (e : Effect) : M unit :=
  fun w => Ok tt (set_trace (trace w ++ [e]) w).
Definition modify_world (f : World -> World) : M unit := fun w => Ok tt (f w).
Definition fault {A} (f : Fault) : M A := fun _ => Err f.
Definition when (b : bool) (c : M unit) : M unit := if b then c else mret tt.

(** [m_conn->f(...)]. *)
Definition conn (f : TCP -> TCP) : M unit :=
  c ← gets m_conn;
  match c with
  | None => fault NullConn
  | Some c => modify (set_m_conn (Some (f c)))
  end.

Definition conn_write (bytes : list byte) : M unit :=
  c ← gets m_conn;
  match c with
  | None => fault NullConn
  | Some _ => emit (tcp_write bytes)
  end.

Definition conn_close : M unit :=
  conn TCP.close;; emit tcp_close.

(** ** std::string operations used by Machine.cc *)

Module Str.

(** [s.empty()]. *)
Definition empty (s : string) : bool :=
  match s with EmptyString => true | _ => false end.

(** [s[0]]; on an empty string that is the terminating NUL. *)
Definition front (s : string) : ascii :=
  match s with EmptyString => Ascii.zero | String c _ => c end.

(** [s.rfind(p, 0) == 0]: [s] starts with [p]. *)
Definition starts_with (p s : string) : bool := String.prefix p s.

Definition npos : Z := 2 ^ 64 - 1.

(** [s.find_last_of(c)]: the index of the last [c], or [npos]. *)
Fixpoint find_last_of_from (i : Z) (s : string) (c : ascii) (found : Z) : Z :=
  match s with
  | EmptyString => found
  | String d s' =>
      find_last_of_from (i + 1) s' c (if Ascii.eqb d c then i else found)
  end.

Definition find_last_of (s : string) (c : ascii) : Z :=
  find_last_of_from 0 s c npos.

Definition length (s : string) : Z := Z.of_nat (String.length s).

(** [s.substr(pos, n)] for [pos <= s.size()]. *)
Definition substr (s : string) (pos n : Z) : string :=
  String.substring (Z.to_nat pos) (Z.to_nat n) s.

(** The lines [std::getline(ss, line, '\n')] yields one after the other
    in a [while (!ss.eof())] loop over a stream on [s]: the pieces
    between newlines, the piece after the last newline included. *)
Fixpoint getlines_from (cur : string) (s : string) : list string :=
  match s with
  | EmptyString => [String.rev cur]
  | String c s' =>
      if Ascii.eqb c "010"%char
      then String.rev cur :: getlines_from EmptyString s'
      else getlines_from (String c cur) s'
  end.

Definition getlines (s : string) : list string := getlines_from EmptyString s.

(** [s.back()]; on an empty string, the terminating NUL. *)
Fixpoint back (s : string) : ascii :=
  match s with
  | EmptyString => Ascii.zero
  | String c EmptyString => c
  | String _ s' => back s'
  end.

End Str.

(** [std::filesystem::path::operator/] (POSIX): an absolute right-hand
    side replaces the path; otherwise it is appended, after a separator
    when the path has a filename, that is, is not empty and does not end
    with a separator. *)
Definition path_has_filename (p : string) : bool :=
  negb (Str.empty p) && negb (Ascii.eqb (Str.back p) "/").

Definition path_append (p q : string) : string :=
  if Ascii.eqb (Str.front q) "/" then q
  else if path_has_filename p then p +:+ "/" +:+ q
  else p +:+ q.

Definition fileSchema : string := "file://".
Definition clipboardFileTarget : string := "x-special/gnome-copied-files".
Definition uriListTarget : string := "text/uri-list".

Definition U10s : Z := 10 * 1000.
Definition U25s : Z := 25 * 1000.

(** ** Machine.cc *)

Section MachineCc.
Context `{Host} `{!Protobuf Message}.

(** Lines 746-753. *)
Definition sendMessage (msg : Message) : M unit :=
  c ← gets m_conn;
  match c with
  | None => mret tt
  | Some _ => conn_write (genMessage msg)
  end.

(** Lines 755-762. *)
Definition sendServiceStatusNotification : M unit :=
  clip ← ask manager_isSharedClipboard;
  devs ← ask manager_isSharedDevices;
  sendMessage (kServiceOnOffNotification
                 {| sharedclipboardon := clip; shareddeviceson := devs |}).

(** Lines 709-714. *)
Definition sendFlowDirectionNtf : M unit :=
  d ← gets m_direction;
  sendMessage (kFlowDirectionNtf {| ntf_direction := d |}).

(** Lines 716-733: the desktop notification "Receive file %1 %2". *)
Definition sendReceivedFilesSystemNtf (path : string) (isSuccess : bool) : M unit :=
  emit (notify_received_file path isSuccess).

(** Lines 664-669. *)
Definition stopDeviceSharingAux : M unit :=
  emit (call_manager mgr_onStopDeviceSharing);;
  modify (set_m_deviceSharing false);;
  b ← gets m_deviceSharing;
  emit (dbus_adaptor (updateDeviceSharing b)).

(** Lines 201-206. *)
Definition initConnection : M unit :=
  conn (TCP.onClosed (Some cb_handleDisconnectedAux));;
  conn (TCP.onReceived (Some cb_dispatcher));;
  conn TCP.tcpNoDelay;;
  conn (TCP.keepalive true 20).

(** Lines 113-143: [connect()] and the two lambdas it installs. *)
Definition connect_onConnected : M unit :=
  initConnection;;
  conn TCP.startRead;;
  modify (fun m => set_m_pingTimer (Timer.stop (m_pingTimer m)) m);;
  modify (fun m => set_m_offlineTimer (Timer.stop (m_offlineTimer m)) m);;
  uuid ← ask manager_uuid;
  host ← ask net_hostname;
  sendMessage (kPairRequest
    {| preq_key := SCAN_KEY;
       preq_deviceinfo :=
         {| di_uuid := uuid; di_name := host;
            di_os := DEVICE_OS_LINUX; di_compositor := COMPOSITOR_X11 |} |}).

Definition connect_onConnectFailed (title msg : string) : M unit :=
  ip ← gets m_ip;
  emit (call_manager (mgr_ping ip)).

Definition connect : M unit :=
  modify (set_m_conn (Some TCP.new));;
  conn (TCP.onConnected (Some cb_connect_onConnected));;
  conn (TCP.onConnectFailed (Some cb_connect_onConnectFailed));;
  ip ← gets m_ip;
  port ← gets m_port;
  emit (tcp_connect ip port).

(** Lines 145-150. *)
Definition updateMachineInfo (ip : string) (port : Z) (devInfo : DeviceInfo) : M unit :=
  modify (set_m_ip ip);;
  modify (set_m_port port);;
  modify (set_m_name (di_name devInfo));;
  modify (set_m_compositor (di_compositor devInfo)).

(** Lines 152-155. *)
Definition receivedPing : M unit :=
  modify (fun m => set_m_offlineTimer (Timer.reset (m_offlineTimer m)) m);;
  modify (fun m => set_m_pingTimer (Timer.reset (m_pingTimer m)) m).

(** Lines 157-166. *)
Definition onPair (sock : TCP) : M unit :=
  modify (set_m_conn (Some sock));;
  ip ← gets m_ip;
  name ← gets m_name;
  modify (set_m_confirmDialog (Some {| dlg_ip := ip; dlg_name := name |}));;
  emit (confirm_dialog_show ip name).

(** Lines 168-170. *)
Definition disconnect : M unit := conn_close.

(** Lines 172-176. *)
Definition requestDeviceSharing : M unit :=
  sendMessage kDeviceSharingStartRequest.

(** Lines 178-184. *)
Definition stopDeviceSharing : M unit :=
  sendMessage kDeviceSharingStopRequest;;
  stopDeviceSharingAux.

(** Lines 186-191. *)
Definition setFlowDirection (direction : FlowDirection) : M unit :=
  d ← gets m_direction;
  if bool_decide (d ≠ direction)
  then modify (set_m_direction direction);; sendFlowDirectionNtf
  else mret tt.

(** Lines 193-199. *)
Definition ping : M unit :=
  ip ← gets m_ip;
  emit (call_manager (mgr_ping ip)).

Definition onOffline : M unit :=
  uuid ← gets m_uuid;
  emit (call_manager (mgr_onMachineOffline uuid)).

(** Lines 208-234. *)
Definition handleDisconnectedAux : M unit :=
  connected ← gets m_connected;
  when connected (
    emit (call_manager mgr_onStopDeviceSharing);;
    modify (set_m_deviceSharing false);;
    sharing ← gets m_deviceSharing;
    emit (dbus_adaptor (updateDeviceSharing sharing));;
    modify (set_m_connected false);;
    connected ← gets m_connected;
    emit (dbus_adaptor (updateConnected connected)));;
  fuseClient ← gets m_fuseClient;
  when (bool_decide (is_Some fuseClient)) (
    emit fuse_client_exit;;
    modify (set_m_fuseClient None));;
  fuseServer ← gets m_fuseServer;
  when (bool_decide (is_Some fuseServer)) (
    modify (set_m_fuseServer None));;
  modify (set_m_conn None);;
  modify (fun m => set_m_pingTimer (Timer.reset (m_pingTimer m)) m);;
  emit virt_handleDisconnected.

(** Lines 356-372. *)
Definition handlePairResponseAux (resp : PairResponse) : M unit :=
  let agree := presp_agree resp in
  if negb agree then
    conn_close;;
    modify (set_m_connected false);;
    connected ← gets m_connected;
    emit (dbus_adaptor (updateConnected connected))
  else
    modify (set_m_connected true);;
    connected ← gets m_connected;
    emit (dbus_adaptor (updateConnected connected));;
    sendServiceStatusNotification;;
    emit virt_handleConnected.

(** Lines 374-376. *)
Definition handleServiceOnOffMsg (notification : ServiceOnOffNotification) : M unit :=
  modify (set_m_sharedClipboard (sharedclipboardon notification)).

(** [m_async->wake(fn)]: [fn] runs on the loop at its next turn. *)
Definition async_wake (fn : WakeFn) : M unit :=
  modify_world (fun w => set_wakes (wakes w ++ [fn]) w).

(** Lines 378-399: the handler queues its lambda; [wake_body] below is
    the lambda. *)
Definition handleDeviceSharingStartRequest : M unit :=
  let accepted := true in
  async_wake (wake_DeviceSharingStartRequest accepted).

(** Lines 401-417. *)
Definition handleDeviceSharingStartResponse (resp : DeviceSharingStartResponse) : M unit :=
  if negb (dss_accept resp) then mret tt
  else
    modify (set_m_deviceSharing true);;
    sharing ← gets m_deviceSharing;
    emit (dbus_adaptor (updateDeviceSharing sharing));;
    uuid ← gets m_uuid;
    emit (call_manager (mgr_machineCooperated uuid));;
    modify (set_m_direction FLOW_DIRECTION_RIGHT);;
    d ← gets m_direction;
    emit (dbus_adaptor (updateDirection d));;
    sendFlowDirectionNtf;;
    emit (call_manager (mgr_onStartDeviceSharing uuid true)).

(** Lines 419-421. *)
Definition handleDeviceSharingStopRequest : M unit := stopDeviceSharingAux.

(** Modelled from the spec: [InputEmittorWrapper::emitEvent]
    (InputEmittorWrapper.cc is not under src/), section 4.6: it writes
    the triple to the injector's pipe, and the return indicates whether
    the pipe accepted the bytes. *)
Definition emitEvent (e : InputEmittorWrapper) (type code value : Z) : M bool :=
  emit (input_emitEvent (m_type e) type code value);;
  ask (fun v => pipe_accepts v (m_type e)).

(** Lines 423-444. *)
Definition handleInputEventRequest (req : InputEventRequest) : M unit :=
  let deviceType := static_cast_InputDeviceType (ireq_devicetype req) in
  emittors ← gets m_inputEmittors;
  success ←
    match emittors !! deviceType with
    | None => mret false
    | Some inputEmittor =>
        emitEvent inputEmittor (ireq_type req) (ireq_code req) (ireq_value req)
    end;
  let resp := kInputEventResponse
                {| iresp_serial := ireq_serial req; iresp_success := success |} in
  conn_write (genMessage resp).

(** Lines 446-462. *)
Definition handleFlowDirectionNtf (ntf : FlowDirectionNtf) : M unit :=
  match ntf_direction ntf with
  | FLOW_DIRECTION_TOP => modify (set_m_direction FLOW_DIRECTION_BOTTOM)
  | FLOW_DIRECTION_BOTTOM => modify (set_m_direction FLOW_DIRECTION_TOP)
  | FLOW_DIRECTION_LEFT => modify (set_m_direction FLOW_DIRECTION_RIGHT)
  | FLOW_DIRECTION_RIGHT => modify (set_m_direction FLOW_DIRECTION_LEFT)
  | FLOW_DIRECTION_UNRECOGNIZED _ => mret tt
  end.

(** Lines 464-466. *)
Definition handleFlowRequest (req : FlowRequest) : M unit :=
  emit (call_manager (mgr_onFlowBack (flow_direction req) (flow_x req) (flow_y req))).

(** Lines 468-486. *)
Definition handleFsRequest : M unit :=
  fuseServer ← gets m_fuseServer;
  match fuseServer with
  | Some _ =>
      sendMessage (kFsResponse {| fs_accepted := false; fs_port := 0 |})
  | None =>
      port ← ask fuse_server_listen_port;
      modify (set_m_fuseServer (Some {| fuse_server_port := port |}));;
      sendMessage (kFsResponse {| fs_accepted := true; fs_port := port |})
  end.

(** Lines 488-494. *)
Definition handleFsResponse (resp : FsResponse) : M unit :=
  if negb (fs_accepted resp) then mret tt
  else
    ip ← gets m_ip;
    mountpoint ← gets m_mountpoint;
    modify (set_m_fuseClient
      (Some {| fuse_client_ip := ip; fuse_client_port := fs_port resp;
               fuse_client_mountpoint := mountpoint |})).

(** Lines 511-515: the path of the file under the mountpoint. *)
Definition fsSendFile_filePath (mountpoint reqPath : string) : string :=
  let reqPath :=
    if negb (Str.empty reqPath) && negb (Ascii.eqb (Str.front reqPath) "/")
    then "/" +:+ reqPath
    else reqPath in
  mountpoint +:+ reqPath.

(** [std::make_shared<uvxx::Process>(m_uvLoop, file)], [onExit(cb)] and
    [spawn()]. *)
Definition Process_new (file : string) : Process :=
  {| proc_file := file; proc_args := []; proc_exitCb := None |}.

Definition Process_onExit (cb : option ExitCb) (p : Process) : Process :=
  {| proc_file := proc_file p; proc_args := proc_args p; proc_exitCb := cb |}.

Definition Process_spawn (p : Process) : M unit :=
  modify_world (fun w => set_processes (processes w ++ [p]) w);;
  emit (process_spawn (proc_file p) (proc_args p)).

(** Lines 496-541; the lambda given to [onExit] is [exit_body] below. *)
Definition handleFsSendFileRequest (req : FsSendFileRequest) : M unit :=
  fuseClient ← gets m_fuseClient;
  if negb (bool_decide (is_Some fuseClient)) then
    sendMessage (kFsSendFileResponse
      {| sfresp_serial := sfreq_serial req; sfresp_accepted := false |})
  else
    sendMessage (kFsSendFileResponse
      {| sfresp_serial := sfreq_serial req; sfresp_accepted := true |});;
    storagePath ← ask manager_fileStoragePath;
    mountpoint ← gets m_mountpoint;
    let filePath := fsSendFile_filePath mountpoint (sfreq_path req) in
    let process := Process_new "/bin/cp" in
    let process :=
      Process_onExit
        (Some (exit_FsSendFile storagePath (sfreq_serial req) (sfreq_path req)))
        process in
    Process_spawn process.

(** Lines 517-539: the body of the [onExit] lambda. *)
Definition exit_body (cb : ExitCb) (exit_status term_signal : Z) : M unit :=
  match cb with
  | exit_FsSendFile storagePath serial path =>
      let iPos := uint64 (Str.find_last_of path "/" + 1) in
      let fileName := Str.substr path iPos (uint64 (Str.length path - iPos)) in
      sendReceivedFilesSystemNtf (storagePath +:+ "/" +:+ fileName) (exit_status =? 0);;
      sendMessage (kFsSendFileResult
        {| sfres_serial := serial; sfres_path := path;
           sfres_result := (exit_status =? 0) |})
  end.

(** The loop reports the exit of the [i]-th child spawned: its [onExit]
    callback runs, and the lambda ends by clearing itself
    ([process->onExit(nullptr)], line 538). *)
Definition process_exited (i : nat) (exit_status term_signal : Z) : M unit :=
  fun w =>
    match processes w !! i with
    | Some p =>
        match proc_exitCb p with
        | Some cb =>
            (exit_body cb exit_status term_signal;;
             modify_world (fun w' => set_processes
               (<[i := Process_onExit None p]> (processes w')) w')) w
        | None => Ok tt w
        end
    | None => Ok tt w
    end.

(** Lines 543-554. *)
Definition handleClipboardNotify (notify : ClipboardNotify) : M unit :=
  let targets := cn_targets notify in
  os ← gets m_os;
  let targets :=
    if bool_decide (os ≠ DEVICE_OS_UOS) && bool_decide (clipboardFileTarget ∈ targets)
    then targets ++ [uriListTarget]
    else targets in
  uuid ← gets m_uuid;
  emit (call_manager (mgr_onMachineOwnClipboard uuid targets)).

(** Lines 556-566; the callback is [readTarget_body]. *)
Definition handleClipboardGetContentRequest (req : ClipboardGetContentRequest) : M unit :=
  let target := cgreq_target req in
  emit (clipboard_readTargetContent target (read_ClipboardGetContent target)).

Definition readTarget_body (cb : ReadTargetCb) (content : string) : M unit :=
  match cb with
  | read_ClipboardGetContent target =>
      sendMessage (kClipboardGetContentResponse
        {| cgresp_target := target; cgresp_content := content |})
  end.

(** Lines 574-598: every line that is a path, or a [file://] URI, gets
    the mountpoint in front. *)
Definition rewrite_line (mountpoint line : string) : string :=
  if Ascii.eqb (Str.front line) "/" then mountpoint +:+ line
  else if Str.starts_with fileSchema line
  then fileSchema +:+ mountpoint +:+
         Str.substr line (Str.length fileSchema) (Str.length line)
  else line.

Definition rewrite_content (mountpoint content : string) : string :=
  let out :=
    foldr (fun line acc => rewrite_line mountpoint line +:+ String "010"%char acc)
          EmptyString (Str.getlines content) in
  Str.substr out 0 (Str.length out - 1).

(** Lines 602-611: the loop that looks for the first [file://] line. *)
Fixpoint first_file_uri (lines : list string) (filePath : string) : string :=
  match lines with
  | [] => filePath
  | line :: rest =>
      if negb (Str.empty line) && Str.starts_with fileSchema line
      then Str.substr line (Str.length fileSchema)
                      (Str.length line - Str.length fileSchema)
      else first_file_uri rest line
  end.

(** Lines 568-621. *)
Definition handleClipboardGetContentResponse (resp : ClipboardGetContentResponse) : M unit :=
  let target := cgresp_target resp in
  let content := cgresp_content resp in
  isFiles ← ask clipboard_isFiles;
  mountpoint ← gets m_mountpoint;
  let content := if (isFiles : bool) then rewrite_content mountpoint content else content in
  os ← gets m_os;
  when (bool_decide (os ≠ DEVICE_OS_UOS) && bool_decide (target = clipboardFileTarget)) (
    let filePath := first_file_uri (Str.getlines content) EmptyString in
    when (negb (Str.empty filePath))
      (emit (clipboard_updateTargetContent uriListTarget filePath)));;
  emit (clipboard_updateTargetContent target content).

(** Lines 623-634. *)
Definition onInputGrabberEvent (deviceType : InputDeviceType) (type code value : Z) : M unit :=
  sendMessage (kInputEventRequest
    {| ireq_serial := 0; ireq_devicetype := static_cast_DeviceType deviceType;
       ireq_type := type; ireq_code := code; ireq_value := value |}).

(** Lines 636-646. *)
Definition onClipboardTargetsChanged (targets : list string) : M unit :=
  shared ← ask manager_isSharedClipboard;
  if negb shared then mret tt
  else sendMessage (kClipboardNotify {| cn_targets := targets |}).

(** Lines 648-655. *)
Definition flowTo (direction : FlowDirection) (x y : Z) : M unit :=
  sendMessage (kFlowRequest
    {| flow_direction := direction; flow_x := x; flow_y := y |}).

(** Lines 657-662. *)
Definition readTarget (target : string) : M unit :=
  sendMessage (kClipboardGetContentRequest {| cgreq_target := target |}).

(** Lines 671-707.  The dialog's buffer is passed by reference: the
    result is the buffer afterwards. *)
Definition receivedUserConfirm (buff : Buffer) : M Buffer :=
  modify (set_m_confirmDialog None);;
  if negb (Buffer.size buff =? 1) then mret buff
  else
    let isAccept := bool_decide (Buffer.data buff 0 = ACCEPT) in
    let buff := Buffer.clear buff in
    uuid ← ask manager_uuid;
    host ← ask net_hostname;
    sendMessage (kPairResponse
      {| presp_key := SCAN_KEY;
         presp_deviceinfo :=
           {| di_uuid := uuid; di_name := host;
              di_os := DEVICE_OS_LINUX; di_compositor := COMPOSITOR_X11 |};
         presp_agree := isAccept |});;
    (if isAccept then
       initConnection;;
       modify (fun m => set_m_pingTimer (Timer.stop (m_pingTimer m)) m);;
       modify (fun m => set_m_offlineTimer (Timer.stop (m_offlineTimer m)) m);;
       modify (set_m_connected true);;
       connected ← gets m_connected;
       emit (dbus_adaptor (updateConnected connected));;
       sendServiceStatusNotification;;
       emit virt_handleConnected
     else conn_close);;
    mret buff.

(** Lines 735-744. *)
Definition sendFiles (filePaths : list string) : M unit :=
  async_wake (wake_sendFiles filePaths).

Fixpoint for_each {A} (f : A -> M unit) (l : list A) : M unit :=
  match l with
  | [] => mret tt
  | x :: l' => f x;; for_each f l'
  end.

(** The lambdas queued on [m_async] (lines 380-398 and 736-743). *)
Definition wake_body (fn : WakeFn) : M unit :=
  match fn with
  | wake_DeviceSharingStartRequest accepted =>
      sendMessage (kDeviceSharingStartResponse {| dss_accept := accepted |});;
      when accepted (
        uuid ← gets m_uuid;
        emit (call_manager (mgr_onStartDeviceSharing uuid true));;
        modify (set_m_deviceSharing true);;
        sharing ← gets m_deviceSharing;
        emit (dbus_adaptor (updateDeviceSharing sharing));;
        emit (call_manager (mgr_machineCooperated uuid));;
        modify (set_m_direction FLOW_DIRECTION_LEFT);;
        d ← gets m_direction;
        emit (dbus_adaptor (updateDirection d)))
  | wake_sendFiles filePaths =>
      for_each (fun filePath =>
        sendMessage (kFsSendFileRequest
          {| sfreq_serial := 0; sfreq_path := filePath |})) filePaths
  end.

(** The loop runs the closure that was queued first. *)
Definition async_turn : M unit :=
  fun w =>
    match wakes w with
    | [] => Ok tt w
    | fn :: rest => wake_body fn (set_wakes rest w)
    end.

(** Lines 255-352: the [switch] of the dispatcher.  The result tells
    whether the loop goes on ([break]) or the function returns. *)
Definition handleMessage (msg : Message) : M bool :=
  match msg with
  | kPairResponse m => handlePairResponseAux m;; mret true
  | kServiceOnOffNotification m => handleServiceOnOffMsg m;; mret true
  | kDeviceSharingStartRequest => handleDeviceSharingStartRequest;; mret true
  | kDeviceSharingStartResponse m => handleDeviceSharingStartResponse m;; mret true
  | kDeviceSharingStopRequest => handleDeviceSharingStopRequest;; mret true
  | kDeviceSharingStopResponse => mret true
  | kInputEventRequest m => handleInputEventRequest m;; mret true
  | kInputEventResponse _ => mret true
  | kFlowDirectionNtf m => handleFlowDirectionNtf m;; mret true
  | kFlowRequest m => handleFlowRequest m;; mret true
  | kFlowResponse => mret true
  | kFsRequest => handleFsRequest;; mret true
  | kFsResponse m => handleFsResponse m;; mret true
  | kFsSendFileRequest m => handleFsSendFileRequest m;; mret true
  | kFsSendFileResponse _ => mret true
  | kFsSendFileResult _ => mret true
  | kClipboardNotify m => handleClipboardNotify m;; mret true
  | kClipboardGetContentRequest m => handleClipboardGetContentRequest m;; mret true
  | kClipboardGetContentResponse m => handleClipboardGetContentResponse m;; mret true
  | kPairRequest _ | PAYLOAD_NOT_SET => conn_close;; mret false
  end.

(** Lines 236-354.  [fuel] bounds the iterations of the [while]; the
    result is the buffer afterwards. *)
Fixpoint dispatcher (fuel : nat) (buff : Buffer) : M Buffer :=
  match fuel with
  | O => fault OutOfFuel
  | S fuel =>
      if header_size <=? Buffer.size buff then
        match parseMessage buff with
        | (unexpected e, buff) =>
            when (bool_decide (e = ILLEGAL_MESSAGE)) conn_close;;
            mret buff
        | (value msg, buff) =>
            continue ← handleMessage msg;
            if (continue : bool) then dispatcher fuel buff else mret buff
        end
      else mret buff
  end.

(** Lines 91-102: the destructor. *)
Definition Machine_delete : M unit :=
  modify (fun m => set_m_pingTimer (Timer.close (m_pingTimer m)) m);;
  modify (fun m => set_m_offlineTimer (Timer.close (m_offlineTimer m)) m);;
  c ← gets m_conn;
  when (bool_decide (is_Some c)) (
    conn (TCP.onClosed None);;
    conn_close;;
    emit (call_manager mgr_onStopDeviceSharing)).

(** Lines 104-111. *)
Definition isPcMachine (m : Machine) : bool :=
  bool_decide (m_os m = DEVICE_OS_UOS) || bool_decide (m_os m = DEVICE_OS_LINUX) ||
  bool_decide (m_os m = DEVICE_OS_WINDOWS) || bool_decide (m_os m = DEVICE_OS_MACOS).

Definition isAndroid (m : Machine) : bool :=
  bool_decide (m_os m = DEVICE_OS_ANDROID).

(** Lines 36-89: the state the constructor leaves. *)
Definition Machine_new (dataDir ip : string) (port : Z) (sp : DeviceInfo) : Machine :=
  {| m_mountpoint := path_append dataDir "mp";
     m_port := port;
     m_uuid := di_uuid sp;
     m_name := di_name sp;
     m_connected := false;
     m_os := di_os sp;
     m_compositor := di_compositor sp;
     m_deviceSharing := false;
     m_direction := FLOW_DIRECTION_RIGHT;
     m_pingTimer := Timer.start U10s Timer.new;
     m_offlineTimer := Timer.oneshot U25s Timer.new;
     m_mounted := false;
     m_ip := ip;
     m_conn := None;
     m_confirmDialog := None;
     m_inputEmittors :=
       <[TOUCHPAD := {| m_type := TOUCHPAD |}]>
         (<[MOUSE := {| m_type := MOUSE |}]>
            (<[KEYBOARD := {| m_type := KEYBOARD |}]> ∅));
     m_fuseServer := None;
     m_fuseClient := None;
     m_sharedClipboard := false |}.

End MachineCc.

(** ** A reference wire format *)

(** The development is parametric in the protobuf codec.  To run the model
    on concrete inputs it is instantiated with this length-prefixed
    encoding of [Message] on a little-endian host. *)
Module Reference.

Definition Dec (A : Type) : Type := list byte -> option (A * list byte).

Definition dret {A} (a : A) : Dec A := fun bs => Some (a, bs).
Definition dbind {A B} (d : Dec A) (k : A -> Dec B) : Dec B :=
  fun bs => match d bs with Some (a, bs') => k a bs' | None => None end.
Definition dmap {A B} (f : A -> B) (d : Dec A) : Dec B :=
  dbind d (fun a => dret (f a)).

Notation "x <~ d ;; k" := (dbind d (fun x => k))
  (at level 100, d at next level, right associativity).

Definition enc_Z (z : Z) : list byte := le_bytes64 z.
Definition dec_Z : Dec Z := fun bs =>
  if decide (length bs < 8)%nat then None
  else
    let v := of_le_bytes (take 8 bs) in
    Some (if v <? 2 ^ 63 then v else v - 2 ^ 64, drop 8 bs).

Definition enc_bool (b : bool) : list byte := [if b then "001" else "000"]%byte.
Definition dec_bool : Dec bool := fun bs =>
  match bs with
  | b :: bs' => Some (negb (bool_decide (b = "000"%byte)), bs')
  | [] => None
  end.

Definition enc_tag (n : nat) : list byte := [byte_of_Z (Z.of_nat n)].
Definition dec_tag : Dec nat := fun bs =>
  match bs with
  | b :: bs' => Some (Z.to_nat (Z_of_byte b), bs')
  | [] => None
  end.

Definition enc_string (s : string) : list byte :=
  enc_Z (Str.length s) ++ (byte_of_ascii <$> String.list_ascii_of_string s).
Definition dec_string : Dec string :=
  n <~ dec_Z;;
  fun bs =>
    if decide (length bs < Z.to_nat n)%nat then None
    else Some (String.string_of_list_ascii (ascii_of_byte <$> take (Z.to_nat n) bs),
               drop (Z.to_nat n) bs).

Definition enc_strings (l : list string) : list byte :=
  enc_Z (Z.of_nat (length l)) ++ concat (enc_string <$> l).
Fixpoint dec_n_strings (n : nat) : Dec (list string) :=
  match n with
  | O => dret []
  | S n => s <~ dec_string;; l <~ dec_n_strings n;; dret (s :: l)
  end.
Definition dec_strings : Dec (list string) :=
  n <~ dec_Z;; dec_n_strings (Z.to_nat n).

Definition enc_os (o : DeviceOS) : list byte :=
  enc_tag match o with
          | DEVICE_OS_UOS => 0 | DEVICE_OS_LINUX => 1 | DEVICE_OS_WINDOWS => 2
          | DEVICE_OS_MACOS => 3 | DEVICE_OS_ANDROID => 4 | DEVICE_OS_OTHER => 5
          end%nat.
Definition dec_os : Dec DeviceOS :=
  dmap (fun n => match n with
                 | 0 => DEVICE_OS_UOS | 1 => DEVICE_OS_LINUX | 2 => DEVICE_OS_WINDOWS
                 | 3 => DEVICE_OS_MACOS | 4 => DEVICE_OS_ANDROID | _ => DEVICE_OS_OTHER
                 end%nat) dec_tag.

Definition enc_compositor (c : Compositor) : list byte :=
  enc_tag match c with
          | COMPOSITOR_X11 => 0 | COMPOSITOR_WAYLAND => 1 | COMPOSITOR_NONE => 2
          end%nat.
Definition dec_compositor : Dec Compositor :=
  dmap (fun n => match n with
                 | 0 => COMPOSITOR_X11 | 1 => COMPOSITOR_WAYLAND | _ => COMPOSITOR_NONE
                 end%nat) dec_tag.

Definition enc_direction (d : FlowDirection) : list byte :=
  match d with
  | FLOW_DIRECTION_TOP => enc_tag 0
  | FLOW_DIRECTION_BOTTOM => enc_tag 1
  | FLOW_DIRECTION_LEFT => enc_tag 2
  | FLOW_DIRECTION_RIGHT => enc_tag 3
  | FLOW_DIRECTION_UNRECOGNIZED n => enc_tag 4 ++ enc_Z n
  end.
Definition dec_direction : Dec FlowDirection :=
  t <~ dec_tag;;
  match t with
  | 0 => dret FLOW_DIRECTION_TOP
  | 1 => dret FLOW_DIRECTION_BOTTOM
  | 2 => dret FLOW_DIRECTION_LEFT
  | 3 => dret FLOW_DIRECTION_RIGHT
  | _ => dmap FLOW_DIRECTION_UNRECOGNIZED dec_Z
  end%nat.

Definition enc_info (i : DeviceInfo) : list byte :=
  enc_string (di_uuid i) ++ enc_string (di_name i) ++
  enc_os (di_os i) ++ enc_compositor (di_compositor i).
Definition dec_info : Dec DeviceInfo :=
  u <~ dec_string;; n <~ dec_string;; o <~ dec_os;; c <~ dec_compositor;;
  dret {| di_uuid := u; di_name := n; di_os := o; di_compositor := c |}.

Definition enc_Message (m : Message) : list byte :=
  match m with
  | PAYLOAD_NOT_SET => []
  | kPairRequest r =>
      enc_tag 1 ++ enc_string (preq_key r) ++ enc_info (preq_deviceinfo r)
  | kPairResponse r =>
      enc_tag 2 ++ enc_string (presp_key r) ++ enc_info (presp_deviceinfo r)
        ++ enc_bool (presp_agree r)
  | kServiceOnOffNotification r =>
      enc_tag 3 ++ enc_bool (sharedclipboardon r) ++ enc_bool (shareddeviceson r)
  | kDeviceSharingStartRequest => enc_tag 4
  | kDeviceSharingStartResponse r => enc_tag 5 ++ enc_bool (dss_accept r)
  | kDeviceSharingStopRequest => enc_tag 6
  | kDeviceSharingStopResponse => enc_tag 7
  | kInputEventRequest r =>
      enc_tag 8 ++ enc_Z (ireq_serial r) ++ enc_Z (ireq_devicetype r)
        ++ enc_Z (ireq_type r) ++ enc_Z (ireq_code r) ++ enc_Z (ireq_value r)
  | kInputEventResponse r =>
      enc_tag 9 ++ enc_Z (iresp_serial r) ++ enc_bool (iresp_success r)
  | kFlowDirectionNtf r => enc_tag 10 ++ enc_direction (ntf_direction r)
  | kFlowRequest r =>
      enc_tag 11 ++ enc_direction (flow_direction r) ++ enc_Z (flow_x r)
        ++ enc_Z (flow_y r)
  | kFlowResponse => enc_tag 12
  | kFsRequest => enc_tag 13
  | kFsResponse r => enc_tag 14 ++ enc_bool (fs_accepted r) ++ enc_Z (fs_port r)
  | kFsSendFileRequest r =>
      enc_tag 15 ++ enc_Z (sfreq_serial r) ++ enc_string (sfreq_path r)
  | kFsSendFileResponse r =>
      enc_tag 16 ++ enc_Z (sfresp_serial r) ++ enc_bool (sfresp_accepted r)
  | kFsSendFileResult r =>
      enc_tag 17 ++ enc_Z (sfres_serial r) ++ enc_string (sfres_path r)
        ++ enc_bool (sfres_result r)
  | kClipboardNotify r => enc_tag 18 ++ enc_strings (cn_targets r)
  | kClipboardGetContentRequest r => enc_tag 19 ++ enc_string (cgreq_target r)
  | kClipboardGetContentResponse r =>
      enc_tag 20 ++ enc_string (cgresp_target r) ++ enc_string (cgresp_content r)
  end.

Definition dec_Message : Dec Message :=
  t <~ dec_tag;;
  match t with
  | 1 => k <~ dec_string;; i <~ dec_info;;
         dret (kPairRequest {| preq_key := k; preq_deviceinfo := i |})
  | 2 => k <~ dec_string;; i <~ dec_info;; a <~ dec_bool;;
         dret (kPairResponse
                 {| presp_key := k; presp_deviceinfo := i; presp_agree := a |})
  | 3 => c <~ dec_bool;; d <~ dec_bool;;
         dret (kServiceOnOffNotification
                 {| sharedclipboardon := c; shareddeviceson := d |})
  | 4 => dret kDeviceSharingStartRequest
  | 5 => a <~ dec_bool;; dret (kDeviceSharingStartResponse {| dss_accept := a |})
  | 6 => dret kDeviceSharingStopRequest
  | 7 => dret kDeviceSharingStopResponse
  | 8 => s <~ dec_Z;; d <~ dec_Z;; t <~ dec_Z;; c <~ dec_Z;; v <~ dec_Z;;
         dret (kInputEventRequest
                 {| ireq_serial := s; ireq_devicetype := d; ireq_type := t;
                    ireq_code := c; ireq_value := v |})
  | 9 => s <~ dec_Z;; b <~ dec_bool;;
         dret (kInputEventResponse {| iresp_serial := s; iresp_success := b |})
  | 10 => d <~ dec_direction;; dret (kFlowDirectionNtf {| ntf_direction := d |})
  | 11 => d <~ dec_direction;; x <~ dec_Z;; y <~ dec_Z;;
          dret (kFlowRequest {| flow_direction := d; flow_x := x; flow_y := y |})
  | 12 => dret kFlowResponse
  | 13 => dret kFsRequest
  | 14 => a <~ dec_bool;; p <~ dec_Z;;
          dret (kFsResponse {| fs_accepted := a; fs_port := p |})
  | 15 => s <~ dec_Z;; p <~ dec_string;;
          dret (kFsSendFileRequest {| sfreq_serial := s; sfreq_path := p |})
  | 16 => s <~ dec_Z;; a <~ dec_bool;;
          dret (kFsSendFileResponse {| sfresp_serial := s; sfresp_accepted := a |})
  | 17 => s <~ dec_Z;; p <~ dec_string;; r <~ dec_bool;;
          dret (kFsSendFileResult
                  {| sfres_serial := s; sfres_path := p; sfres_result := r |})
  | 18 => l <~ dec_strings;; dret (kClipboardNotify {| cn_targets := l |})
  | 19 => t <~ dec_string;; dret (kClipboardGetContentRequest {| cgreq_target := t |})
  | 20 => t <~ dec_string;; c <~ dec_string;;
          dret (kClipboardGetContentResponse
                  {| cgresp_target := t; cgresp_content := c |})
  | _ => fun _ => None
  end%nat.

Definition host : Host := {| BIG_ENDIAN := false |}.

Definition codec : Protobuf Message :=
  {| SerializeAsBytes := enc_Message;
     ParseFromArray := fun p n =>
       match dec_Message (Buffer.read p 0 (Z.to_nat n)) with
       | Some (m, _) => m
       | None => PAYLOAD_NOT_SET
       end |}.

End Reference.

(** ** Vocabulary of the properties *)

Section Vocabulary.
Context `{Host} `{!Protobuf Message}.

(** The PairResponse [receivedUserConfirm] builds (lines 682-689). *)
Definition confirm_response (e : Env) (isAccept : bool) : Message :=
  kPairResponse
    {| presp_key := SCAN_KEY;
       presp_deviceinfo :=
         {| di_uuid := manager_uuid e; di_name := net_hostname e;
            di_os := DEVICE_OS_LINUX; di_compositor := COMPOSITOR_X11 |};
       presp_agree := isAccept |}.

(** The connection as [initConnection] leaves it. *)
Definition initialized (c : TCP) : Prop :=
  closedCb_ c = Some cb_handleDisconnectedAux /\
  receivedCb_ c = Some cb_dispatcher /\
  tcp_nodelay c = true /\
  tcp_keepalive c = Some 20.

(** The Paired state: connected, the connection initialized, both timers
    stopped. *)
Definition Paired (m : Machine) : Prop :=
  m_connected m = true /\
  (exists c, m_conn m = Some c /\ initialized c) /\
  timer_armed (m_pingTimer m) = false /\
  timer_armed (m_offlineTimer m) = false.

Definition service_status (e : Env) : Message :=
  kServiceOnOffNotification
    {| sharedclipboardon := manager_isSharedClipboard e;
       shareddeviceson := manager_isSharedDevices e |}.

(** What both pairing paths end with: the adaptor is told, the
    notification is written, the subclass hook runs. *)
Definition paired_suffix (e : Env) : list Effect :=
  [dbus_adaptor (updateConnected true);
   tcp_write (genMessage (service_status e));
   virt_handleConnected].

(** The outbound path: [connect()], the stream connects, the peer's
    PairResponse arrives. *)
Definition outbound_pairing (resp : PairResponse) : M unit :=
  connect;; connect_onConnected;; handlePairResponseAux resp.

(** The inbound path: the Manager hands over the peer's stream, the
    user answers the dialog. *)
Definition inbound_pairing (sock : TCP) (confirm : Buffer) : M Buffer :=
  onPair sock;; receivedUserConfirm confirm.

(** The variants the dispatcher's [switch] has a [case] for: all but
    PairRequest, and not a message without payload. *)
Definition has_case (msg : Message) : bool :=
  match msg with
  | PAYLOAD_NOT_SET | kPairRequest _ => false
  | _ => true
  end.

(** The world after [m_conn->close()] on the connection [c]. *)
Definition closed (c : TCP) (w : World) : World :=
  set_trace (trace w ++ [tcp_close])
    (set_machine (set_m_conn (Some (TCP.close c)) (machine w)) w).

(** The handlers of [msgs], each run once, in order. *)
Definition handle_all (msgs : list Message) : M unit :=
  for_each (fun msg => handleMessage msg;; mret tt) msgs.

(** Protobuf carries [msg] faithfully: it is within the size limit and
    [ParseFromArray] gives it back from the bytes of its wire image. *)
Definition carried (msg : Message) : Prop :=
  ByteSizeLong msg <= INT_MAX /\
  forall p : nat -> byte,
    (forall i x, SerializeAsBytes msg !! i = Some x -> p i = x) ->
    ParseFromArray p (ByteSizeLong msg) = msg.

(** [rest] is the beginning of a frame that has not arrived in full:
    not yet a header, or a header whose body is short. *)
Definition incomplete (rest : list byte) (storage : nat -> byte) : Prop :=
  Buffer.size (mkBuffer rest storage) < header_size \/
  parseMessage (T := Message) (mkBuffer rest storage) =
    (unexpected PARTIAL_MESSAGE, mkBuffer rest storage).

(** The direction seen from the other side of the shared edge. *)
Definition opposite (d : FlowDirection) : FlowDirection :=
  match d with
  | FLOW_DIRECTION_TOP => FLOW_DIRECTION_BOTTOM
  | FLOW_DIRECTION_BOTTOM => FLOW_DIRECTION_TOP
  | FLOW_DIRECTION_LEFT => FLOW_DIRECTION_RIGHT
  | FLOW_DIRECTION_RIGHT => FLOW_DIRECTION_LEFT
  | FLOW_DIRECTION_UNRECOGNIZED n => FLOW_DIRECTION_UNRECOGNIZED n
  end.

(** One of the four directions the schema names. *)
Definition recognized (d : FlowDirection) : bool :=
  match d with
  | FLOW_DIRECTION_UNRECOGNIZED _ => false
  | _ => true
  end.

(** The character [c] occurs in [s]. *)
Fixpoint has_char (c : ascii) (s : string) : bool :=
  match s with
  | EmptyString => false
  | String d s' => Ascii.eqb d c || has_char c s'
  end.

(** Lines joined by newlines, none after the last. *)
Fixpoint join_lines (lines : list string) : string :=
  match lines with
  | [] => EmptyString
  | [line] => line
  | line :: rest => line +:+ String "010"%char (join_lines rest)
  end.

(** What a Machine is for its peer: the members that are set when it is
    constructed, or by [updateMachineInfo]. *)
Definition same_peer (m m' : Machine) : Prop :=
  m_uuid m' = m_uuid m /\
  m_name m' = m_name m /\
  m_os m' = m_os m /\
  m_ip m' = m_ip m /\
  m_port m' = m_port m /\
  m_mountpoint m' = m_mountpoint m /\
  m_inputEmittors m' = m_inputEmittors m.


(** What the Manager knows of this Machine's sharing: whether the last of
    its [onStartDeviceSharing] / [onStopDeviceSharing] calls in the trace
    was a start. *)
Definition manager_view (tr : list Effect) : bool :=
  foldl (fun acc e =>
           match e with
           | call_manager (mgr_onStartDeviceSharing _ _) => true
           | call_manager mgr_onStopDeviceSharing => false
           | _ => acc
           end) false tr.

(** The session events: what the dispatcher hands to the pairing and
    sharing handlers, the loop turn that runs a queued closure, the local
    [stopDeviceSharing()], and the stream's close callback. *)
Inductive SessionEvent :=
  | ev_PairResponse (resp : PairResponse)
  | ev_DeviceSharingStartRequest
  | ev_AsyncTurn
  | ev_DeviceSharingStartResponse (resp : DeviceSharingStartResponse)
  | ev_DeviceSharingStopRequest
  | ev_stopDeviceSharing
  | ev_StreamClosed.

Definition deliver (ev : SessionEvent) : M unit :=
  match ev with
  | ev_PairResponse resp => handlePairResponseAux resp
  | ev_DeviceSharingStartRequest => handleDeviceSharingStartRequest
  | ev_AsyncTurn => async_turn
  | ev_DeviceSharingStartResponse resp => handleDeviceSharingStartResponse resp
  | ev_DeviceSharingStopRequest => handleDeviceSharingStopRequest
  | ev_stopDeviceSharing => stopDeviceSharing
  | ev_StreamClosed => handleDisconnectedAux
  end.













End Vocabulary.

(** ** Concrete frames and sessions *)

Definition zero_storage : nat -> byte := fun _ => "000"%byte.

Definition mouse_event : Message :=
  kInputEventRequest
    {| ireq_serial := 7; ireq_devicetype := static_cast_DeviceType MOUSE;
       ireq_type := 2; ireq_code := 0; ireq_value := 5 |}.

Definition peer : DeviceInfo :=
  {| di_uuid := "B"; di_name := "laptop";
     di_os := DEVICE_OS_UOS; di_compositor := COMPOSITOR_X11 |}.

Definition env0 : Env :=
  {| manager_uuid := "A";
     manager_isSharedClipboard := false;
     manager_isSharedDevices := false;
     manager_fileStoragePath := "/home/user/Downloads";
     net_hostname := "desktop";
     clipboard_isFiles := false;
     fuse_server_listen_port := 40000;
     pipe_accepts := fun _ => true |}.

(** A Machine as its constructor leaves it. *)
Definition idle_world : World :=
  mkWorld (Machine_new "/var/lib/cooperation" "192.168.1.7" 51595 peer) env0 [] [] [].

(** A stream the Manager accepted and read the PairRequest from. *)
Definition accepted_sock : TCP := TCP.startRead TCP.new.

Definition paired_conn : TCP :=
  TCP.keepalive true 20
    (TCP.tcpNoDelay
       (TCP.onReceived (Some cb_dispatcher)
          (TCP.onClosed (Some cb_handleDisconnectedAux) accepted_sock))).

(** The Machine paired over that stream. *)
Definition paired_world : World :=
  set_machine
    (set_m_connected true
       (set_m_offlineTimer (Timer.stop (m_offlineTimer (machine idle_world)))
          (set_m_pingTimer (Timer.stop (m_pingTimer (machine idle_world)))
             (set_m_conn (Some paired_conn) (machine idle_world)))))
    idle_world.

(** The same with the peer's export mounted. *)
Definition mounted_world : World :=
  set_machine
    (set_m_fuseClient
       (Some {| fuse_client_ip := "192.168.1.7"; fuse_client_port := 40001;
                fuse_client_mountpoint := "/var/lib/cooperation/mp" |})
       (machine paired_world))
    paired_world.

Definition pair_request : Message :=
  kPairRequest
    {| preq_key := SCAN_KEY;
       preq_deviceinfo := peer |}.

Definition pair_response (agree : bool) : Message :=
  kPairResponse
    {| presp_key := SCAN_KEY; presp_deviceinfo := peer; presp_agree := agree |}.

Definition flow_request : Message :=
  kFlowRequest {| flow_direction := FLOW_DIRECTION_LEFT; flow_x := 0; flow_y := 300 |}.

(** The daemon at the other end of the stream: its Machine stands for
    this host, a Linux peer, and its clipboard and devices are shared. *)
Definition host_info : DeviceInfo :=
  {| di_uuid := "A"; di_name := "desktop";
     di_os := DEVICE_OS_LINUX; di_compositor := COMPOSITOR_X11 |}.

Definition env1 : Env :=
  {| manager_uuid := "B";
     manager_isSharedClipboard := true;
     manager_isSharedDevices := true;
     manager_fileStoragePath := "/home/guest/Downloads";
     net_hostname := "laptop";
     clipboard_isFiles := false;
     fuse_server_listen_port := 40001;
     pipe_accepts := fun _ => true |}.

Definition peer_world : World :=
  mkWorld
    (set_m_connected true
       (set_m_offlineTimer (Timer.stop (Timer.oneshot U25s Timer.new))
          (set_m_pingTimer (Timer.stop (Timer.start U10s Timer.new))
             (set_m_conn (Some paired_conn)
                (Machine_new "/var/lib/cooperation" "192.168.1.5" 51595 host_info)))))
    env1 [] [] [].




(** Clipboard targets of copied files, and of copied text. *)
Definition file_targets : list string :=
  ["x-special/gnome-copied-files"; "UTF8_STRING"].

Definition text_targets : list string := ["UTF8_STRING"; "TEXT"].

(** Clipboard content of two lines without a path. *)
Definition plain_content : string := "copy" +:+ String "010"%char "hello".

Section Concrete.
#[local] Existing Instance Reference.host.
#[local] Existing Instance Reference.codec.

(** The frame of [mouse_event] and nothing else. *)
Definition exact_buffer : Buffer :=
  mkBuffer (genMessage mouse_event) zero_storage.

(** The frame of [mouse_event], followed by two bytes of the next. *)
Definition full_buffer : Buffer :=
  mkBuffer (genMessage mouse_event ++ ["D"; "D"]%byte) zero_storage.

(** The same frame with its last ten bytes still to come. *)
Definition partial_buffer : Buffer :=
  mkBuffer (take 40 (genMessage mouse_event)) zero_storage.

(** Sixteen bytes that do not start with the magic; the length field
    reads [2^64 - 1]. *)
Definition illegal_buffer : Buffer :=
  mkBuffer (["D"; "D"; "E"; "C"; "P"; "R"; "T"; "001"] ++ replicate 8 "255")%byte
           zero_storage.

(** A header with the magic and the length field [2^64 - 1], followed by
    four bytes. *)
Definition wrapping_buffer : Buffer :=
  mkBuffer (MAGIC ++ replicate 8 "255" ++ ["001"; "002"; "003"; "004"])%byte
           zero_storage.

(** A single byte that is not the magic's first. *)
Definition short_buffer : Buffer := mkBuffer ["X"%byte] zero_storage.

(** Two whole frames and the first twenty bytes of a third. *)
Definition two_frames_and_a_half : Buffer :=
  mkBuffer (concat (genMessage <$> [mouse_event; flow_request])
              ++ take 20 (genMessage mouse_event))
           zero_storage.

(** A PairRequest's frame followed by an input event's. *)
Definition pair_request_first : Buffer :=
  mkBuffer (genMessage pair_request ++ genMessage mouse_event) zero_storage.

(** The peer agrees to pair, accepts sharing, then sends a PairResponse
    that disagrees. *)
Definition rejected_while_sharing : Buffer :=
  mkBuffer (concat (genMessage <$>
              [pair_response true;
               kDeviceSharingStartResponse {| dss_accept := true |};
               pair_response false]))
           zero_storage.


(** The world a member function leaves. *)
Definition world_after {A} (c : M A) (w : World) : World :=
  match c w with
  | Ok _ w' => w'
  | Err _ => w
  end.

(** The Machine after [connect()] and the stream's connection: the
    PairRequest is out, the dispatcher reads, the peer has not answered. *)
Definition awaiting_pair_world : World :=
  set_trace [] (world_after (connect;; connect_onConnected) idle_world).

End Concrete.


(** * Properties *)

(** ** Bytes and byte order *)

Lemma Z_of_byte_range b : 0 <= Z_of_byte b < 256.
Proof.
  unfold Z_of_byte. pose proof (Byte.to_N_bounded b). lia.
Qed.

Lemma Z_of_byte_of_Z z : Z_of_byte (byte_of_Z z) = z mod 256.
Proof.
  unfold Z_of_byte, byte_of_Z.
  assert (0 <= z mod 256 < 256) as Hr by (apply Z.mod_pos_bound; lia).
  destruct (Byte.of_N (Z.to_N (z mod 256))) as [b|] eqn:Hb.
  - apply Byte.to_of_N in Hb. simpl. rewrite Hb. lia.
  - apply Byte.of_N_None_iff in Hb. lia.
Qed.

Lemma byte_of_Z_of_byte b : byte_of_Z (Z_of_byte b) = b.
Proof.
  unfold byte_of_Z. rewrite Z.mod_small by apply Z_of_byte_range.
  unfold Z_of_byte. rewrite N2Z.id, Byte.of_to_N. reflexivity.
Qed.

Lemma le_bytes64_length v : length (le_bytes64 v) = 8%nat.
Proof. reflexivity. Qed.

Lemma of_le_bytes64 v : 0 <= v < 2 ^ 64 -> of_le_bytes (le_bytes64 v) = v.
Proof.
  intros Hv. unfold of_le_bytes, le_bytes64. simpl.
  rewrite !Z_of_byte_of_Z, !Z.shiftr_div_pow2 by lia.
  change (2 ^ 0) with 1. rewrite Z.div_1_r.
  change (2 ^ 8) with 256. change (2 ^ 16) with 65536.
  change (2 ^ 24) with 16777216. change (2 ^ 32) with 4294967296.
  change (2 ^ 40) with 1099511627776. change (2 ^ 48) with 281474976710656.
  change (2 ^ 56) with 72057594037927936.
  change (2 ^ 64) with 18446744073709551616 in Hv.
  Z.div_mod_to_equations. lia.
Qed.

Lemma testbit_small x k n : 0 <= x < 2 ^ k -> k <= n -> Z.testbit x n = false.
Proof.
  intros [H0 H1] Hk.
  destruct (Z.eq_dec x 0) as [->|Hx]; [apply Z.bits_0|].
  apply Z.bits_above_log2; [lia|].
  assert (Z.log2 x < k); [|lia].
  apply Z.log2_lt_pow2; lia.
Qed.

Lemma small_testbit x k :
  0 <= k -> (forall n, k <= n -> Z.testbit x n = false) -> 0 <= x < 2 ^ k.
Proof.
  intros Hk Hbits.
  assert (x = x mod 2 ^ k) as ->; [|apply Z.mod_pos_bound; lia].
  apply Z.bits_inj'. intros n Hn.
  destruct (Z.lt_ge_cases n k).
  - rewrite Z.mod_pow2_bits_low; auto.
  - rewrite Z.mod_pow2_bits_high by lia. auto.
Qed.

Lemma testbit_shiftl a k m : 0 <= k -> Z.testbit (Z.shiftl a k) m = Z.testbit a (m - k).
Proof.
  intros Hk. destruct (Z.lt_ge_cases m 0).
  - rewrite !Z.testbit_neg_r by lia. reflexivity.
  - apply Z.shiftl_spec. lia.
Qed.

Ltac bits_neg :=
  repeat match goal with
  | |- context [Z.testbit ?a ?i] =>
      let Hi := fresh in
      assert (i < 0) as Hi by lia; rewrite (Z.testbit_neg_r a i Hi); clear Hi
  end.

Ltac bits_norm :=
  repeat first
    [ rewrite Z.lor_spec | rewrite Z.land_spec
    | rewrite Z.shiftr_spec by lia
    | rewrite testbit_shiftl by lia
    | rewrite Z.testbit_ones by lia
    | rewrite Z.mod_pow2_bits_low by lia
    | rewrite Z.mod_pow2_bits_high by lia ];
  bits_neg.

Ltac cmp_norm :=
  repeat match goal with
  | |- context [?a <? ?b] => destruct (Z.ltb_spec a b); try lia
  | |- context [?a <=? ?b] => destruct (Z.leb_spec a b); try lia
  end.

Ltac bool_norm :=
  rewrite ?andb_true_r, ?andb_false_r, ?orb_false_r, ?orb_false_l.

Lemma bswap_32_bits x n :
  0 <= n ->
  Z.testbit (bswap_32 x) n =
  if n <? 8 then Z.testbit x (n + 24)
  else if n <? 16 then Z.testbit x (n + 8)
  else if n <? 24 then Z.testbit x (n - 8)
  else if n <? 32 then Z.testbit x (n - 24) else false.
Proof.
  intros Hn. unfold bswap_32.
  change 0xff000000 with (Z.shiftl (Z.ones 8) 24).
  change 0x00ff0000 with (Z.shiftl (Z.ones 8) 16).
  change 0x0000ff00 with (Z.shiftl (Z.ones 8) 8).
  change 0x000000ff with (Z.ones 8).
  assert (n < 8 \/ 8 <= n < 16 \/ 16 <= n < 24 \/ 24 <= n < 32 \/ 32 <= n) as Hc by lia.
  destruct Hc as [?|[?|[?|[?|?]]]]; bits_norm; cmp_norm; simpl; bool_norm; reflexivity.
Qed.

Section LittleEndianHost.
Context `{Host} (Hle : BIG_ENDIAN = false).

(** On a little-endian host [htonll] reverses the eight bytes. *)
Lemma htonll_bits x n :
  0 <= x < 2 ^ 64 -> 0 <= n ->
  Z.testbit (htonll x) n =
  if n <? 64 then Z.testbit x (56 - 8 * (n / 8) + n mod 8) else false.
Proof.
  intros Hx Hn. unfold htonll, htonl, uint64, uint32. rewrite Hle.
  change 0xFFFFFFFF with (Z.ones 32).
  rewrite Z.lor_spec.
  assert (n < 8 \/ 8 <= n < 16 \/ 16 <= n < 24 \/ 24 <= n < 32 \/
          32 <= n < 40 \/ 40 <= n < 48 \/ 48 <= n < 56 \/ 56 <= n < 64 \/
          64 <= n) as Hc by lia.
  destruct Hc as [?|[?|[?|[?|[?|[?|[?|[?|?]]]]]]]];
    bits_norm; rewrite ?bswap_32_bits by lia; cmp_norm; bits_norm; cmp_norm;
    simpl; bool_norm; try reflexivity;
    f_equal; Z.div_mod_to_equations; lia.
Qed.

Lemma htonll_range_le x : 0 <= x < 2 ^ 64 -> 0 <= htonll x < 2 ^ 64.
Proof.
  intros Hx. apply small_testbit; [lia|]. intros n Hn.
  rewrite htonll_bits by lia. cmp_norm; reflexivity.
Qed.

Lemma ntohll_htonll_le x : 0 <= x < 2 ^ 64 -> ntohll (htonll x) = x.
Proof.
  intros Hx. change (ntohll (htonll x)) with (htonll (htonll x)).
  apply Z.bits_inj'. intros n Hn.
  rewrite htonll_bits by (auto using htonll_range_le).
  destruct (Z.ltb_spec n 64).
  - rewrite htonll_bits by (try lia; Z.div_mod_to_equations; lia).
    cmp_norm; [f_equal|]; Z.div_mod_to_equations; lia.
  - symmetry. apply (testbit_small x 64); lia.
Qed.

End LittleEndianHost.

Section ByteOrderFacts.
Context `{Host}.

Lemma htonll_range x : 0 <= x < 2 ^ 64 -> 0 <= htonll x < 2 ^ 64.
Proof.
  destruct BIG_ENDIAN eqn:Hbe.
  - unfold htonll. rewrite Hbe. auto.
  - apply htonll_range_le; assumption.
Qed.

Lemma ntohll_htonll x : 0 <= x < 2 ^ 64 -> ntohll (htonll x) = x.
Proof.
  destruct BIG_ENDIAN eqn:Hbe.
  - unfold ntohll, htonll. rewrite Hbe. auto.
  - apply ntohll_htonll_le; assumption.
Qed.

Lemma store64_length v : length (store64 v) = 8%nat.
Proof. unfold store64. destruct BIG_ENDIAN; reflexivity. Qed.

Lemma load64_store64 v : 0 <= v < 2 ^ 64 -> load64 (store64 v) = v.
Proof.
  intros Hv. unfold load64, store64. destruct BIG_ENDIAN.
  - rewrite reverse_involutive. apply of_le_bytes64, Hv.
  - apply of_le_bytes64, Hv.
Qed.

End ByteOrderFacts.

Lemma byte_of_Z_low_bits a b :
  (forall n, 0 <= n < 8 -> Z.testbit a n = Z.testbit b n) ->
  byte_of_Z a = byte_of_Z b.
Proof.
  intros Hbits. unfold byte_of_Z.
  replace (a mod 256) with (b mod 256); [reflexivity|].
  change 256 with (2 ^ 8). apply Z.bits_inj'. intros n Hn.
  destruct (Z.lt_ge_cases n 8).
  - rewrite !Z.mod_pow2_bits_low by lia. symmetry. apply Hbits. lia.
  - rewrite !Z.mod_pow2_bits_high by lia. reflexivity.
Qed.

(** The length field goes on the wire most significant byte first,
    whatever the host. *)
Lemma store64_htonll_network_order `{Host} x :
  0 <= x < 2 ^ 64 -> store64 (htonll x) = reverse (le_bytes64 x).
Proof.
  intros Hx. unfold store64. destruct BIG_ENDIAN eqn:Hbe.
  - unfold htonll. rewrite Hbe. reflexivity.
  - unfold le_bytes64. cbn [fmap list_fmap reverse rev_append].
    unfold reverse. cbn [rev_append].
    repeat (apply (f_equal2 cons);
      [ apply byte_of_Z_low_bits; intros n Hn;
        rewrite !Z.shiftr_spec by lia;
        rewrite htonll_bits by (auto; lia);
        cmp_norm; f_equal; Z.div_mod_to_equations; lia | ]).
    reflexivity.
Qed.

(** ** The framed codec *)

Section FramingFacts.
Context `{Host} {T : Type} `{!Protobuf T}.

Lemma ByteSizeLong_nonneg (msg : T) : 0 <= ByteSizeLong msg.
Proof. unfold ByteSizeLong. lia. Qed.

Lemma to_int_small n : 0 <= n <= INT_MAX -> to_int n = n.
Proof.
  unfold to_int, INT_MAX. intros Hn.
  rewrite Z.mod_small by lia.
  destruct (Z.ltb_spec n (2 ^ 31)); lia.
Qed.

(** A frame is the magic, the length in network byte order, and the
    body. *)
Lemma genMessage_frame (msg : T) :
  ByteSizeLong msg <= INT_MAX ->
  genMessage msg =
  MAGIC ++ store64 (htonll (ByteSizeLong msg)) ++ SerializeAsBytes msg.
Proof.
  intros Hmax. pose proof (ByteSizeLong_nonneg msg) as Hpos.
  unfold genMessage, SerializeToArray, header_bytes, MessageHeader_new.
  cbn [magic_ size_].
  rewrite to_int_small by lia.
  destruct (Z.leb_spec (ByteSizeLong msg) INT_MAX); [|lia].
  rewrite Z.leb_refl. cbn [andb].
  assert (length (MAGIC ++ store64 (htonll (ByteSizeLong msg))) = 16%nat) as Hlen
    by (rewrite length_app, store64_length; reflexivity).
  change (Z.to_nat header_size) with 16%nat.
  rewrite (assoc_L (++) MAGIC).
  rewrite take_app_length' by (symmetry; exact Hlen).
  rewrite drop_app_length' by (symmetry; exact Hlen).
  rewrite drop_drop, (drop_ge (replicate _ _)).
  - rewrite app_nil_r, <- (assoc_L (++)). reflexivity.
  - rewrite length_replicate. unfold uint64, header_size, ByteSizeLong in *.
    unfold INT_MAX in *. rewrite Z.mod_small by lia. lia.
Qed.

(** X2.  The wire frame (lines 29-36 and 63-71), whatever the host: the
    magic with its terminating NUL, the body's length in eight bytes,
    most significant first, and the body as protobuf serializes it. *)
Lemma genMessage_wire (msg : T) :
  ByteSizeLong msg <= INT_MAX ->
  genMessage msg =
  MAGIC ++ reverse (le_bytes64 (ByteSizeLong msg)) ++ SerializeAsBytes msg.
Proof.
  intros Hmax. rewrite genMessage_frame by assumption.
  rewrite store64_htonll_network_order; [reflexivity|].
  pose proof (ByteSizeLong_nonneg msg). unfold INT_MAX in Hmax. lia.
Qed.

Lemma genMessage_length (msg : T) :
  ByteSizeLong msg <= INT_MAX ->
  Z.of_nat (length (genMessage msg)) = header_size + ByteSizeLong msg.
Proof.
  intros Hmax. rewrite genMessage_frame by assumption.
  rewrite !length_app, store64_length. unfold ByteSizeLong, header_size.
  change (length MAGIC) with 8%nat. lia.
Qed.

Lemma read_app_prefix (l rest : list byte) (storage : nat -> byte) off n :
  (off + n <= length l)%nat ->
  Buffer.read (Buffer.data (mkBuffer (l ++ rest) storage)) off n =
  take n (drop off l).
Proof.
  revert off l. induction n as [|n IH]; intros off l Hlen.
  - reflexivity.
  - unfold Buffer.read in *. cbn [seq fmap list_fmap].
    destruct (drop off l) as [|x l'] eqn:Hdrop.
    { apply (f_equal length) in Hdrop. rewrite length_drop in Hdrop.
      simpl in Hdrop. lia. }
    cbn [take]. f_equal.
    + unfold Buffer.data. cbn [buf_readable].
      assert (l !! off = Some x) as Hx.
      { rewrite <- (Nat.add_0_r off), <- lookup_drop, Hdrop. reflexivity. }
      rewrite lookup_app_l by (apply lookup_lt_Some in Hx; lia).
      rewrite Hx. reflexivity.
    + specialize (IH (S off) l). cbn [fmap] in IH. rewrite IH by lia.
      f_equal. replace (S off) with (off + 1)%nat by lia.
      rewrite <- drop_drop, Hdrop. reflexivity.
Qed.

(** What [peak] sees at the head of a buffer that starts with a frame's
    header. *)
Lemma peak_header (sz : Z) (body : list byte) (storage : nat -> byte) :
  0 <= sz < 2 ^ 64 ->
  let buff := mkBuffer (header_bytes (MessageHeader_new sz) ++ body) storage in
  legal (Buffer.peak_MessageHeader buff) = true /\
  MessageHeader_size (Buffer.peak_MessageHeader buff) = sz.
Proof.
  intros Hsz buff. subst buff.
  unfold Buffer.peak_MessageHeader, legal, MessageHeader_size.
  cbn [magic_ size_].
  assert (length (header_bytes (MessageHeader_new sz)) = 16%nat) as Hlen.
  { unfold header_bytes. rewrite length_app, store64_length. reflexivity. }
  rewrite !read_app_prefix by lia.
  unfold header_bytes, MessageHeader_new. cbn [magic_ size_].
  split.
  - apply bool_decide_eq_true. reflexivity.
  - change 8%nat with (length MAGIC) at 2.
    rewrite drop_app_length.
    rewrite take_ge by (rewrite store64_length; lia).
    rewrite load64_store64 by (apply htonll_range, Hsz).
    apply ntohll_htonll, Hsz.
Qed.

End FramingFacts.

Section FramingTheorems.
Context `{Host} {T : Type} `{!Protobuf T}.

Lemma of_le_bytes_range bs : 0 <= of_le_bytes bs < 256 ^ Z.of_nat (length bs).
Proof.
  induction bs as [|b bs IH].
  - simpl. lia.
  - cbn [of_le_bytes foldr length]. fold (of_le_bytes bs).
    rewrite Nat2Z.inj_succ, Z.pow_succ_r by lia.
    pose proof (Z_of_byte_range b). lia.
Qed.

Lemma peak_size_range (buff : Buffer) :
  0 <= MessageHeader_size (Buffer.peak_MessageHeader buff) < 2 ^ 64.
Proof.
  unfold MessageHeader_size, Buffer.peak_MessageHeader. cbn [size_].
  change ntohll with htonll. apply htonll_range.
  unfold load64.
  match goal with |- context [of_le_bytes ?l] =>
    pose proof (of_le_bytes_range l) as Hr;
    assert (length l = 8%nat) as Hl
  end.
  { destruct BIG_ENDIAN; rewrite ?length_reverse; reflexivity. }
  rewrite Hl in Hr. exact Hr.
Qed.

Lemma data_lookup (buff : Buffer) (i : nat) (x : byte) :
  buf_readable buff !! i = Some x -> Buffer.data buff i = x.
Proof. unfold Buffer.data. intros ->. reflexivity. Qed.

(** A frame at the head of the buffer is decoded and consumed, and what
    follows it stays: for every message [msg] that protobuf itself carries
    faithfully (its [ParseFromArray] gives [msg] back from the bytes
    [SerializeToArray] wrote, and it is within protobuf's size limit). *)
Lemma parseMessage_frame (msg : T) (rest : list byte) (storage : nat -> byte) :
  ByteSizeLong msg <= INT_MAX ->
  (forall p : nat -> byte,
      (forall i x, SerializeAsBytes msg !! i = Some x -> p i = x) ->
      ParseFromArray p (ByteSizeLong msg) = msg) ->
  parseMessage (mkBuffer (genMessage msg ++ rest) storage) =
  (value msg, mkBuffer rest storage).
Proof.
  intros Hmax Hparse.
  pose proof (ByteSizeLong_nonneg msg) as Hpos.
  assert (0 <= ByteSizeLong msg < 2 ^ 64) as Hsz by (unfold INT_MAX in Hmax; lia).
  pose proof (genMessage_length msg Hmax) as Hlen.
  rewrite genMessage_frame in * by assumption.
  set (body := SerializeAsBytes msg) in *.
  assert (MAGIC ++ store64 (htonll (ByteSizeLong msg)) ++ body =
          header_bytes (MessageHeader_new (ByteSizeLong msg)) ++ body) as Hhdr.
  { unfold header_bytes, MessageHeader_new. cbn [magic_ size_].
    rewrite <- (assoc_L (++)). reflexivity. }
  rewrite Hhdr in *. clear Hhdr.
  rewrite <- (assoc_L (++)).
  destruct (peak_header (ByteSizeLong msg) (body ++ rest) storage Hsz) as [Hlegal Hsize].
  unfold parseMessage. rewrite Hlegal, Hsize. cbn [negb].
  assert (uint64 (header_size + ByteSizeLong msg) = header_size + ByteSizeLong msg) as Hu.
  { unfold uint64, header_size, INT_MAX in *. apply Z.mod_small. lia. }
  rewrite Hu.
  assert (length (header_bytes (MessageHeader_new (ByteSizeLong msg))) = 16%nat) as Hh.
  { unfold header_bytes. rewrite length_app, store64_length. reflexivity. }
  destruct (Z.ltb_spec (Buffer.size
    {| buf_readable := header_bytes (MessageHeader_new (ByteSizeLong msg)) ++ body ++ rest;
       buf_storage := storage |}) (header_size + ByteSizeLong msg)) as [Hlt|_].
  { unfold Buffer.size in Hlt. cbn [buf_readable] in Hlt.
    rewrite !length_app in Hlt. rewrite length_app in Hlen. lia. }
  rewrite to_int_small by lia. f_equal.
  - f_equal. apply Hparse. intros i x Hix. apply data_lookup. cbn [buf_readable].
    change (Z.to_nat header_size) with 16%nat. rewrite <- Hh.
    rewrite lookup_app_r by lia.
    replace (length _ + i - length _)%nat with i by lia.
    apply lookup_app_l_Some. exact Hix.
  - unfold Buffer.retrieve. cbn [buf_readable buf_storage]. f_equal.
    rewrite (assoc_L (++)). apply drop_app_length'.
    rewrite <- Hlen. apply Nat2Z.id.
Qed.

(** C1.  Frame round-trip, [decode (encode m) = m]: for every message
    [msg] that protobuf itself carries faithfully, [parseMessage] on a
    buffer that holds [genMessage msg] returns [msg], and the buffer is
    left empty. *)
Theorem parseMessage_genMessage (msg : T) (storage : nat -> byte) :
  ByteSizeLong msg <= INT_MAX ->
  (forall p : nat -> byte,
      (forall i x, SerializeAsBytes msg !! i = Some x -> p i = x) ->
      ParseFromArray p (ByteSizeLong msg) = msg) ->
  parseMessage (mkBuffer (genMessage msg) storage) = (value msg, mkBuffer [] storage).
Proof.
  intros Hmax Hparse.
  rewrite <- (app_nil_r (genMessage msg)).
  apply parseMessage_frame; assumption.
Qed.

(** C2, as the code has it.  On a buffer that holds at least a header
    (the dispatcher's loop condition; [parseMessage] itself does not
    look at the size before the magic): ILLEGAL when the first eight
    bytes are not the magic, whatever the length field.  When they are
    the magic and the length field is below [2^64 - 16], so that header +
    length does not wrap the 64-bit sum the code compares and consumes
    by: PARTIAL when the buffer holds fewer than header + length bytes;
    otherwise the message parsed from the bytes after the header, the
    size handed to [ParseFromArray] being the length converted to [int]
    (the length itself when it is at most [INT_MAX]), with exactly header
    + length bytes consumed.  Both errors leave the buffer as it was. *)
Theorem parseMessage_cases (buff : Buffer) :
  header_size <= Buffer.size buff ->
  let len := MessageHeader_size (Buffer.peak_MessageHeader buff) in
  (take 8 (buf_readable buff) ≠ MAGIC ->
     parseMessage buff = (unexpected ILLEGAL_MESSAGE, buff)) /\
  (take 8 (buf_readable buff) = MAGIC ->
   len < 2 ^ 64 - header_size ->
   Buffer.size buff < header_size + len ->
     parseMessage buff = (unexpected PARTIAL_MESSAGE, buff)) /\
  (take 8 (buf_readable buff) = MAGIC ->
   len < 2 ^ 64 - header_size ->
   header_size + len <= Buffer.size buff ->
     parseMessage buff =
     (value (ParseFromArray (fun i => Buffer.data buff (16 + i)%nat) (to_int len)),
      Buffer.retrieve (header_size + len) buff)) /\
  (len <= INT_MAX -> to_int len = len).
Proof.
  intros Hsize len.
  pose proof (peak_size_range buff) as Hrange. fold len in Hrange.
  assert (magic_ (Buffer.peak_MessageHeader buff) = take 8 (buf_readable buff)) as Hmagic.
  { destruct buff as [l st]. unfold Buffer.peak_MessageHeader. cbn [magic_ buf_readable].
    rewrite <- (app_nil_r l) at 1. rewrite read_app_prefix.
    - reflexivity.
    - unfold Buffer.size, header_size in Hsize. cbn [buf_readable] in Hsize. lia. }
  unfold parseMessage, legal. fold len. rewrite Hmagic.
  split; [|split; [|split]].
  - intros Hne. rewrite bool_decide_eq_false_2 by exact Hne. reflexivity.
  - intros Heq Hfit Hlt. rewrite bool_decide_eq_true_2 by exact Heq. cbn [negb].
    unfold uint64. rewrite Z.mod_small by (unfold header_size in *; lia).
    destruct (Z.ltb_spec (Buffer.size buff) (header_size + len)); [reflexivity|lia].
  - intros Heq Hfit Hge. rewrite bool_decide_eq_true_2 by exact Heq. cbn [negb].
    unfold uint64. rewrite Z.mod_small by (unfold header_size in *; lia).
    destruct (Z.ltb_spec (Buffer.size buff) (header_size + len)); [lia|].
    reflexivity.
  - intros Hint. apply to_int_small. lia.
Qed.

(** A buffer whose first byte is not the magic's is ILLEGAL however few
    bytes it holds and whatever lies in the storage behind them. *)
Lemma parseMessage_first_byte (c : byte) (l : list byte) (storage : nat -> byte) :
  c ≠ "D"%byte ->
  parseMessage (mkBuffer (c :: l) storage) =
  (unexpected ILLEGAL_MESSAGE, mkBuffer (c :: l) storage).
Proof.
  intros Hc. unfold parseMessage, legal.
  rewrite bool_decide_eq_false_2; [reflexivity|].
  unfold Buffer.peak_MessageHeader, Buffer.read. cbn [magic_ seq fmap list_fmap].
  unfold MAGIC. intros Heq. injection Heq as Heq _. apply Hc.
  rewrite <- Heq. reflexivity.
Qed.

End FramingTheorems.

(** *** The codec on concrete frames *)

Lemma read_ext (p : nat -> byte) (l : list byte) :
  (forall i x, l !! i = Some x -> p i = x) -> Buffer.read p 0 (length l) = l.
Proof.
  intros Hp. unfold Buffer.read. apply list_eq. intros i.
  rewrite list_lookup_fmap.
  destruct (l !! i) as [x|] eqn:Hi.
  - rewrite lookup_seq_lt by (apply lookup_lt_Some in Hi; exact Hi).
    simpl. f_equal. apply Hp, Hi.
  - rewrite lookup_seq_ge by (apply lookup_ge_None in Hi; exact Hi). reflexivity.
Qed.

(** The reference codec gives back the message whenever its decoder
    inverts its encoder on it. *)
Lemma Reference_parse (msg : Message) :
  Reference.dec_Message (Reference.enc_Message msg) = Some (msg, []) ->
  forall p : nat -> byte,
    (forall i x, @SerializeAsBytes _ Reference.codec msg !! i = Some x -> p i = x) ->
    @ParseFromArray _ Reference.codec p (@ByteSizeLong _ Reference.codec msg) = msg.
Proof.
  intros Hdec p Hp. cbn [ParseFromArray SerializeAsBytes Reference.codec] in *.
  unfold ByteSizeLong. cbn [SerializeAsBytes Reference.codec].
  rewrite Nat2Z.id, (read_ext p _ Hp), Hdec. reflexivity.
Qed.

Section FramingExamples.
#[local] Existing Instance Reference.host.
#[local] Existing Instance Reference.codec.

Lemma parseMessage_genMessage_witness :
  parseMessage exact_buffer = (value mouse_event, mkBuffer [] zero_storage).
Proof.
  apply (parseMessage_genMessage mouse_event).
  - vm_compute. discriminate.
  - apply Reference_parse. vm_compute. reflexivity.
Defined.

Lemma parseMessage_cases_witness :
  parseMessage illegal_buffer = (unexpected ILLEGAL_MESSAGE, illegal_buffer) /\
  parseMessage partial_buffer = (unexpected PARTIAL_MESSAGE, partial_buffer) /\
  parseMessage full_buffer =
    (value (ParseFromArray (fun i => Buffer.data full_buffer (16 + i)%nat)
              (to_int (MessageHeader_size (Buffer.peak_MessageHeader full_buffer)))),
     Buffer.retrieve
       (header_size + MessageHeader_size (Buffer.peak_MessageHeader full_buffer))
       full_buffer) /\
  to_int (MessageHeader_size (Buffer.peak_MessageHeader full_buffer)) =
    MessageHeader_size (Buffer.peak_MessageHeader full_buffer).
Proof.
  split; [|split; [|split]].
  - apply (parseMessage_cases illegal_buffer).
    + vm_compute. discriminate.
    + vm_compute. discriminate.
  - apply (parseMessage_cases partial_buffer).
    + vm_compute. discriminate.
    + vm_compute. reflexivity.
    + vm_compute. reflexivity.
    + vm_compute. reflexivity.
  - apply (parseMessage_cases full_buffer).
    + vm_compute. discriminate.
    + vm_compute. reflexivity.
    + vm_compute. reflexivity.
    + vm_compute. discriminate.
  - apply (parseMessage_cases full_buffer).
    + vm_compute. discriminate.
    + vm_compute. discriminate.
Defined.

(** C2, as stated, fails.  A buffer that holds fewer bytes than a header
    is not answered with PARTIAL: [parseMessage] compares the magic
    first, so one stray byte is ILLEGAL.  And a buffer of twenty bytes
    whose header carries the length [2^64 - 1] holds fewer than header +
    length bytes and is not answered with PARTIAL either: the 64-bit sum
    wraps to 15, a message is returned and fifteen bytes are consumed. *)
Lemma parseMessage_short_buffer_not_partial :
  (Buffer.size short_buffer < header_size /\
   parseMessage short_buffer = (unexpected ILLEGAL_MESSAGE, short_buffer) /\
   parseMessage short_buffer ≠ (unexpected PARTIAL_MESSAGE, short_buffer)) /\
  (take 8 (buf_readable wrapping_buffer) = MAGIC /\
   MessageHeader_size (Buffer.peak_MessageHeader wrapping_buffer) = 2 ^ 64 - 1 /\
   Buffer.size wrapping_buffer = 20 /\
   (parseMessage wrapping_buffer).2 = Buffer.retrieve 15 wrapping_buffer /\
   parseMessage wrapping_buffer ≠ (unexpected PARTIAL_MESSAGE, wrapping_buffer)).
Proof.
  split.
  - split; [reflexivity|]. split.
    + apply parseMessage_first_byte. discriminate.
    + unfold short_buffer. rewrite parseMessage_first_byte by discriminate.
      discriminate.
  - split; [reflexivity|]. split; [vm_compute; reflexivity|].
    split; [reflexivity|]. split; [vm_compute; reflexivity|].
    intros Hpartial. apply (f_equal (fun r => length (buf_readable r.2))) in Hpartial.
    vm_compute in Hpartial. discriminate Hpartial.
Qed.

End FramingExamples.

(** ** The Machine *)

(** Running a member function: unfold the monad and compute. *)
Ltac run :=
  cbv beta iota zeta delta
    [mbind mret M_bind M_ret gets modify ask emit fault when modify_world
     conn conn_write conn_close negb
     machine env wakes processes trace set_machine set_wakes set_processes
     set_trace
     m_mountpoint m_port m_uuid m_name m_connected m_os m_compositor
     m_deviceSharing m_direction m_pingTimer m_offlineTimer m_mounted m_ip
     m_conn m_confirmDialog m_inputEmittors m_fuseServer m_fuseClient
     m_sharedClipboard
     set_m_port set_m_name set_m_connected set_m_compositor
     set_m_deviceSharing set_m_direction set_m_pingTimer set_m_offlineTimer
     set_m_ip set_m_conn set_m_confirmDialog set_m_fuseServer
     set_m_fuseClient set_m_sharedClipboard].

Section MachineTheorems.
Context `{Host} `{!Protobuf Message}.

(** C6.  For every InputEventRequest the handler looks the emittor up by
    [devicetype], converted to [InputDeviceType] as line 428 does (over
    [uint8_t]: the number modulo 256).  If there is one, the triple is
    given to it and the flag is what [emitEvent] returned; if there is
    none, nothing is injected and the flag is false.  Either way exactly
    one frame is written: the InputEventResponse with the request's
    serial and the flag. *)
Theorem handleInputEventRequest_replies (req : InputEventRequest) (w : World) (c : TCP) :
  m_conn (machine w) = Some c ->
  let deviceType := static_cast_InputDeviceType (ireq_devicetype req) in
  (forall e, m_inputEmittors (machine w) !! deviceType = Some e ->
     handleInputEventRequest req w =
     Ok tt (set_trace
       (trace w ++
        [input_emitEvent (m_type e) (ireq_type req) (ireq_code req) (ireq_value req);
         tcp_write (genMessage (kInputEventResponse
           {| iresp_serial := ireq_serial req;
              iresp_success := pipe_accepts (env w) (m_type e) |}))]) w)) /\
  (m_inputEmittors (machine w) !! deviceType = None ->
     handleInputEventRequest req w =
     Ok tt (set_trace
       (trace w ++
        [tcp_write (genMessage (kInputEventResponse
           {| iresp_serial := ireq_serial req; iresp_success := false |}))]) w)).
Proof.
  intros Hconn deviceType. subst deviceType.
  destruct w as [m e wk ps tr]. destruct m. cbn in Hconn. subst.
  split.
  - intros em He. cbn in He. unfold handleInputEventRequest, emitEvent. run.
    rewrite He. run. rewrite <- (assoc_L (++)). reflexivity.
  - intros He. cbn in He. unfold handleInputEventRequest. run.
    rewrite He. run. reflexivity.
Qed.

(** C9.  With the connection [onPair] stored still in place: a buffer
    that does not hold exactly one byte only dismisses the dialog (no
    frame is written, the connection is not closed); a buffer of one
    byte always has the PairResponse written, with [agree] true exactly
    when the byte is ACCEPT, and for any other byte the connection is
    closed and nothing else of the Machine changes. *)
Theorem receivedUserConfirm_cases (buff : Buffer) (w : World) (c : TCP) :
  m_conn (machine w) = Some c ->
  (Buffer.size buff ≠ 1 ->
     receivedUserConfirm buff w =
     Ok buff (set_machine (set_m_confirmDialog None (machine w)) w)) /\
  (forall b, buf_readable buff = [b] ->
     exists w',
       receivedUserConfirm buff w = Ok (Buffer.clear buff) w' /\
       (exists post,
          trace w' =
          trace w ++
            tcp_write (genMessage (confirm_response (env w) (bool_decide (b = ACCEPT))))
            :: post) /\
       (b ≠ ACCEPT ->
          w' = set_trace
                 (trace w ++
                  [tcp_write (genMessage (confirm_response (env w) false)); tcp_close])
                 (set_machine
                    (set_m_conn (Some (TCP.close c))
                       (set_m_confirmDialog None (machine w))) w))).
Proof.
  intros Hconn. destruct w as [m e wk ps tr]. destruct m. cbn in Hconn. subst.
  split.
  - intros Hsize. unfold receivedUserConfirm. run.
    destruct (Z.eqb_spec (Buffer.size buff) 1); [contradiction|]. reflexivity.
  - intros b Hb.
    assert (Buffer.size buff = 1) as Hsz
      by (unfold Buffer.size; rewrite Hb; reflexivity).
    assert (Buffer.data buff 0 = b) as Hd
      by (unfold Buffer.data; rewrite Hb; reflexivity).
    unfold receivedUserConfirm. rewrite Hsz, Hd.
    change (1 =? 1) with true.
    unfold sendMessage, initConnection, sendServiceStatusNotification, sendMessage,
      confirm_response.
    destruct (decide (b = ACCEPT)) as [->|Hne].
    + rewrite bool_decide_eq_true_2 by reflexivity. run.
      eexists. split; [reflexivity|]. split.
      * cbn [trace]. rewrite <- !(assoc_L (++)). eexists. reflexivity.
      * intros Hcontra. contradiction.
    + rewrite bool_decide_eq_false_2 by exact Hne. run.
      eexists. split; [reflexivity|]. split.
      * cbn [trace]. rewrite <- !(assoc_L (++)). eexists. reflexivity.
      * intros _. rewrite <- !(assoc_L (++)). reflexivity.
Qed.

(** C8.  From a Machine without a dialog, the outbound path with an
    agreeing PairResponse and the inbound path with the ACCEPT byte both
    end Paired, in states that differ in nothing but the stream object
    itself, and both end by writing the same ServiceOnOffNotification
    frame. *)
Theorem pairing_paths_agree (w : World) (sock : TCP) (resp : PairResponse)
    (confirm : Buffer) :
  presp_agree resp = true ->
  buf_readable confirm = [ACCEPT] ->
  m_confirmDialog (machine w) = None ->
  exists w_out w_in,
    outbound_pairing resp w = Ok tt w_out /\
    inbound_pairing sock confirm w = Ok (Buffer.clear confirm) w_in /\
    Paired (machine w_out) /\
    Paired (machine w_in) /\
    set_m_conn None (machine w_out) = set_m_conn None (machine w_in) /\
    (exists pre, trace w_out = pre ++ paired_suffix (env w)) /\
    (exists pre, trace w_in = pre ++ paired_suffix (env w)).
Proof.
  intros Hagree Hbuf Hdlg. destruct w as [m e wk ps tr]. destruct m.
  cbn in Hdlg. subst.
  unfold outbound_pairing, inbound_pairing, connect, connect_onConnected,
    handlePairResponseAux, onPair, receivedUserConfirm, initConnection,
    sendServiceStatusNotification, sendMessage.
  assert (Buffer.size confirm = 1) as Hsz
    by (unfold Buffer.size; rewrite Hbuf; reflexivity).
  assert (Buffer.data confirm 0 = ACCEPT) as Hd
    by (unfold Buffer.data; rewrite Hbuf; reflexivity).
  rewrite Hagree, Hsz, Hd. change (1 =? 1) with true.
  rewrite bool_decide_eq_true_2 by reflexivity. run.
  do 2 eexists. split; [reflexivity|]. split; [reflexivity|].
  cbn [machine trace env].
  assert (forall c : TCP,
    initialized (TCP.keepalive true 20 (TCP.tcpNoDelay
      (TCP.onReceived (Some cb_dispatcher)
        (TCP.onClosed (Some cb_handleDisconnectedAux) c))))) as Hinit
    by (intros c0; repeat split).
  split; [|split; [|split; [reflexivity|split]]].
  - split; [reflexivity|]. split; [|split; reflexivity].
    eexists. split; [reflexivity|]. apply Hinit.
  - split; [reflexivity|]. split; [|split; reflexivity].
    eexists. split; [reflexivity|]. apply Hinit.
  - unfold paired_suffix, service_status.
    rewrite <- !(assoc_L (++)). cbn [app].
    eexists (_ ++ [_; _]). rewrite <- (assoc_L (++)). reflexivity.
  - unfold paired_suffix, service_status.
    rewrite <- !(assoc_L (++)). cbn [app].
    eexists (_ ++ [_; _]). rewrite <- (assoc_L (++)). reflexivity.
Qed.

Lemma conn_close_closed (w : World) (c : TCP) :
  m_conn (machine w) = Some c -> conn_close w = Ok tt (closed c w).
Proof.
  intros Hconn. destruct w as [m e wk ps tr]. destruct m. cbn in Hconn. subst.
  reflexivity.
Qed.

Lemma handleMessage_default (msg : Message) (w : World) (c : TCP) :
  has_case msg = false ->
  m_conn (machine w) = Some c ->
  handleMessage msg w = Ok false (closed c w).
Proof.
  intros Hcase Hconn.
  destruct msg; try discriminate Hcase;
    unfold handleMessage; unfold mbind at 1, M_bind;
    rewrite (conn_close_closed _ _ Hconn); reflexivity.
Qed.

(** C5.  With the connection in place and at least a header in the
    buffer: a decoded message without a [case] (PairRequest, or no
    payload) closes the connection and ends the call, the rest of the
    buffer untouched; ILLEGAL closes the connection; PARTIAL ends the
    call and closes nothing. *)
Theorem dispatcher_stops (fuel : nat) (buff : Buffer) (w : World) (c : TCP) :
  m_conn (machine w) = Some c ->
  header_size <= Buffer.size buff ->
  (forall msg buff',
     parseMessage buff = (value msg, buff') -> has_case msg = false ->
     dispatcher (S fuel) buff w = Ok buff' (closed c w)) /\
  (parseMessage buff = (unexpected ILLEGAL_MESSAGE, buff) ->
     dispatcher (S fuel) buff w = Ok buff (closed c w)) /\
  (parseMessage buff = (unexpected PARTIAL_MESSAGE, buff) ->
     dispatcher (S fuel) buff w = Ok buff w).
Proof.
  intros Hconn Hsize.
  assert ((header_size <=? Buffer.size buff) = true) as Hguard
    by (apply Z.leb_le; exact Hsize).
  repeat split.
  - intros msg buff' Hparse Hcase. cbn [dispatcher]. rewrite Hguard, Hparse.
    unfold mbind at 1, M_bind.
    rewrite (handleMessage_default _ _ _ Hcase Hconn). reflexivity.
  - intros Hparse. cbn [dispatcher]. rewrite Hguard, Hparse.
    rewrite bool_decide_eq_true_2 by reflexivity.
    unfold when, mbind, M_bind. rewrite (conn_close_closed _ _ Hconn). reflexivity.
  - intros Hparse. cbn [dispatcher]. rewrite Hguard, Hparse.
    rewrite bool_decide_eq_false_2 by discriminate. reflexivity.
Qed.

(** Below a header's worth of bytes the loop is not entered. *)
Lemma dispatcher_short (fuel : nat) (buff : Buffer) (w : World) :
  Buffer.size buff < header_size ->
  dispatcher (S fuel) buff w = Ok buff w.
Proof.
  intros Hsize. cbn [dispatcher].
  destruct (Z.leb_spec header_size (Buffer.size buff)); [lia|reflexivity].
Qed.

(** A message with a [case] has its handler run to the end, the loop
    goes on, and the connection is still there (closing it does not
    reset [m_conn]). *)
Lemma handleMessage_known (msg : Message) (w : World) :
  has_case msg = true ->
  is_Some (m_conn (machine w)) ->
  exists w', handleMessage msg w = Ok true w' /\ is_Some (m_conn (machine w')).
Proof.
  intros Hcase [c Hconn]. destruct w as [m e wk ps tr]. destruct m.
  cbn in Hconn. subst.
  destruct msg as [|r|r|r| |r| | |r|r|r|r| | |r|r|r|r|r|r|r];
    try discriminate Hcase; clear Hcase;
    unfold handleMessage, handlePairResponseAux, handleServiceOnOffMsg,
      handleDeviceSharingStartRequest, handleDeviceSharingStartResponse,
      handleDeviceSharingStopRequest, stopDeviceSharingAux,
      handleInputEventRequest, emitEvent, handleFlowDirectionNtf,
      handleFlowRequest, handleFsRequest, handleFsResponse,
      handleFsSendFileRequest, Process_spawn, handleClipboardNotify,
      handleClipboardGetContentRequest, handleClipboardGetContentResponse,
      sendServiceStatusNotification, sendFlowDirectionNtf, async_wake,
      sendMessage;
    run;
    repeat match goal with
           | |- context [match ?x with _ => _ end] =>
               match type of x with
               | bool => destruct x
               | option _ => destruct x
               | FlowDirection => destruct x
               end; run
           end;
    eexists; (split; [reflexivity|]); cbn; eauto.
Qed.

Lemma bind_ok {A B} (c : M A) (f : A -> M B) (w w1 : World) (a : A) :
  c w = Ok a w1 -> (c ≫= f) w = f a w1.
Proof. intros Hc. unfold mbind, M_bind. rewrite Hc. reflexivity. Qed.

Lemma genMessage_size_ge (msg : Message) (l : list byte) (storage : nat -> byte) :
  ByteSizeLong msg <= INT_MAX ->
  header_size <= Buffer.size (mkBuffer (genMessage msg ++ l) storage).
Proof.
  intros Hmax. unfold Buffer.size. cbn [buf_readable].
  rewrite length_app, Nat2Z.inj_add, (genMessage_length msg Hmax).
  pose proof (ByteSizeLong_nonneg msg). lia.
Qed.

(** C4, as the code has it.  A buffer that holds the frames of
    [msgs], every one a variant the [switch] has a [case] for, followed
    by the beginning [rest] of a frame still incomplete: with the
    connection in place and whatever more than [length msgs] iterations
    allowed, the dispatcher returns; what it has done to the Machine is
    what the handlers of [msgs] do, each run once, in arrival order; and
    the buffer is left with [rest] alone. *)
Theorem dispatcher_drains (msgs : list Message) (rest : list byte)
    (storage : nat -> byte) (w : World) (fuel : nat) :
  is_Some (m_conn (machine w)) ->
  Forall (fun msg => has_case msg = true) msgs ->
  Forall carried msgs ->
  incomplete rest storage ->
  (length msgs < fuel)%nat ->
  exists w',
    handle_all msgs w = Ok tt w' /\
    dispatcher fuel (mkBuffer (concat (genMessage <$> msgs) ++ rest) storage) w =
      Ok (mkBuffer rest storage) w'.
Proof.
  intros Hconn Hcases Hcarried Hrest. revert w fuel Hconn.
  induction msgs as [|msg msgs IH]; intros w fuel Hconn Hfuel.
  - destruct fuel as [|fuel]; [simpl in Hfuel; lia|].
    exists w. split; [reflexivity|]. cbn [fmap list_fmap concat app].
    destruct Hrest as [Hshort|Hpartial].
    + apply dispatcher_short, Hshort.
    + cbn [dispatcher]. rewrite Hpartial.
      rewrite bool_decide_eq_false_2 by discriminate.
      destruct (header_size <=? _); reflexivity.
  - destruct fuel as [|fuel]; [simpl in Hfuel; lia|].
    apply Forall_cons in Hcases as [Hcase Hcases].
    apply Forall_cons in Hcarried as [[Hmax Hparse] Hcarried].
    destruct (handleMessage_known msg w Hcase Hconn) as (w1 & Hrun & Hconn1).
    destruct (IH Hcases Hcarried w1 fuel Hconn1) as (w' & Hall & Hdisp);
      [simpl in Hfuel; lia|].
    exists w'. split.
    + unfold handle_all. cbn [for_each].
      rewrite (bind_ok _ _ w w1 tt); [exact Hall|].
      rewrite (bind_ok _ _ w w1 true Hrun). reflexivity.
    + cbn [fmap list_fmap concat dispatcher]. rewrite <- (assoc_L (++)).
      pose proof (genMessage_size_ge msg (concat (genMessage <$> msgs) ++ rest)
                    storage Hmax) as Hsize.
      apply Z.leb_le in Hsize. rewrite Hsize.
      rewrite (parseMessage_frame msg _ storage Hmax Hparse).
      rewrite (bind_ok _ _ w w1 true Hrun). exact Hdisp.
Qed.

End MachineTheorems.

Section MachineExamples.
#[local] Existing Instance Reference.host.
#[local] Existing Instance Reference.codec.

Lemma Reference_carried (msg : Message) :
  ByteSizeLong msg <= INT_MAX ->
  Reference.dec_Message (Reference.enc_Message msg) = Some (msg, []) ->
  carried msg.
Proof.
  intros Hmax Hdec. split; [exact Hmax|]. apply Reference_parse, Hdec.
Qed.

Lemma handleInputEventRequest_replies_witness :
  handleInputEventRequest
    {| ireq_serial := 7; ireq_devicetype := 1;
       ireq_type := 2; ireq_code := 0; ireq_value := 5 |} paired_world =
  Ok tt (set_trace
    [input_emitEvent MOUSE 2 0 5;
     tcp_write (genMessage (kInputEventResponse
       {| iresp_serial := 7; iresp_success := true |}))] paired_world) /\
  handleInputEventRequest
    {| ireq_serial := 9; ireq_devicetype := 257;
       ireq_type := 2; ireq_code := 0; ireq_value := 5 |} paired_world =
  Ok tt (set_trace
    [input_emitEvent MOUSE 2 0 5;
     tcp_write (genMessage (kInputEventResponse
       {| iresp_serial := 9; iresp_success := true |}))] paired_world) /\
  handleInputEventRequest
    {| ireq_serial := 8; ireq_devicetype := 9;
       ireq_type := 2; ireq_code := 0; ireq_value := 5 |} paired_world =
  Ok tt (set_trace
    [tcp_write (genMessage (kInputEventResponse
       {| iresp_serial := 8; iresp_success := false |}))] paired_world).
Proof.
  split; [|split].
  - apply (proj1 (handleInputEventRequest_replies
      {| ireq_serial := 7; ireq_devicetype := 1;
         ireq_type := 2; ireq_code := 0; ireq_value := 5 |}
      paired_world paired_conn eq_refl) {| m_type := MOUSE |}).
    vm_compute. reflexivity.
  - apply (proj1 (handleInputEventRequest_replies
      {| ireq_serial := 9; ireq_devicetype := 257;
         ireq_type := 2; ireq_code := 0; ireq_value := 5 |}
      paired_world paired_conn eq_refl) {| m_type := MOUSE |}).
    vm_compute. reflexivity.
  - apply (proj2 (handleInputEventRequest_replies
      {| ireq_serial := 8; ireq_devicetype := 9;
         ireq_type := 2; ireq_code := 0; ireq_value := 5 |}
      paired_world paired_conn eq_refl)).
    vm_compute. reflexivity.
Defined.

Lemma receivedUserConfirm_cases_witness :
  receivedUserConfirm (mkBuffer [] zero_storage)
    (world_after (onPair accepted_sock) idle_world) =
  Ok (mkBuffer [] zero_storage)
     (set_machine
        (set_m_confirmDialog None
           (machine (world_after (onPair accepted_sock) idle_world)))
        (world_after (onPair accepted_sock) idle_world)) /\
  (exists w',
     receivedUserConfirm (mkBuffer [ACCEPT] zero_storage)
       (world_after (onPair accepted_sock) idle_world) =
     Ok (mkBuffer [] zero_storage) w' /\
     exists post,
       trace w' =
       trace (world_after (onPair accepted_sock) idle_world) ++
         tcp_write (genMessage (confirm_response env0 true)) :: post) /\
  (exists w',
     receivedUserConfirm (mkBuffer ["002"%byte] zero_storage)
       (world_after (onPair accepted_sock) idle_world) =
     Ok (mkBuffer [] zero_storage) w' /\
     w' = set_trace
            (trace (world_after (onPair accepted_sock) idle_world) ++
             [tcp_write (genMessage (confirm_response env0 false)); tcp_close])
            (set_machine
               (set_m_conn (Some (TCP.close accepted_sock))
                  (set_m_confirmDialog None
                     (machine (world_after (onPair accepted_sock) idle_world))))
               (world_after (onPair accepted_sock) idle_world))).
Proof.
  split; [|split].
  - apply (receivedUserConfirm_cases (mkBuffer [] zero_storage)
             (world_after (onPair accepted_sock) idle_world) accepted_sock eq_refl).
    vm_compute. discriminate.
  - destruct (proj2 (receivedUserConfirm_cases (mkBuffer [ACCEPT] zero_storage)
             (world_after (onPair accepted_sock) idle_world) accepted_sock eq_refl)
             ACCEPT eq_refl) as (w' & Hrun & Hsent & _).
    exists w'. split; [exact Hrun|]. exact Hsent.
  - destruct (proj2 (receivedUserConfirm_cases (mkBuffer ["002"%byte] zero_storage)
             (world_after (onPair accepted_sock) idle_world) accepted_sock eq_refl)
             "002"%byte eq_refl) as (w' & Hrun & _ & Hreject).
    exists w'. split; [exact Hrun|]. apply Hreject. discriminate.
Defined.

Lemma pairing_paths_agree_witness :
  exists w_out w_in,
    outbound_pairing
      {| presp_key := SCAN_KEY; presp_deviceinfo := peer; presp_agree := true |}
      idle_world = Ok tt w_out /\
    inbound_pairing accepted_sock (mkBuffer [ACCEPT] zero_storage) idle_world =
      Ok (mkBuffer [] zero_storage) w_in /\
    Paired (machine w_out) /\
    Paired (machine w_in) /\
    set_m_conn None (machine w_out) = set_m_conn None (machine w_in) /\
    (exists pre, trace w_out = pre ++ paired_suffix env0) /\
    (exists pre, trace w_in = pre ++ paired_suffix env0).
Proof.
  apply (pairing_paths_agree idle_world accepted_sock
           {| presp_key := SCAN_KEY; presp_deviceinfo := peer; presp_agree := true |}
           (mkBuffer [ACCEPT] zero_storage)); reflexivity.
Defined.

Lemma dispatcher_stops_witness :
  dispatcher 3 pair_request_first paired_world =
    Ok (mkBuffer (genMessage mouse_event) zero_storage) (closed paired_conn paired_world) /\
  dispatcher 3 illegal_buffer paired_world =
    Ok illegal_buffer (closed paired_conn paired_world) /\
  dispatcher 3 partial_buffer paired_world = Ok partial_buffer paired_world.
Proof.
  split; [|split].
  - apply (proj1 (dispatcher_stops 2 pair_request_first paired_world paired_conn
             eq_refl ltac:(vm_compute; discriminate)) pair_request).
    + apply (parseMessage_frame pair_request).
      * vm_compute. discriminate.
      * apply Reference_parse. vm_compute. reflexivity.
    + reflexivity.
  - apply (dispatcher_stops 2 illegal_buffer paired_world paired_conn
             eq_refl ltac:(vm_compute; discriminate)).
    vm_compute. reflexivity.
  - apply (dispatcher_stops 2 partial_buffer paired_world paired_conn
             eq_refl ltac:(vm_compute; discriminate)).
    vm_compute. reflexivity.
Defined.

Lemma dispatcher_drains_witness :
  exists w',
    handle_all [mouse_event; flow_request] paired_world = Ok tt w' /\
    dispatcher 3 two_frames_and_a_half paired_world =
      Ok (mkBuffer (take 20 (genMessage mouse_event)) zero_storage) w'.
Proof.
  apply (dispatcher_drains [mouse_event; flow_request]
           (take 20 (genMessage mouse_event)) zero_storage paired_world 3).
  - exists paired_conn. reflexivity.
  - apply Forall_cons. split; [reflexivity|].
    apply Forall_cons. split; [reflexivity|]. apply Forall_nil_2.
  - apply Forall_cons. split.
    { apply Reference_carried; [vm_compute; discriminate|vm_compute; reflexivity]. }
    apply Forall_cons. split.
    { apply Reference_carried; [vm_compute; discriminate|vm_compute; reflexivity]. }
    apply Forall_nil_2.
  - right. vm_compute. reflexivity.
  - apply Nat.lt_succ_diag_r.
Defined.

(** C4, as stated, fails: the frames of a PairRequest and of an input
    event arrive together; the dispatcher closes the connection at the
    first and returns.  The handler of the second is not run (nothing is
    injected, no response is written) and its whole frame stays in the
    buffer. *)
Lemma dispatcher_drops_after_pair_request :
  (exists w',
     dispatcher 3 pair_request_first paired_world =
       Ok (mkBuffer (genMessage mouse_event) zero_storage) w' /\
     trace w' = [tcp_close]) /\
  (exists w',
     handle_all [mouse_event] paired_world = Ok tt w' /\
     trace w' =
       [input_emitEvent MOUSE 2 0 5;
        tcp_write (genMessage (kInputEventResponse
          {| iresp_serial := 7; iresp_success := true |}))]) /\
  ~ incomplete (genMessage mouse_event) zero_storage.
Proof.
  split; [|split].
  - eexists. split; [vm_compute; reflexivity|]. reflexivity.
  - eexists. split; [vm_compute; reflexivity|]. vm_compute. reflexivity.
  - intros [Hshort|Hpartial].
    + vm_compute in Hshort. discriminate.
    + vm_compute in Hpartial. discriminate.
Qed.

End MachineExamples.

(** ** File transfer *)

Lemma append_empty_r (s : string) : s +:+ "" = s.
Proof.
  induction s as [|c s IH]; [reflexivity|].
  change (String c (s +:+ "") = String c s). rewrite IH. reflexivity.
Qed.

(** The path the handler forms for the file under the mountpoint (its
    local [filePath], lines 511-515): a request path that is not
    empty and does not start with a slash gets one in front before it is
    appended to the mountpoint; one that starts with a slash is appended
    as it is; an empty one gives the mountpoint itself. *)
Theorem fsSendFile_filePath_cases (mountpoint path : string) :
  (path = "" -> fsSendFile_filePath mountpoint path = mountpoint) /\
  (forall rest, path = String "/" rest ->
     fsSendFile_filePath mountpoint path = mountpoint +:+ path) /\
  (forall c rest, path = String c rest -> c ≠ "/"%char ->
     fsSendFile_filePath mountpoint path = mountpoint +:+ "/" +:+ path).
Proof.
  unfold fsSendFile_filePath. repeat split.
  - intros ->. cbn. apply append_empty_r.
  - intros rest ->. reflexivity.
  - intros c rest -> Hc. cbn [Str.empty Str.front negb andb].
    destruct (Ascii.eqb_spec c "/"); [contradiction|]. reflexivity.
Qed.

Lemma fsSendFile_filePath_cases_witness :
  fsSendFile_filePath "/var/lib/cooperation/mp" "" = "/var/lib/cooperation/mp" /\
  fsSendFile_filePath "/var/lib/cooperation/mp" "/x.txt" =
    "/var/lib/cooperation/mp/x.txt" /\
  fsSendFile_filePath "/var/lib/cooperation/mp" "docs/a.txt" =
    "/var/lib/cooperation/mp/docs/a.txt".
Proof.
  split; [|split].
  - apply (fsSendFile_filePath_cases "/var/lib/cooperation/mp" ""). reflexivity.
  - apply (proj1 (proj2 (fsSendFile_filePath_cases "/var/lib/cooperation/mp" "/x.txt"))
             "x.txt").
    reflexivity.
  - apply (proj2 (proj2 (fsSendFile_filePath_cases "/var/lib/cooperation/mp" "docs/a.txt"))
             "d"%char "ocs/a.txt").
    + reflexivity.
    + discriminate.
Defined.

Section FileTransfer.
Context `{Host} `{!Protobuf Message}.

(** Without a FuseClient the request is refused with its own serial, and
    that is all: no child is spawned and no callback is left behind that
    could send a result later. *)
Lemma handleFsSendFileRequest_refuses (req : FsSendFileRequest) (w : World) (c : TCP) :
  m_conn (machine w) = Some c ->
  m_fuseClient (machine w) = None ->
  handleFsSendFileRequest req w =
  Ok tt (set_trace
    (trace w ++
     [tcp_write (genMessage (kFsSendFileResponse
        {| sfresp_serial := sfreq_serial req; sfresp_accepted := false |}))]) w).
Proof.
  intros Hconn Hfuse. destruct w as [m e wk ps tr]. destruct m.
  cbn in Hconn, Hfuse. subst.
  unfold handleFsSendFileRequest, sendMessage. run. reflexivity.
Qed.

(** With a FuseClient the request is accepted and [/bin/cp] is spawned,
    with the [onExit] callback set and with no argument: nothing of the
    paths formed at lines 510-515 reaches the child. *)
Lemma handleFsSendFileRequest_accepts (req : FsSendFileRequest) (w : World) (c : TCP)
    (fc : FuseClient) :
  m_conn (machine w) = Some c ->
  m_fuseClient (machine w) = Some fc ->
  handleFsSendFileRequest req w =
  Ok tt (set_trace
    (trace w ++
     [tcp_write (genMessage (kFsSendFileResponse
        {| sfresp_serial := sfreq_serial req; sfresp_accepted := true |}));
      process_spawn "/bin/cp" []])
    (set_processes
       (processes w ++
        [{| proc_file := "/bin/cp"; proc_args := [];
            proc_exitCb := Some (exit_FsSendFile (manager_fileStoragePath (env w))
                                   (sfreq_serial req) (sfreq_path req)) |}]) w)).
Proof.
  intros Hconn Hfuse. destruct w as [m e wk ps tr]. destruct m.
  cbn in Hconn, Hfuse. subst.
  unfold handleFsSendFileRequest, sendMessage, Process_spawn, Process_onExit,
    Process_new.
  run. rewrite bool_decide_eq_true_2 by eauto. run.
  rewrite <- (assoc_L (++)). reflexivity.
Qed.

(** When the child exits, the desktop is notified and the result goes to
    the peer with the request's serial and path, success being exit
    status 0. *)
Lemma exit_body_reports (storagePath : string) (serial : Z) (path : string)
    (exit_status term_signal : Z) (w : World) (c : TCP) :
  m_conn (machine w) = Some c ->
  exists fileName,
    exit_body (exit_FsSendFile storagePath serial path) exit_status term_signal w =
    Ok tt (set_trace
      (trace w ++
       [notify_received_file (storagePath +:+ "/" +:+ fileName) (exit_status =? 0);
        tcp_write (genMessage (kFsSendFileResult
          {| sfres_serial := serial; sfres_path := path;
             sfres_result := (exit_status =? 0) |}))]) w).
Proof.
  intros Hconn. destruct w as [m e wk ps tr]. destruct m. cbn in Hconn. subst.
  eexists. unfold exit_body, sendReceivedFilesSystemNtf, sendMessage. run.
  rewrite <- (assoc_L (++)). reflexivity.
Qed.

End FileTransfer.

(** ** Sharing and disconnection *)

Section Sharing.
Context `{Host} `{!Protobuf Message}.

(** A PairResponse that disagrees marks the Machine unconnected and
    leaves [m_deviceSharing] as it was. *)
Lemma handlePairResponseAux_reject (resp : PairResponse) (w : World) (c : TCP) :
  m_conn (machine w) = Some c ->
  presp_agree resp = false ->
  exists w',
    handlePairResponseAux resp w = Ok tt w' /\
    m_connected (machine w') = false /\
    m_deviceSharing (machine w') = m_deviceSharing (machine w).
Proof.
  intros Hconn Hagree. destruct w as [m e wk ps tr]. destruct m.
  cbn in Hconn. subst.
  unfold handlePairResponseAux. rewrite Hagree. run.
  eexists. split; [reflexivity|]. split; reflexivity.
Qed.

(** The close callback on a Machine already marked unconnected leaves
    [m_deviceSharing] as it was; on a connected one it clears it. *)
Lemma handleDisconnectedAux_sharing (w : World) :
  exists w',
    handleDisconnectedAux w = Ok tt w' /\
    m_connected (machine w') = false /\
    m_deviceSharing (machine w') =
      (if m_connected (machine w) then false else m_deviceSharing (machine w)).
Proof.
  destruct w as [m e wk ps tr]. destruct m.
  unfold handleDisconnectedAux. run.
  destruct m_connected0, m_fuseClient0, m_fuseServer0;
    rewrite ?bool_decide_eq_true_2 by eauto;
    rewrite ?bool_decide_eq_false_2 by (intros [? ?]; discriminate);
    run; eexists; (split; [reflexivity|]); split; reflexivity.
Qed.

(** An accepting DeviceSharingStartResponse marks the Machine sharing
    whether or not it is connected. *)
Lemma handleDeviceSharingStartResponse_accept (w : World) (c : TCP) :
  m_conn (machine w) = Some c ->
  exists w',
    handleDeviceSharingStartResponse {| dss_accept := true |} w = Ok tt w' /\
    m_deviceSharing (machine w') = true /\
    m_connected (machine w') = m_connected (machine w).
Proof.
  intros Hconn. destruct w as [m e wk ps tr]. destruct m. cbn in Hconn. subst.
  unfold handleDeviceSharingStartResponse, sendFlowDirectionNtf, sendMessage. run.
  eexists. split; [reflexivity|]. split; reflexivity.
Qed.

Lemma manager_view_snoc (tr : list Effect) (e : Effect) :
  manager_view (tr ++ [e]) =
  match e with
  | call_manager (mgr_onStartDeviceSharing _ _) => true
  | call_manager mgr_onStopDeviceSharing => false
  | _ => manager_view tr
  end.
Proof. unfold manager_view. rewrite foldl_app. reflexivity. Qed.

(** The closure of [sendFiles] only writes frames. *)
Lemma for_each_sendMessage (f : string -> Message) (l : list string) (w : World) :
  exists w',
    for_each (fun x => sendMessage (f x)) l w = Ok tt w' /\
    machine w' = machine w /\
    manager_view (trace w') = manager_view (trace w).
Proof.
  revert w. induction l as [|x l IH]; intros w.
  - exists w. repeat split.
  - cbn [for_each].
    assert (exists w1, sendMessage (f x) w = Ok tt w1 /\ machine w1 = machine w /\
                       manager_view (trace w1) = manager_view (trace w))
      as (w1 & Hsend & Hm1 & Hv1).
    { destruct w as [m e wk ps tr]. destruct m. unfold sendMessage. run.
      destruct m_conn0; run; eexists; (split; [reflexivity|]); split;
        try reflexivity.
      cbn [trace]. rewrite manager_view_snoc. reflexivity. }
    destruct (IH w1) as (w' & Hrest & Hm & Hv).
    exists w'. rewrite (bind_ok _ _ w w1 tt Hsend).
    split; [exact Hrest|]. split; congruence.
Qed.












(** With the connection in place every session event is handled to the
    end. *)
Lemma deliver_returns (ev : SessionEvent) (w : World) :
  is_Some (m_conn (machine w)) -> exists w', deliver ev w = Ok tt w'.
Proof.
  intros [c Hconn]. destruct w as [m e wk ps tr]. destruct m. cbn in Hconn. subst.
  destruct ev as [resp| | |resp| | |]; cbn [deliver].
  - unfold handlePairResponseAux, sendServiceStatusNotification, sendMessage.
    destruct (presp_agree resp); run; eexists; reflexivity.
  - eexists. reflexivity.
  - unfold async_turn. cbn [wakes]. destruct wk as [|[accepted|paths] wk].
    + eexists. reflexivity.
    + unfold wake_body, sendMessage. destruct accepted; run; eexists; reflexivity.
    + unfold wake_body.
      match goal with |- exists w', for_each ?f _ ?w0 = _ =>
        destruct (for_each_sendMessage
                    (fun filePath => kFsSendFileRequest
                       {| sfreq_serial := 0; sfreq_path := filePath |}) paths w0)
          as (w1 & Hrun1 & _)
      end.
      exists w1. exact Hrun1.
  - unfold handleDeviceSharingStartResponse, sendFlowDirectionNtf, sendMessage.
    destruct (dss_accept resp); run; eexists; reflexivity.
  - eexists. reflexivity.
  - unfold stopDeviceSharing, stopDeviceSharingAux, sendMessage. run.
    eexists. reflexivity.
  - destruct (handleDisconnectedAux_sharing
                {| machine := {| m_mountpoint := m_mountpoint0; m_port := m_port0;
                     m_uuid := m_uuid0; m_name := m_name0;
                     m_connected := m_connected0; m_os := m_os0;
                     m_compositor := m_compositor0;
                     m_deviceSharing := m_deviceSharing0;
                     m_direction := m_direction0; m_pingTimer := m_pingTimer0;
                     m_offlineTimer := m_offlineTimer0; m_mounted := m_mounted0;
                     m_ip := m_ip0; m_conn := Some c;
                     m_confirmDialog := m_confirmDialog0;
                     m_inputEmittors := m_inputEmittors0;
                     m_fuseServer := m_fuseServer0; m_fuseClient := m_fuseClient0;
                     m_sharedClipboard := m_sharedClipboard0 |};
                   env := e; wakes := wk; processes := ps; trace := tr |})
      as (w' & Hrun & _).
    exists w'. exact Hrun.
Qed.

End Sharing.

(** ** Where the code departs from the specification *)

Section Departures.
#[local] Existing Instance Reference.host.
#[local] Existing Instance Reference.codec.

(** C7 on the code.  The peer's export is mounted and
    [FsSendFileRequest{serial=3, path="/x.txt"}] arrives: the request is
    accepted, and the child spawned is [/bin/cp] with no operand at all,
    so nothing is copied from [mountpoint + path]. *)
Theorem handleFsSendFileRequest_cp_without_operands :
  handleFsSendFileRequest {| sfreq_serial := 3; sfreq_path := "/x.txt" |} mounted_world =
  Ok tt (set_trace
    [tcp_write (genMessage (kFsSendFileResponse
       {| sfresp_serial := 3; sfresp_accepted := true |}));
     process_spawn "/bin/cp" []]
    (set_processes
       [{| proc_file := "/bin/cp"; proc_args := [];
           proc_exitCb := Some (exit_FsSendFile "/home/user/Downloads" 3 "/x.txt") |}]
       mounted_world)).
Proof.
  apply (handleFsSendFileRequest_accepts
           {| sfreq_serial := 3; sfreq_path := "/x.txt" |} mounted_world paired_conn
           {| fuse_client_ip := "192.168.1.7"; fuse_client_port := 40001;
              fuse_client_mountpoint := "/var/lib/cooperation/mp" |});
    reflexivity.
Qed.

(** C10 on the code.  The peer's export is mounted and
    [FsSendFileRequest{serial=4, path="docs/a.txt"}] arrives.  The handler
    forms the path the claim describes, the mountpoint, a slash and the
    request's path (lines 511-515), and that is the last of it: the child
    it spawns is [/bin/cp] with no operand, and the path is in no argument
    of the child, in no frame and in no callback the handler leaves, so it
    is the source of no copy. *)
Theorem handleFsSendFileRequest_drops_filePath :
  fsSendFile_filePath (m_mountpoint (machine mounted_world)) "docs/a.txt" =
    "/var/lib/cooperation/mp/docs/a.txt" /\
  handleFsSendFileRequest {| sfreq_serial := 4; sfreq_path := "docs/a.txt" |}
    mounted_world =
  Ok tt (set_trace
    [tcp_write (genMessage (kFsSendFileResponse
       {| sfresp_serial := 4; sfresp_accepted := true |}));
     process_spawn "/bin/cp" []]
    (set_processes
       [{| proc_file := "/bin/cp"; proc_args := [];
           proc_exitCb := Some (exit_FsSendFile "/home/user/Downloads" 4 "docs/a.txt") |}]
       mounted_world)).
Proof.
  split; [reflexivity|].
  apply (handleFsSendFileRequest_accepts
           {| sfreq_serial := 4; sfreq_path := "docs/a.txt" |} mounted_world paired_conn
           {| fuse_client_ip := "192.168.1.7"; fuse_client_port := 40001;
              fuse_client_mountpoint := "/var/lib/cooperation/mp" |});
    reflexivity.
Qed.



(** Out of the protocol's order the flags also part this way: the peer
    agrees to pair, accepts sharing, and then sends a PairResponse that
    disagrees.  The three frames are dispatched, and the Machine is left
    sharing but not connected.  When the stream's close callback then
    runs it finds [m_connected] already false and clears nothing: the
    Machine stays sharing, and the Manager is never told that sharing
    stopped. *)
Lemma deviceSharing_outlives_connected :
  exists w1 w2,
    dispatcher 4 rejected_while_sharing awaiting_pair_world =
      Ok (mkBuffer [] zero_storage) w1 /\
    m_deviceSharing (machine w1) = true /\
    m_connected (machine w1) = false /\
    handleDisconnectedAux w1 = Ok tt w2 /\
    m_deviceSharing (machine w2) = true /\
    m_connected (machine w2) = false /\
    trace w2 =
      [dbus_adaptor (updateConnected true);
       tcp_write (genMessage (service_status env0));
       virt_handleConnected;
       dbus_adaptor (updateDeviceSharing true);
       call_manager (mgr_machineCooperated "B");
       dbus_adaptor (updateDirection FLOW_DIRECTION_RIGHT);
       tcp_write (genMessage (kFlowDirectionNtf {| ntf_direction := FLOW_DIRECTION_RIGHT |}));
       call_manager (mgr_onStartDeviceSharing "B" true);
       tcp_close;
       dbus_adaptor (updateConnected false);
       virt_handleDisconnected].
Proof.
  do 2 eexists.
  split; [vm_compute; reflexivity|].
  split; [reflexivity|]. split; [reflexivity|].
  split; [vm_compute; reflexivity|].
  split; [reflexivity|]. split; [reflexivity|].
  vm_compute. reflexivity.
Qed.

End Departures.

(** * Further properties of the code *)

(** ** The codec *)

Section ByteOrderProperties.
Context `{Host}.

(** X1.  [htonll] and [ntohll] (message_helper.h, lines 18-24) undo each
    other on every 64-bit value, on either host, and stay within 64
    bits. *)
Theorem htonll_ntohll_inverse (x : Z) :
  0 <= x < 2 ^ 64 ->
  ntohll (htonll x) = x /\ htonll (ntohll x) = x /\ 0 <= htonll x < 2 ^ 64.
Proof.
  intros Hx. split; [|split].
  - apply ntohll_htonll, Hx.
  - change (htonll (ntohll x)) with (ntohll (htonll x)). apply ntohll_htonll, Hx.
  - apply htonll_range, Hx.
Qed.

End ByteOrderProperties.

Section CodecProperties.
Context `{Host} {T : Type} `{!Protobuf T}.

Lemma genMessageQ_frame (fresh : nat -> byte) (msg : T) :
  header_size + ByteSizeLong msg <= INT_MAX ->
  genMessageQ fresh msg =
  MAGIC ++ store64 (htonll (ByteSizeLong msg)) ++ SerializeAsBytes msg.
Proof.
  intros Hmax. pose proof (ByteSizeLong_nonneg msg) as Hpos.
  unfold header_size in Hmax.
  unfold genMessageQ, SerializeToArray, header_bytes, MessageHeader_new.
  cbn [magic_ size_].
  rewrite (to_int_small (ByteSizeLong msg)) by lia.
  destruct (Z.leb_spec (ByteSizeLong msg) INT_MAX); [|lia].
  rewrite Z.leb_refl. cbn [andb].
  assert (length (MAGIC ++ store64 (htonll (ByteSizeLong msg))) = 16%nat) as Hlen
    by (rewrite length_app, store64_length; reflexivity).
  change (Z.to_nat header_size) with 16%nat.
  rewrite (assoc_L (++) MAGIC).
  rewrite take_app_length' by (symmetry; exact Hlen).
  rewrite drop_app_length' by (symmetry; exact Hlen).
  rewrite drop_drop, (drop_ge (Buffer.read _ _ _)).
  - rewrite app_nil_r, <- (assoc_L (++)). reflexivity.
  - unfold Buffer.read. rewrite length_fmap, length_seq.
    unfold uint64, header_size. unfold INT_MAX in *.
    rewrite (Z.mod_small (16 + ByteSizeLong msg)) by lia.
    rewrite to_int_small by (unfold INT_MAX; lia).
    unfold ByteSizeLong in *. lia.
Qed.

(** X3.  The two encoders agree: for a message whose frame fits an
    [int], [genMessageQ] (lines 52-61) gives the bytes [genMessage] (lines
    63-71) gives, whatever [resize] left in the array. *)
Theorem genMessageQ_genMessage (fresh : nat -> byte) (msg : T) :
  header_size + ByteSizeLong msg <= INT_MAX ->
  genMessageQ fresh msg = genMessage msg.
Proof.
  intros Hmax. pose proof (ByteSizeLong_nonneg msg) as Hpos.
  rewrite genMessageQ_frame by exact Hmax.
  rewrite genMessage_frame by (unfold header_size in Hmax; lia).
  reflexivity.
Qed.

(** X4.  What [genMessageQ] wrote is read back through the two parsers
    of the byte-array side: [parseMessageHeader] (lines 73-75, 85-87) sees
    a legal header whose [size()] is the body's length, and
    [parseMessageBody], on the pointer behind the header (lines 89-95) or
    on the array without its header (lines 77-83), gives the message. *)
Theorem parseMessageBody_genMessageQ (msg : T) (fresh beyond : nat -> byte) :
  header_size + ByteSizeLong msg <= INT_MAX ->
  (forall p : nat -> byte,
      (forall i x, SerializeAsBytes msg !! i = Some x -> p i = x) ->
      ParseFromArray p (ByteSizeLong msg) = msg) ->
  let frame := genMessageQ fresh msg in
  let header := parseMessageHeader (Buffer.data (mkBuffer frame beyond)) in
  legal header = true /\
  MessageHeader_size header = ByteSizeLong msg /\
  parseMessageBody
    (fun i => Buffer.data (mkBuffer frame beyond) (Z.to_nat header_size + i)%nat)
    (MessageHeader_size header) = msg /\
  parseMessageBodyQ (drop (Z.to_nat header_size) frame) beyond = msg.
Proof.
  intros Hmax Hparse frame header.
  pose proof (ByteSizeLong_nonneg msg) as Hpos.
  assert (0 <= ByteSizeLong msg < 2 ^ 64) as Hsz
    by (unfold INT_MAX, header_size in Hmax; lia).
  assert (frame = header_bytes (MessageHeader_new (ByteSizeLong msg)) ++
                  SerializeAsBytes msg) as Hframe.
  { unfold frame. rewrite genMessageQ_frame by exact Hmax.
    unfold header_bytes, MessageHeader_new. cbn [magic_ size_].
    rewrite <- (assoc_L (++)). reflexivity. }
  assert (length (header_bytes (MessageHeader_new (ByteSizeLong msg))) = 16%nat) as Hh.
  { unfold header_bytes. rewrite length_app, store64_length. reflexivity. }
  destruct (peak_header (ByteSizeLong msg) (SerializeAsBytes msg) beyond Hsz)
    as [Hlegal Hsize].
  assert (header = Buffer.peak_MessageHeader
            (mkBuffer (header_bytes (MessageHeader_new (ByteSizeLong msg)) ++
                       SerializeAsBytes msg) beyond)) as Hheader
    by (unfold header; rewrite Hframe; reflexivity).
  rewrite Hheader, Hlegal, Hsize.
  split; [reflexivity|]. split; [reflexivity|]. split.
  - unfold parseMessageBody.
    rewrite to_int_small by (unfold header_size in Hmax; lia).
    apply Hparse. intros i x Hix. apply data_lookup. cbn [buf_readable].
    rewrite Hframe. change (Z.to_nat header_size) with 16%nat. rewrite <- Hh.
    rewrite lookup_app_r by lia.
    replace (length _ + i - length _)%nat with i by lia. exact Hix.
  - unfold parseMessageBodyQ. rewrite Hframe.
    change (Z.to_nat header_size) with 16%nat. rewrite <- Hh, drop_app_length.
    apply Hparse. intros i x Hix. apply data_lookup. exact Hix.
Qed.

(** A frame cut short after its header is PARTIAL, and stays in the
    buffer. *)
Lemma parseMessage_prefix (msg : T) (n : nat) (storage : nat -> byte) :
  ByteSizeLong msg <= INT_MAX ->
  (16 <= n < length (genMessage msg))%nat ->
  parseMessage (mkBuffer (take n (genMessage msg)) storage) =
  (unexpected PARTIAL_MESSAGE, mkBuffer (take n (genMessage msg)) storage).
Proof.
  intros Hmax [Hlo Hhi].
  pose proof (ByteSizeLong_nonneg msg) as Hpos.
  assert (0 <= ByteSizeLong msg < 2 ^ 64) as Hsz by (unfold INT_MAX in Hmax; lia).
  pose proof (genMessage_length msg Hmax) as Hlen.
  rewrite genMessage_frame in * by assumption.
  assert (MAGIC ++ store64 (htonll (ByteSizeLong msg)) ++ SerializeAsBytes msg =
          header_bytes (MessageHeader_new (ByteSizeLong msg)) ++ SerializeAsBytes msg)
    as Hhdr.
  { unfold header_bytes, MessageHeader_new. cbn [magic_ size_].
    rewrite <- (assoc_L (++)). reflexivity. }
  rewrite Hhdr in *. clear Hhdr.
  assert (length (header_bytes (MessageHeader_new (ByteSizeLong msg))) = 16%nat) as Hh.
  { unfold header_bytes. rewrite length_app, store64_length. reflexivity. }
  rewrite take_app_ge by lia. rewrite Hh.
  destruct (peak_header (ByteSizeLong msg)
              (take (n - 16) (SerializeAsBytes msg)) storage Hsz) as [Hlegal Hsize].
  unfold parseMessage. rewrite Hlegal, Hsize. cbn [negb].
  assert (uint64 (header_size + ByteSizeLong msg) = header_size + ByteSizeLong msg) as Hu.
  { unfold uint64, header_size, INT_MAX in *. apply Z.mod_small. lia. }
  rewrite Hu.
  match goal with |- context [Buffer.size ?b <? ?k] =>
    destruct (Z.ltb_spec (Buffer.size b) k) as [_|Hge]
  end; [reflexivity|].
  exfalso. unfold Buffer.size in Hge. cbn [buf_readable] in Hge.
  rewrite length_app, length_take, Hh in Hge. rewrite length_app, Hh in Hhi, Hlen.
  unfold header_size in *. lia.
Qed.

(** X6.  The sum [header_size + header.size()] (lines 104 and 110) is
    taken in 64 bits.  For a legal header whose length field is
    [2^64 - 16] or more the sum wraps below 16: a buffer that holds a
    header is never found too short, [ParseFromArray] is handed the
    length converted to [int], which is negative, and fewer than 16 bytes
    are consumed. *)
Theorem parseMessage_length_wraps (buff : Buffer) :
  header_size <= Buffer.size buff ->
  take 8 (buf_readable buff) = MAGIC ->
  let len := MessageHeader_size (Buffer.peak_MessageHeader buff) in
  2 ^ 64 - header_size <= len ->
  parseMessage buff =
  (value (ParseFromArray (fun i => Buffer.data buff (16 + i)%nat) (len - 2 ^ 64)),
   Buffer.retrieve (len - (2 ^ 64 - header_size)) buff) /\
  -16 <= len - 2 ^ 64 < 0 /\
  0 <= len - (2 ^ 64 - header_size) < header_size.
Proof.
  intros Hsize Hmagic len Hlen.
  pose proof (peak_size_range buff) as Hrange. fold len in Hrange.
  assert (magic_ (Buffer.peak_MessageHeader buff) = take 8 (buf_readable buff)) as Hm.
  { destruct buff as [l st]. unfold Buffer.peak_MessageHeader. cbn [magic_ buf_readable].
    rewrite <- (app_nil_r l) at 1. rewrite read_app_prefix.
    - reflexivity.
    - unfold Buffer.size, header_size in Hsize. cbn [buf_readable] in Hsize. lia. }
  unfold header_size in *.
  split; [|lia].
  unfold parseMessage, legal. fold len. rewrite Hm.
  rewrite bool_decide_eq_true_2 by exact Hmagic. cbn [negb].
  assert (uint64 (header_size + len) = len - (2 ^ 64 - 16)) as Hu.
  { unfold uint64, header_size.
    replace (16 + len) with ((len - (2 ^ 64 - 16)) + 1 * 2 ^ 64) by lia.
    rewrite Z.mod_add by lia. apply Z.mod_small. lia. }
  rewrite Hu.
  destruct (Z.ltb_spec (Buffer.size buff) (len - (2 ^ 64 - 16))) as [Hlt|_]; [lia|].
  assert (to_int len = len - 2 ^ 64) as Hint.
  { assert (len mod 2 ^ 32 = len - (2 ^ 64 - 2 ^ 32)) as Hlow.
    { symmetry. apply (Z.mod_unique_pos _ _ (2 ^ 32 - 1)); lia. }
    unfold to_int. rewrite Hlow.
    destruct (Z.ltb_spec (len - (2 ^ 64 - 2 ^ 32)) (2 ^ 31)); lia. }
  rewrite Hint. reflexivity.
Qed.

End CodecProperties.

(** ** The dispatcher on whole and cut frames *)

Section DispatcherProperties.
Context `{Host} `{!Protobuf Message}.

(** One frame at the head of the buffer: its handler runs and the loop
    goes on with what follows. *)
Lemma dispatcher_frame (msg : Message) (rest : list byte) (storage : nat -> byte)
    (w w1 : World) (fuel : nat) :
  carried msg ->
  handleMessage msg w = Ok true w1 ->
  dispatcher (S fuel) (mkBuffer (genMessage msg ++ rest) storage) w =
  dispatcher fuel (mkBuffer rest storage) w1.
Proof.
  intros [Hmax Hparse] Hrun. cbn [dispatcher].
  pose proof (genMessage_size_ge msg rest storage Hmax) as Hsize.
  apply Z.leb_le in Hsize. rewrite Hsize.
  rewrite (parseMessage_frame msg _ storage Hmax Hparse).
  rewrite (bind_ok _ _ w w1 true Hrun). reflexivity.
Qed.

Lemma dispatcher_single (msg : Message) (storage : nat -> byte) (w w1 : World)
    (fuel : nat) :
  carried msg ->
  handleMessage msg w = Ok true w1 ->
  dispatcher (S (S fuel)) (mkBuffer (genMessage msg) storage) w =
  Ok (mkBuffer [] storage) w1.
Proof.
  intros Hcarried Hrun. rewrite <- (app_nil_r (genMessage msg)).
  rewrite (dispatcher_frame msg [] storage w w1 (S fuel) Hcarried Hrun).
  apply dispatcher_short. reflexivity.
Qed.

(** X5.  A frame that has not arrived in full is left alone: on every
    proper prefix of a frame, shorter than a header or not, the
    dispatcher (lines 236-250, with [parseMessage], lines 99-106) returns
    at once; the buffer keeps the bytes, the Machine is as it was, nothing
    is written and the connection is not closed. *)
Theorem dispatcher_waits_for_frame (msg : Message) (n : nat) (storage : nat -> byte)
    (w : World) (fuel : nat) :
  ByteSizeLong msg <= INT_MAX ->
  (n < length (genMessage msg))%nat ->
  dispatcher (S fuel) (mkBuffer (take n (genMessage msg)) storage) w =
  Ok (mkBuffer (take n (genMessage msg)) storage) w.
Proof.
  intros Hmax Hn.
  destruct (Nat.lt_ge_cases n 16) as [Hshort|Hlong].
  - apply dispatcher_short. unfold Buffer.size, header_size. cbn [buf_readable].
    rewrite length_take. lia.
  - cbn [dispatcher].
    rewrite (parseMessage_prefix msg n storage Hmax (conj Hlong Hn)).
    rewrite bool_decide_eq_false_2 by discriminate.
    destruct (header_size <=? _); reflexivity.
Qed.

(** X18.  The responses the [switch] has empty cases for (lines 281-283,
    290-292, 304-306, 323-325, 327-329) are consumed and nothing else
    happens: the Machine, the queued closures, the children and the trace
    are as before, whatever the message carries. *)
Theorem dispatcher_ignores_responses (msg : Message) (storage : nat -> byte)
    (w : World) (fuel : nat) :
  carried msg ->
  match msg with
  | kDeviceSharingStopResponse | kInputEventResponse _ | kFlowResponse
  | kFsSendFileResponse _ | kFsSendFileResult _ => True
  | _ => False
  end ->
  dispatcher (S (S fuel)) (mkBuffer (genMessage msg) storage) w =
  Ok (mkBuffer [] storage) w.
Proof.
  intros Hcarried Hmsg. apply dispatcher_single; [exact Hcarried|].
  destruct msg; try contradiction; reflexivity.
Qed.

End DispatcherProperties.

(** ** Flow direction *)

Section FlowProperties.
Context `{Host} `{!Protobuf Message}.

(** X7.  A direction set on one side arrives mirrored on the other:
    [setFlowDirection] to a new direction (lines 186-191) stores it and
    writes one FlowDirectionNtf frame (lines 709-714); the peer's
    dispatcher, given that frame, consumes it and its handler (lines
    446-462) stores the opposite direction, changing nothing else. *)
Theorem setFlowDirection_mirrored (d : FlowDirection) (wA wB : World) (c : TCP)
    (storage : nat -> byte) (fuel : nat) :
  m_conn (machine wA) = Some c ->
  m_direction (machine wA) ≠ d ->
  recognized d = true ->
  carried (kFlowDirectionNtf {| ntf_direction := d |}) ->
  exists frame,
    setFlowDirection d wA =
      Ok tt (set_trace (trace wA ++ [tcp_write frame])
               (set_machine (set_m_direction d (machine wA)) wA)) /\
    dispatcher (S (S fuel)) (mkBuffer frame storage) wB =
      Ok (mkBuffer [] storage)
         (set_machine (set_m_direction (opposite d) (machine wB)) wB).
Proof.
  intros Hconn Hne Hrec Hcarried.
  exists (genMessage (kFlowDirectionNtf {| ntf_direction := d |})). split.
  - destruct wA as [m e wk ps tr]. destruct m. cbn in Hconn, Hne. subst.
    unfold setFlowDirection, sendFlowDirectionNtf, sendMessage. run.
    rewrite bool_decide_eq_true_2 by exact Hne. run. reflexivity.
  - apply dispatcher_single; [exact Hcarried|].
    destruct wB as [m e wk ps tr]. destruct m.
    unfold handleMessage, handleFlowDirectionNtf. cbn [ntf_direction].
    destruct d; try discriminate Hrec; reflexivity.
Qed.

(** X8.  [setFlowDirection] (lines 186-191) is idempotent: called again
    with the direction it has just set it does nothing, so the peer is
    notified once. *)
Theorem setFlowDirection_idempotent (d : FlowDirection) (w : World) :
  (setFlowDirection d;; setFlowDirection d) w = setFlowDirection d w.
Proof.
  destruct w as [m e wk ps tr]. destruct m.
  unfold setFlowDirection, sendFlowDirectionNtf, sendMessage. run.
  destruct (decide (m_direction0 = d)) as [->|Hne].
  - rewrite !bool_decide_eq_false_2 by (intros Hc; apply Hc; reflexivity).
    reflexivity.
  - rewrite (bool_decide_eq_true_2 (m_direction0 ≠ d)) by exact Hne.
    destruct m_conn0; run;
      rewrite bool_decide_eq_false_2 by (intros Hc; apply Hc; reflexivity);
      reflexivity.
Qed.

End FlowProperties.

(** ** The stream's end *)

Section DisconnectProperties.
Context `{Host} `{!Protobuf Message}.

(** X10.  The close callback (lines 208-234) always runs to its end and
    leaves the Machine without stream, FUSE client and FUSE server, not
    connected, with the ping timer re-armed and the offline timer
    untouched.  What it reports is fixed by the state it finds: a
    connected Machine has its sharing stopped with the Manager and both
    flags cleared on the bus, a mounted one has its FUSE client exited.  A
    second run finds nothing left and only calls the hook. *)
Theorem handleDisconnectedAux_releases (w : World) :
  exists w',
    handleDisconnectedAux w = Ok tt w' /\
    m_conn (machine w') = None /\
    m_fuseClient (machine w') = None /\
    m_fuseServer (machine w') = None /\
    m_connected (machine w') = false /\
    m_pingTimer (machine w') = Timer.reset (m_pingTimer (machine w)) /\
    m_offlineTimer (machine w') = m_offlineTimer (machine w) /\
    trace w' =
      trace w ++
      (if m_connected (machine w)
       then [call_manager mgr_onStopDeviceSharing;
             dbus_adaptor (updateDeviceSharing false);
             dbus_adaptor (updateConnected false)]
       else []) ++
      (if m_fuseClient (machine w) is Some _ then [fuse_client_exit] else []) ++
      [virt_handleDisconnected] /\
    handleDisconnectedAux w' =
      Ok tt (set_trace (trace w' ++ [virt_handleDisconnected]) w').
Proof.
  destruct w as [m e wk ps tr]. destruct m.
  unfold handleDisconnectedAux. run.
  destruct m_connected0, m_fuseClient0 as [fc|], m_fuseServer0 as [fs|];
    rewrite ?bool_decide_eq_true_2 by eauto;
    rewrite ?bool_decide_eq_false_2 by (intros [? ?]; discriminate);
    run; eexists; (split; [reflexivity|]);
    (split; [reflexivity|]); (split; [reflexivity|]); (split; [reflexivity|]);
    (split; [reflexivity|]); (split; [reflexivity|]); (split; [reflexivity|]);
    (split; [rewrite <- ?(assoc_L (++)); reflexivity|]);
    run;
    rewrite ?bool_decide_eq_false_2 by (intros [? ?]; discriminate);
    run; reflexivity.
Qed.

(** X11.  Once [m_conn] is reset, what still wants to send is dropped by
    the test in [sendMessage] (lines 746-753): the requests of the local
    side (lines 172-176, 623-662, 709-714, 755-762), the clipboard read
    callback (lines 558-564) and the closure of [sendFiles] (lines
    736-743) return with the Machine and the trace as they were. *)
Theorem senders_without_connection (w : World) :
  m_conn (machine w) = None ->
  requestDeviceSharing w = Ok tt w /\
  (forall deviceType type code value,
     onInputGrabberEvent deviceType type code value w = Ok tt w) /\
  (forall targets, onClipboardTargetsChanged targets w = Ok tt w) /\
  (forall direction x y, flowTo direction x y w = Ok tt w) /\
  (forall target, readTarget target w = Ok tt w) /\
  sendFlowDirectionNtf w = Ok tt w /\
  sendServiceStatusNotification w = Ok tt w /\
  (forall cb content, readTarget_body cb content w = Ok tt w) /\
  (forall filePaths, wake_body (wake_sendFiles filePaths) w = Ok tt w).
Proof.
  intros Hconn.
  assert (forall msg, sendMessage msg w = Ok tt w) as Hsend.
  { intros msg. destruct w as [m e wk ps tr]. destruct m. cbn in Hconn. subst.
    reflexivity. }
  assert (forall filePaths, wake_body (wake_sendFiles filePaths) w = Ok tt w) as Hfiles.
  { intros filePaths. unfold wake_body.
    induction filePaths as [|p l IH]; [reflexivity|].
    cbn [for_each]. rewrite (bind_ok _ _ w w tt (Hsend _)). exact IH. }
  clear Hsend.
  destruct w as [m e wk ps tr]. destruct m. cbn in Hconn. subst.
  split; [reflexivity|]. split; [reflexivity|].
  split; [intros targets; unfold onClipboardTargetsChanged; run;
          destruct (manager_isSharedClipboard e); reflexivity|].
  split; [reflexivity|]. split; [reflexivity|]. split; [reflexivity|].
  split; [reflexivity|].
  split; [intros [target] content; reflexivity|].
  exact Hfiles.
Qed.

End DisconnectProperties.

(** ** Strings *)

Lemma append_cons (c : ascii) (s t : string) : String c s +:+ t = String c (s +:+ t).
Proof. reflexivity. Qed.

Lemma append_nil_l (s : string) : "" +:+ s = s.
Proof. reflexivity. Qed.

Lemma string_app_assoc (a b c : string) : (a +:+ b) +:+ c = a +:+ b +:+ c.
Proof.
  induction a as [|x a IH]; [reflexivity|].
  rewrite !append_cons, IH. reflexivity.
Qed.

Lemma string_length_app (a b : string) :
  String.length (a +:+ b) = (String.length a + String.length b)%nat.
Proof.
  induction a as [|x a IH]; [reflexivity|].
  rewrite append_cons. cbn [String.length]. rewrite IH. reflexivity.
Qed.

Lemma substring_app_l (s t : string) :
  String.substring 0 (String.length s) (s +:+ t) = s.
Proof.
  induction s as [|x s IH].
  - destruct t; reflexivity.
  - rewrite append_cons. cbn [String.length String.substring]. rewrite IH. reflexivity.
Qed.

Lemma substring_all (s : string) : String.substring 0 (String.length s) s = s.
Proof.
  rewrite <- (append_empty_r s) at 2. apply substring_app_l.
Qed.

Lemma substring_app_r (s t : string) :
  String.substring (String.length s) (String.length t) (s +:+ t) = t.
Proof.
  induction s as [|x s IH].
  - apply substring_all.
  - rewrite append_cons. cbn [String.length String.substring]. exact IH.
Qed.

Lemma find_last_of_from_none (i : Z) (s : string) (c : ascii) (found : Z) :
  has_char c s = false -> Str.find_last_of_from i s c found = found.
Proof.
  revert i. induction s as [|d s IH]; intros i Hs; [reflexivity|].
  cbn [has_char] in Hs. apply orb_false_iff in Hs as [Hd Hs].
  cbn [Str.find_last_of_from]. rewrite Hd. apply IH, Hs.
Qed.

Lemma find_last_of_from_app (i : Z) (s1 s2 : string) (c : ascii) (found : Z) :
  has_char c s2 = false ->
  Str.find_last_of_from i (s1 +:+ String c s2) c found = i + Str.length s1.
Proof.
  intros Hs2. revert i found. induction s1 as [|d s1 IH]; intros i found.
  - rewrite append_nil_l. cbn [Str.find_last_of_from]. rewrite Ascii.eqb_refl.
    rewrite find_last_of_from_none by exact Hs2. unfold Str.length. simpl. lia.
  - rewrite append_cons. cbn [Str.find_last_of_from]. rewrite IH.
    unfold Str.length. cbn [String.length]. lia.
Qed.

(** [find_last_of] and [substr] as lines 531-532 use them: the part of
    the path after its last slash. *)
Lemma fileName_after_slash (dir name path : string) :
  path = dir +:+ "/" +:+ name ->
  has_char "/" name = false ->
  Str.length path < 2 ^ 64 ->
  Str.substr path (uint64 (Str.find_last_of path "/" + 1))
    (uint64 (Str.length path - uint64 (Str.find_last_of path "/" + 1))) = name.
Proof.
  intros -> Hname Hlen.
  change ("/" +:+ name) with (String "/" name) in *.
  unfold Str.find_last_of. rewrite find_last_of_from_app by exact Hname.
  unfold Str.length in *. rewrite string_length_app in *.
  cbn [String.length] in *.
  unfold uint64. rewrite (Z.mod_small (0 + _ + 1)) by lia.
  rewrite Z.mod_small by lia.
  unfold Str.substr.
  replace (Z.to_nat (0 + Z.of_nat (String.length dir) + 1))
    with (String.length (dir +:+ "/")).
  2:{ rewrite string_length_app. cbn [String.length]. lia. }
  replace (Z.to_nat _) with (String.length name) by lia.
  change (String "/" name) with ("/" +:+ name).
  rewrite <- string_app_assoc. apply substring_app_r.
Qed.

(** Without a slash [find_last_of] gives [npos], [npos + 1] wraps to 0,
    and the file name is the whole path. *)
Lemma fileName_no_slash (path : string) :
  has_char "/" path = false ->
  Str.length path < 2 ^ 64 ->
  Str.substr path (uint64 (Str.find_last_of path "/" + 1))
    (uint64 (Str.length path - uint64 (Str.find_last_of path "/" + 1))) = path.
Proof.
  intros Hpath Hlen.
  unfold Str.find_last_of. rewrite find_last_of_from_none by exact Hpath.
  change (uint64 (Str.npos + 1)) with 0.
  unfold Str.length in *. unfold uint64. rewrite Z.mod_small by lia.
  unfold Str.substr. rewrite Z.sub_0_r, Nat2Z.id. apply substring_all.
Qed.

(** ** The file service *)

Section FileServiceProperties.
Context `{Host} `{!Protobuf Message}.

(** X9.  The FUSE server is started once (lines 468-486): the first
    FsRequest creates it and is answered with its port; from then on
    every FsRequest is answered [accepted = false], port 0, and changes
    nothing of the Machine. *)
Theorem handleFsRequest_once (w : World) (c : TCP) :
  m_conn (machine w) = Some c ->
  m_fuseServer (machine w) = None ->
  exists w1,
    handleFsRequest w = Ok tt w1 /\
    machine w1 =
      set_m_fuseServer
        (Some {| fuse_server_port := fuse_server_listen_port (env w) |}) (machine w) /\
    trace w1 =
      trace w ++
      [tcp_write (genMessage (kFsResponse
         {| fs_accepted := true; fs_port := fuse_server_listen_port (env w) |}))] /\
    handleFsRequest w1 =
      Ok tt (set_trace
        (trace w1 ++
         [tcp_write (genMessage (kFsResponse {| fs_accepted := false; fs_port := 0 |}))])
        w1).
Proof.
  intros Hconn Hserver. destruct w as [m e wk ps tr]. destruct m.
  cbn in Hconn, Hserver. subst.
  unfold handleFsRequest, sendMessage. run.
  eexists. split; [reflexivity|]. split; [reflexivity|]. split; reflexivity.
Qed.

(** X19.  An accepting FsResponse makes the next FsSendFileRequest
    accepted (lines 488-508): the handler mounts the peer's export at the
    port the response names, and the request that follows is answered
    [accepted = true] with its own serial and a child is spawned whose
    exit callback holds the request's serial and path.  A response that
    does not accept leaves the Machine as it was. *)
Theorem handleFsResponse_then_request (resp : FsResponse) (req : FsSendFileRequest)
    (w : World) (c : TCP) :
  m_conn (machine w) = Some c ->
  (fs_accepted resp = false -> handleFsResponse resp w = Ok tt w) /\
  (fs_accepted resp = true ->
   exists w1 w2,
     handleFsResponse resp w = Ok tt w1 /\
     machine w1 =
       set_m_fuseClient
         (Some {| fuse_client_ip := m_ip (machine w);
                  fuse_client_port := fs_port resp;
                  fuse_client_mountpoint := m_mountpoint (machine w) |}) (machine w) /\
     handleFsSendFileRequest req w1 = Ok tt w2 /\
     trace w2 =
       trace w ++
       [tcp_write (genMessage (kFsSendFileResponse
          {| sfresp_serial := sfreq_serial req; sfresp_accepted := true |}));
        process_spawn "/bin/cp" []] /\
     processes w2 =
       processes w ++
       [{| proc_file := "/bin/cp"; proc_args := [];
           proc_exitCb := Some (exit_FsSendFile (manager_fileStoragePath (env w))
                                  (sfreq_serial req) (sfreq_path req)) |}]).
Proof.
  intros Hconn. destruct w as [m e wk ps tr]. destruct m. cbn in Hconn. subst.
  unfold handleFsResponse. split; intros Hacc; rewrite Hacc; run.
  - reflexivity.
  - do 2 eexists. split; [reflexivity|]. split; [reflexivity|].
    unfold handleFsSendFileRequest, sendMessage, Process_spawn, Process_onExit,
      Process_new.
    run. rewrite bool_decide_eq_true_2 by eauto. run.
    split; [reflexivity|]. split; [|reflexivity].
    rewrite <- (assoc_L (++)). reflexivity.
Qed.

(** X12.  The desktop notification names the received file by the part
    of the request's path after its last slash, under the storage
    directory (lines 531-533); for a path without a slash
    [find_last_of] gives [npos], [npos + 1] is 0, and the whole path is
    the name.  The FsSendFileResult that follows carries the serial and
    the path as requested. *)
Theorem exit_body_names_file (storagePath : string) (serial : Z) (dir name : string)
    (exit_status term_signal : Z) (w : World) (c : TCP) :
  m_conn (machine w) = Some c ->
  has_char "/" name = false ->
  Str.length (dir +:+ "/" +:+ name) < 2 ^ 64 ->
  exit_body (exit_FsSendFile storagePath serial (dir +:+ "/" +:+ name))
    exit_status term_signal w =
    Ok tt (set_trace
      (trace w ++
       [notify_received_file (storagePath +:+ "/" +:+ name) (exit_status =? 0);
        tcp_write (genMessage (kFsSendFileResult
          {| sfres_serial := serial; sfres_path := dir +:+ "/" +:+ name;
             sfres_result := (exit_status =? 0) |}))]) w) /\
  exit_body (exit_FsSendFile storagePath serial name) exit_status term_signal w =
    Ok tt (set_trace
      (trace w ++
       [notify_received_file (storagePath +:+ "/" +:+ name) (exit_status =? 0);
        tcp_write (genMessage (kFsSendFileResult
          {| sfres_serial := serial; sfres_path := name;
             sfres_result := (exit_status =? 0) |}))]) w).
Proof.
  intros Hconn Hname Hlen.
  assert (Str.length name < 2 ^ 64) as Hlen'.
  { unfold Str.length in *. rewrite !string_length_app in Hlen. lia. }
  destruct w as [m e wk ps tr]. destruct m. cbn in Hconn. subst.
  unfold exit_body, sendReceivedFilesSystemNtf, sendMessage. run.
  rewrite (fileName_after_slash dir name _ eq_refl Hname Hlen).
  rewrite (fileName_no_slash name Hname Hlen').
  rewrite <- !(assoc_L (++)). split; reflexivity.
Qed.

(** X13.  A child's exit is reported once (line 538): after the exit
    callback of the [i]-th child has run, whatever the Machine's state, a
    second exit reported for the same child does nothing. *)
Theorem process_exited_once (i : nat) (exit_status term_signal exit_status'
    term_signal' : Z) (w : World) :
  exists w1,
    process_exited i exit_status term_signal w = Ok tt w1 /\
    process_exited i exit_status' term_signal' w1 = Ok tt w1.
Proof.
  destruct w as [m e wk ps tr].
  unfold process_exited at 1. cbn [processes].
  destruct (ps !! i) as [p|] eqn:Hp.
  - destruct (proc_exitCb p) as [[storagePath serial path]|] eqn:Hcb.
    + destruct m.
      unfold exit_body, sendReceivedFilesSystemNtf, sendMessage. run.
      destruct m_conn0; run; eexists; (split; [reflexivity|]);
        unfold process_exited; cbn [processes];
        rewrite list_lookup_insert_eq by (apply lookup_lt_Some in Hp; exact Hp);
        reflexivity.
    + eexists. split; [reflexivity|].
      unfold process_exited. cbn [processes]. rewrite Hp, Hcb. reflexivity.
  - eexists. split; [reflexivity|].
    unfold process_exited. cbn [processes]. rewrite Hp. reflexivity.
Qed.

Lemma for_each_sendMessage_trace (f : string -> Message) (l : list string)
    (w : World) (c : TCP) :
  m_conn (machine w) = Some c ->
  for_each (fun x => sendMessage (f x)) l w =
  Ok tt (set_trace (trace w ++ ((fun x => tcp_write (genMessage (f x))) <$> l)) w).
Proof.
  revert w. induction l as [|x l IH]; intros w Hconn.
  - cbn [for_each fmap list_fmap]. rewrite app_nil_r. destruct w. reflexivity.
  - cbn [for_each fmap list_fmap].
    assert (sendMessage (f x) w =
            Ok tt (set_trace (trace w ++ [tcp_write (genMessage (f x))]) w)) as Hsend.
    { destruct w as [m e wk ps tr]. destruct m. cbn in Hconn. subst. reflexivity. }
    rewrite (bind_ok _ _ w _ tt Hsend). rewrite IH by exact Hconn.
    destruct w. cbn. rewrite <- (assoc_L (++)). reflexivity.
Qed.

(** X14.  [sendFiles] (lines 735-744) only queues its closure; when the
    loop runs it, one FsSendFileRequest frame is written for each path,
    in the order given, every one with the serial left at 0, and nothing
    else changes. *)
Theorem sendFiles_writes_in_order (filePaths : list string) (w : World) (c : TCP) :
  m_conn (machine w) = Some c ->
  wakes w = [] ->
  sendFiles filePaths w = Ok tt (set_wakes [wake_sendFiles filePaths] w) /\
  (sendFiles filePaths;; async_turn) w =
    Ok tt (set_trace
      (trace w ++
       ((fun filePath => tcp_write (genMessage (kFsSendFileRequest
           {| sfreq_serial := 0; sfreq_path := filePath |}))) <$> filePaths)) w).
Proof.
  intros Hconn Hwakes.
  pose proof (for_each_sendMessage_trace
                (fun filePath => kFsSendFileRequest
                   {| sfreq_serial := 0; sfreq_path := filePath |})
                filePaths w c Hconn) as Hrun.
  destruct w as [m e wk ps tr]. cbn in Hwakes. subst.
  split; [reflexivity|].
  unfold sendFiles, async_wake. run. unfold async_turn. cbn [wakes app].
  unfold wake_body. exact Hrun.
Qed.

End FileServiceProperties.

(** ** Two Machines *)

(** Running the handlers of the sharing handshake. *)
Ltac run_handlers :=
  cbv delta [requestDeviceSharing async_turn wake_body handleMessage
             handleDeviceSharingStartRequest handleDeviceSharingStartResponse
             handleFlowDirectionNtf sendFlowDirectionNtf sendMessage async_wake];
  run.

Section HandshakeProperties.
Context `{Host} `{!Protobuf Message}.

(** X20.  The sharing handshake between two paired Machines.  A's
    [requestDeviceSharing] (lines 172-176) writes a request; B's
    dispatcher queues the reply (lines 378-399), and the loop turn that
    runs it writes the accepting response, tells B's Manager and marks B
    sharing with direction LEFT; A's dispatcher, given that response
    (lines 401-417), marks A sharing with direction RIGHT, writes a
    FlowDirectionNtf and tells A's Manager; B's handler of that
    notification (lines 446-462) stores LEFT again.  Both ends are
    sharing, on opposite directions, and both Managers know. *)
Theorem sharing_handshake (wA wB : World) (cA cB : TCP) (stA stB : nat -> byte) :
  m_conn (machine wA) = Some cA ->
  m_conn (machine wB) = Some cB ->
  wakes wB = [] ->
  carried kDeviceSharingStartRequest ->
  carried (kDeviceSharingStartResponse {| dss_accept := true |}) ->
  carried (kFlowDirectionNtf {| ntf_direction := FLOW_DIRECTION_RIGHT |}) ->
  exists request response ntf wA1 wA2 wB1 wB2 wB3,
    requestDeviceSharing wA = Ok tt wA1 /\
    trace wA1 = trace wA ++ [tcp_write request] /\
    dispatcher 2 (mkBuffer request stB) wB = Ok (mkBuffer [] stB) wB1 /\
    async_turn wB1 = Ok tt wB2 /\
    trace wB2 =
      trace wB ++
      [tcp_write response;
       call_manager (mgr_onStartDeviceSharing (m_uuid (machine wB)) true);
       dbus_adaptor (updateDeviceSharing true);
       call_manager (mgr_machineCooperated (m_uuid (machine wB)));
       dbus_adaptor (updateDirection FLOW_DIRECTION_LEFT)] /\
    dispatcher 2 (mkBuffer response stA) wA1 = Ok (mkBuffer [] stA) wA2 /\
    trace wA2 =
      trace wA1 ++
      [dbus_adaptor (updateDeviceSharing true);
       call_manager (mgr_machineCooperated (m_uuid (machine wA)));
       dbus_adaptor (updateDirection FLOW_DIRECTION_RIGHT);
       tcp_write ntf;
       call_manager (mgr_onStartDeviceSharing (m_uuid (machine wA)) true)] /\
    dispatcher 2 (mkBuffer ntf stB) wB2 = Ok (mkBuffer [] stB) wB3 /\
    machine wA2 =
      set_m_direction FLOW_DIRECTION_RIGHT (set_m_deviceSharing true (machine wA)) /\
    machine wB3 =
      set_m_direction FLOW_DIRECTION_LEFT (set_m_deviceSharing true (machine wB)) /\
    m_direction (machine wA2) = opposite (m_direction (machine wB3)) /\
    manager_view (trace wA2) = true /\
    manager_view (trace wB3) = true.
Proof.
  intros HconnA HconnB Hwakes Hreq Hresp Hntf.
  destruct wA as [mA eA wkA psA trA]. destruct mA.
  destruct wB as [mB eB wkB psB trB]. destruct mB.
  cbn in HconnA, HconnB, Hwakes. subst.
  exists (genMessage kDeviceSharingStartRequest),
    (genMessage (kDeviceSharingStartResponse {| dss_accept := true |})),
    (genMessage (kFlowDirectionNtf {| ntf_direction := FLOW_DIRECTION_RIGHT |})).
  do 5 eexists.
  split; [reflexivity|]. split; [reflexivity|].
  split; [apply (dispatcher_single _ _ _ _ 0 Hreq); reflexivity|].
  split; [reflexivity|].
  split; [run_handlers; rewrite <- ?(assoc_L (++)); reflexivity|].
  split; [apply (dispatcher_single _ _ _ _ 0 Hresp); reflexivity|].
  split; [run_handlers; rewrite <- ?(assoc_L (++)); reflexivity|].
  split; [apply (dispatcher_single _ _ _ _ 0 Hntf); reflexivity|].
  split; [reflexivity|]. split; [reflexivity|]. split; [reflexivity|].
  run_handlers. rewrite !manager_view_snoc. split; reflexivity.
Qed.

(** X21.  Stopping is one-sided and needs no answer: A's
    [stopDeviceSharing] (lines 178-184) writes a stop request and clears
    A's flag at once; B's dispatcher, given the frame, clears B's flag
    (lines 419-421, 664-669) and writes nothing back.  Each side tells its
    Manager and puts the cleared flag on the bus. *)
Theorem stopDeviceSharing_both_ends (wA wB : World) (cA : TCP)
    (storage : nat -> byte) (fuel : nat) :
  m_conn (machine wA) = Some cA ->
  carried kDeviceSharingStopRequest ->
  exists frame,
    stopDeviceSharing wA =
      Ok tt (set_trace
        (trace wA ++
         [tcp_write frame; call_manager mgr_onStopDeviceSharing;
          dbus_adaptor (updateDeviceSharing false)])
        (set_machine (set_m_deviceSharing false (machine wA)) wA)) /\
    dispatcher (S (S fuel)) (mkBuffer frame storage) wB =
      Ok (mkBuffer [] storage)
        (set_trace
          (trace wB ++
           [call_manager mgr_onStopDeviceSharing;
            dbus_adaptor (updateDeviceSharing false)])
          (set_machine (set_m_deviceSharing false (machine wB)) wB)).
Proof.
  intros Hconn Hcarried.
  exists (genMessage kDeviceSharingStopRequest). split.
  - destruct wA as [m e wk ps tr]. destruct m. cbn in Hconn. subst.
    unfold stopDeviceSharing, stopDeviceSharingAux, sendMessage. run.
    rewrite <- !(assoc_L (++)). reflexivity.
  - apply dispatcher_single; [exact Hcarried|].
    destruct wB as [m e wk ps tr]. destruct m.
    unfold handleMessage, handleDeviceSharingStopRequest, stopDeviceSharingAux. run.
    rewrite <- !(assoc_L (++)). reflexivity.
Qed.

(** X24.  The reply to a DeviceSharingStartRequest is queued on the loop
    (lines 378-399) and runs whatever happens in between.  If the stream
    closes first (lines 208-234), the closure's response is dropped by
    [sendMessage], and the rest of it still runs: the Manager is told
    that sharing started and the Machine is marked sharing, direction
    LEFT, without a stream and not connected. *)
Theorem start_request_outlives_stream (w : World) :
  wakes w = [] ->
  exists w1 w2 w3,
    handleDeviceSharingStartRequest w = Ok tt w1 /\
    handleDisconnectedAux w1 = Ok tt w2 /\
    async_turn w2 = Ok tt w3 /\
    trace w3 =
      trace w2 ++
      [call_manager (mgr_onStartDeviceSharing (m_uuid (machine w)) true);
       dbus_adaptor (updateDeviceSharing true);
       call_manager (mgr_machineCooperated (m_uuid (machine w)));
       dbus_adaptor (updateDirection FLOW_DIRECTION_LEFT)] /\
    m_conn (machine w3) = None /\
    m_connected (machine w3) = false /\
    m_deviceSharing (machine w3) = true /\
    m_direction (machine w3) = FLOW_DIRECTION_LEFT /\
    wakes w3 = [].
Proof.
  intros Hwakes. destruct w as [m e wk ps tr]. destruct m. cbn in Hwakes. subst.
  unfold handleDeviceSharingStartRequest, async_wake, handleDisconnectedAux. run.
  destruct m_connected0, m_fuseClient0 as [fc|], m_fuseServer0 as [fs|];
    rewrite ?bool_decide_eq_true_2 by eauto;
    rewrite ?bool_decide_eq_false_2 by (intros [? ?]; discriminate);
    run; do 3 eexists;
    (split; [reflexivity|]); (split; [reflexivity|]); run_handlers;
    (split; [reflexivity|]);
    (split; [rewrite <- ?(assoc_L (++)); reflexivity|]);
    (split; [reflexivity|]); (split; [reflexivity|]); (split; [reflexivity|]);
    split; reflexivity.
Qed.

(** X25.  Clipboard targets reach the peer's Manager.  With the shared
    clipboard switched off [onClipboardTargetsChanged] (lines 636-646)
    sends nothing.  Switched on, it writes one ClipboardNotify frame; the
    peer's dispatcher, given that frame, reports to its Manager (lines
    543-554) the same targets in the same order, with [text/uri-list]
    added at the end when the sender is not a UOS machine and
    [x-special/gnome-copied-files] is among them. *)
Theorem clipboard_targets_reach_manager (targets : list string) (wA wB : World)
    (c : TCP) (storage : nat -> byte) (fuel : nat) :
  m_conn (machine wA) = Some c ->
  carried (kClipboardNotify {| cn_targets := targets |}) ->
  (manager_isSharedClipboard (env wA) = false ->
     onClipboardTargetsChanged targets wA = Ok tt wA) /\
  (manager_isSharedClipboard (env wA) = true ->
     exists frame,
       onClipboardTargetsChanged targets wA =
         Ok tt (set_trace (trace wA ++ [tcp_write frame]) wA) /\
       dispatcher (S (S fuel)) (mkBuffer frame storage) wB =
         Ok (mkBuffer [] storage)
           (set_trace
             (trace wB ++
              [call_manager (mgr_onMachineOwnClipboard (m_uuid (machine wB))
                 (targets ++
                  if bool_decide (m_os (machine wB) ≠ DEVICE_OS_UOS) &&
                     bool_decide (clipboardFileTarget ∈ targets)
                  then [uriListTarget] else []))])
             wB)).
Proof.
  intros Hconn Hcarried. split; intros Hshared.
  - destruct wA as [m e wk ps tr]. cbn in Hshared.
    unfold onClipboardTargetsChanged. run. rewrite Hshared. reflexivity.
  - exists (genMessage (kClipboardNotify {| cn_targets := targets |})). split.
    + destruct wA as [m e wk ps tr]. destruct m. cbn in Hconn, Hshared. subst.
      unfold onClipboardTargetsChanged, sendMessage. run. rewrite Hshared. reflexivity.
    + apply dispatcher_single; [exact Hcarried|].
      destruct wB as [m e wk ps tr]. destruct m.
      unfold handleMessage, handleClipboardNotify. run. cbn [cn_targets].
      destruct (bool_decide (m_os0 ≠ DEVICE_OS_UOS) &&
                bool_decide (clipboardFileTarget ∈ targets));
        rewrite ?app_nil_r; reflexivity.
Qed.

(** X26.  A clipboard read across the stream.  [readTarget] (lines
    657-662) writes a request for the target; the peer's dispatcher hands
    the target to its clipboard with a callback (lines 556-566); given the
    content, the callback writes a response that names the same target;
    and the asking side's dispatcher runs
    [handleClipboardGetContentResponse] (lines 568-621) on exactly that
    target and content. *)
Theorem clipboard_read_round_trip (target content : string) (wA wB : World)
    (cA cB : TCP) (stA stB : nat -> byte) :
  m_conn (machine wA) = Some cA ->
  m_conn (machine wB) = Some cB ->
  carried (kClipboardGetContentRequest {| cgreq_target := target |}) ->
  carried (kClipboardGetContentResponse
             {| cgresp_target := target; cgresp_content := content |}) ->
  exists request response cb wA1 wA2 wB1 wB2,
    readTarget target wA = Ok tt wA1 /\
    wA1 = set_trace (trace wA ++ [tcp_write request]) wA /\
    dispatcher 2 (mkBuffer request stB) wB = Ok (mkBuffer [] stB) wB1 /\
    wB1 = set_trace (trace wB ++ [clipboard_readTargetContent target cb]) wB /\
    readTarget_body cb content wB1 = Ok tt wB2 /\
    wB2 = set_trace (trace wB1 ++ [tcp_write response]) wB1 /\
    dispatcher 2 (mkBuffer response stA) wA1 = Ok (mkBuffer [] stA) wA2 /\
    handleClipboardGetContentResponse
      {| cgresp_target := target; cgresp_content := content |} wA1 = Ok tt wA2.
Proof.
  intros HconnA HconnB Hreq Hresp.
  exists (genMessage (kClipboardGetContentRequest {| cgreq_target := target |})),
    (genMessage (kClipboardGetContentResponse
       {| cgresp_target := target; cgresp_content := content |})),
    (read_ClipboardGetContent target).
  set (wA1 := set_trace
                (trace wA ++
                 [tcp_write (genMessage (kClipboardGetContentRequest
                                           {| cgreq_target := target |}))]) wA).
  assert (exists wA2,
    handleClipboardGetContentResponse
      {| cgresp_target := target; cgresp_content := content |} wA1 = Ok tt wA2)
    as [wA2 HwA2].
  { subst wA1. destruct wA as [m e wk ps tr]. destruct m.
    unfold handleClipboardGetContentResponse. run.
    destruct (clipboard_isFiles e);
      repeat match goal with
             | |- context [if ?b then _ else _] => destruct b; run
             end; eexists; reflexivity. }
  exists wA1, wA2. do 2 eexists.
  split; [|split; [reflexivity|split; [|split; [reflexivity|split;
    [|split; [reflexivity|split]]]]]].
  - subst wA1. destruct wA as [m e wk ps tr]. destruct m. cbn in HconnA. subst.
    reflexivity.
  - apply (dispatcher_single _ _ _ _ 0 Hreq).
    destruct wB as [m e wk ps tr]. destruct m. reflexivity.
  - destruct wB as [m e wk ps tr]. destruct m. cbn in HconnB. subst. reflexivity.
  - apply (dispatcher_single _ _ _ _ 0 Hresp).
    unfold handleMessage. rewrite (bind_ok _ _ wA1 wA2 tt HwA2). reflexivity.
  - exact HwA2.
Qed.

(** X22.  The two timers across a session.  When the outbound stream
    connects both are stopped (lines 122-123); when the stream closes,
    only the ping timer is re-armed (line 231), with the interval and
    mode it had, and the offline timer stays stopped until a ping is
    received, which re-arms both (lines 152-155). *)
Theorem timers_across_session (w : World) :
  exists w1 w2 w3,
    (connect;; connect_onConnected) w = Ok tt w1 /\
    timer_armed (m_pingTimer (machine w1)) = false /\
    timer_armed (m_offlineTimer (machine w1)) = false /\
    handleDisconnectedAux w1 = Ok tt w2 /\
    m_pingTimer (machine w2) = Timer.reset (m_pingTimer (machine w)) /\
    m_offlineTimer (machine w2) = Timer.stop (m_offlineTimer (machine w)) /\
    receivedPing w2 = Ok tt w3 /\
    m_pingTimer (machine w3) = Timer.reset (m_pingTimer (machine w)) /\
    m_offlineTimer (machine w3) = Timer.reset (m_offlineTimer (machine w)).
Proof.
  destruct w as [m e wk ps tr]. destruct m.
  unfold connect, connect_onConnected, initConnection, sendMessage,
    handleDisconnectedAux, receivedPing.
  run.
  destruct m_connected0, m_fuseClient0 as [fc|], m_fuseServer0 as [fs|];
    rewrite ?bool_decide_eq_true_2 by eauto;
    rewrite ?bool_decide_eq_false_2 by (intros [? ?]; discriminate);
    run; do 3 eexists;
    (split; [reflexivity|]); (split; [reflexivity|]); (split; [reflexivity|]);
    (split; [reflexivity|]); (split; [reflexivity|]); (split; [reflexivity|]);
    (split; [reflexivity|]); split; reflexivity.
Qed.

End HandshakeProperties.

(** ** Clipboard content *)

Lemma rev_app_append (s acc t : string) :
  String.rev_app s acc +:+ t = String.rev_app s (acc +:+ t).
Proof.
  revert acc. induction s as [|c s IH]; intros acc; [reflexivity|].
  cbn [String.rev_app]. rewrite IH, append_cons. reflexivity.
Qed.

Lemma rev_cons (c : ascii) (s : string) :
  String.rev (String c s) = String.rev s +:+ String c "".
Proof.
  unfold String.rev. cbn [String.rev_app]. rewrite rev_app_append. reflexivity.
Qed.

Lemma substring_ge (s : string) (m : nat) :
  (String.length s <= m)%nat -> String.substring 0 m s = s.
Proof.
  revert m. induction s as [|c s IH]; intros m Hm.
  - destruct m; reflexivity.
  - destruct m as [|m]; [simpl in Hm; lia|].
    cbn [String.substring]. rewrite IH by (simpl in Hm; lia). reflexivity.
Qed.

Lemma substring_app_r_ge (s t : string) (m : nat) :
  (String.length t <= m)%nat ->
  String.substring (String.length s) m (s +:+ t) = t.
Proof.
  intros Hm. induction s as [|c s IH].
  - apply substring_ge, Hm.
  - rewrite append_cons. cbn [String.length String.substring]. exact IH.
Qed.

(** The lines [getline] yields, put together again with a newline after
    each. *)
Lemma getlines_from_joined (cur s : string) :
  foldr (fun line acc => line +:+ String "010"%char acc) EmptyString
        (Str.getlines_from cur s) =
  String.rev cur +:+ s +:+ String "010"%char "".
Proof.
  revert cur. induction s as [|c s IH]; intros cur.
  - reflexivity.
  - cbn [Str.getlines_from]. destruct (Ascii.eqb_spec c "010"%char) as [->|Hc].
    + cbn [foldr]. rewrite IH. reflexivity.
    + rewrite IH, rev_cons, string_app_assoc. reflexivity.
Qed.

Lemma getlines_from_nonempty (cur s : string) : Str.getlines_from cur s ≠ [].
Proof.
  revert cur. induction s as [|c s IH]; intros cur; [discriminate|].
  cbn [Str.getlines_from]. destruct (Ascii.eqb c "010"%char); [discriminate|apply IH].
Qed.

Lemma join_lines_newline (f : string -> string) (lines : list string) :
  lines ≠ [] ->
  foldr (fun line acc => f line +:+ String "010"%char acc) EmptyString lines =
  join_lines (f <$> lines) +:+ String "010"%char "".
Proof.
  induction lines as [|l lines IH]; [contradiction|]. intros _.
  destruct lines as [|l' lines]; [reflexivity|].
  cbn [foldr fmap list_fmap join_lines] in *. rewrite IH by discriminate.
  rewrite string_app_assoc, append_cons. reflexivity.
Qed.

Section ClipboardProperties.

(** X15.  The rewriting of clipboard content (lines 574-598) works line
    by line: the result is the lines of the content, each one rewritten
    on its own, joined by newlines again; the number of lines is kept and
    no newline is added at the end. *)
Theorem rewrite_content_linewise (mountpoint content : string) :
  rewrite_content mountpoint content =
  join_lines (rewrite_line mountpoint <$> Str.getlines content).
Proof.
  unfold rewrite_content.
  rewrite (join_lines_newline (rewrite_line mountpoint))
    by apply getlines_from_nonempty.
  set (joined := join_lines _).
  unfold Str.substr, Str.length. rewrite string_length_app. cbn [String.length].
  replace (Z.to_nat (Z.of_nat (String.length joined + 1) - 1))
    with (String.length joined) by lia.
  apply substring_app_l.
Qed.

(** X16.  Content without paths goes through unchanged: when no line
    starts with a slash or with [file://], the rewriting (lines 574-598)
    gives back the content byte for byte, the empty content and a final
    newline included. *)
Theorem rewrite_content_unchanged (mountpoint content : string) :
  Forall (fun line => Str.front line ≠ "/"%char /\
                      Str.starts_with fileSchema line = false)
         (Str.getlines content) ->
  rewrite_content mountpoint content = content.
Proof.
  intros Hlines. unfold rewrite_content.
  assert (foldr (fun line acc => rewrite_line mountpoint line +:+ String "010"%char acc)
                EmptyString (Str.getlines content) =
          foldr (fun line acc => line +:+ String "010"%char acc)
                EmptyString (Str.getlines content)) as ->.
  { induction Hlines as [|line lines [Hfront Hschema] _ IH]; [reflexivity|].
    cbn [foldr]. rewrite IH. unfold rewrite_line. rewrite Hschema.
    destruct (Ascii.eqb_spec (Str.front line) "/"%char); [contradiction|].
    reflexivity. }
  unfold Str.getlines. rewrite getlines_from_joined.
  change (String.rev "" +:+ content +:+ String "010"%char "")
    with (content +:+ String "010"%char "").
  unfold Str.substr, Str.length. rewrite string_length_app. cbn [String.length].
  replace (Z.to_nat (Z.of_nat (String.length content + 1) - 1))
    with (String.length content) by lia.
  apply substring_app_l.
Qed.

(** X17.  One line of clipboard content (lines 580-592): an absolute
    path gets the mountpoint in front; a [file://] URI gets it between
    the scheme and the path; any other line, the empty one included,
    stays as it is. *)
Theorem rewrite_line_cases (mountpoint rest : string) :
  rewrite_line mountpoint (String "/" rest) = mountpoint +:+ String "/" rest /\
  rewrite_line mountpoint (fileSchema +:+ rest) = fileSchema +:+ mountpoint +:+ rest /\
  (forall line, Str.front line ≠ "/"%char ->
                Str.starts_with fileSchema line = false ->
                rewrite_line mountpoint line = line).
Proof.
  split; [reflexivity|]. split.
  - unfold rewrite_line.
    change (Str.front (fileSchema +:+ rest)) with "f"%char.
    change (Ascii.eqb "f" "/") with false. cbv iota.
    assert (Str.starts_with fileSchema (fileSchema +:+ rest) = true) as ->.
    { apply Stdlib.Strings.String.prefix_correct, substring_app_l. }
    unfold Str.substr, Str.length. rewrite !Nat2Z.id.
    rewrite substring_app_r_ge by (rewrite string_length_app; lia).
    reflexivity.
  - intros line Hfront Hschema. unfold rewrite_line. rewrite Hschema.
    destruct (Ascii.eqb_spec (Str.front line) "/"%char); [contradiction|].
    reflexivity.
Qed.

(** X23.  The path published as [text/uri-list] (lines 602-611): the
    loop stops at the first line that starts with [file://] and gives
    what follows the scheme; when no line does, it ends with the last
    line read, whatever that is. *)
Theorem first_file_uri_cases (pre post : list string) (path init : string) :
  Forall (fun line => Str.starts_with fileSchema line = false) pre ->
  first_file_uri (pre ++ (fileSchema +:+ path) :: post) init = path /\
  first_file_uri pre init = default init (last pre).
Proof.
  intros Hpre. revert init.
  induction Hpre as [|line pre Hline _ IH]; intros init.
  - split; [|reflexivity].
    cbn [app first_file_uri].
    assert (Str.starts_with fileSchema (fileSchema +:+ path) = true) as ->.
    { apply Stdlib.Strings.String.prefix_correct, substring_app_l. }
    change (Str.empty (fileSchema +:+ path)) with false. cbn [negb andb].
    unfold Str.substr, Str.length. rewrite string_length_app.
    rewrite Nat2Z.id.
    replace (Z.to_nat _) with (String.length path) by lia.
    apply substring_app_r.
  - cbn [app first_file_uri]. rewrite Hline, andb_false_r.
    destruct (IH line) as [Hfound Hlast]. split; [exact Hfound|].
    rewrite Hlast. destruct pre as [|line' pre]; [reflexivity|].
    change (last (line :: line' :: pre)) with (last (line' :: pre)).
    destruct (last (line' :: pre)) eqn:Hl; [reflexivity|].
    apply last_None in Hl. discriminate Hl.
Qed.

End ClipboardProperties.

(** ** The dispatcher on arbitrary input *)

Section RobustnessProperties.
Context `{Host} `{!Protobuf Message}.

Lemma same_peer_refl (m : Machine) : same_peer m m.
Proof. unfold same_peer. tauto. Qed.

Lemma same_peer_trans (m1 m2 m3 : Machine) :
  same_peer m1 m2 -> same_peer m2 m3 -> same_peer m1 m3.
Proof.
  unfold same_peer. intros (?&?&?&?&?&?&?) (?&?&?&?&?&?&?).
  split; [congruence|]. split; [congruence|]. split; [congruence|].
  split; [congruence|]. split; [congruence|]. split; congruence.
Qed.

(** Whatever the message, with the connection in place its handler runs
    to the end, leaves the connection in place, and does not touch what
    the Machine is for its peer. *)
Lemma handleMessage_keeps_peer (msg : Message) (w : World) :
  is_Some (m_conn (machine w)) ->
  exists b w',
    handleMessage msg w = Ok b w' /\
    is_Some (m_conn (machine w')) /\
    same_peer (machine w) (machine w') /\
    env w' = env w.
Proof.
  intros [c Hconn]. destruct w as [m e wk ps tr]. destruct m.
  cbn in Hconn. subst.
  destruct msg as [|r|r|r| |r| | |r|r|r|r| | |r|r|r|r|r|r|r];
    unfold handleMessage, handlePairResponseAux, handleServiceOnOffMsg,
      handleDeviceSharingStartRequest, handleDeviceSharingStartResponse,
      handleDeviceSharingStopRequest, stopDeviceSharingAux,
      handleInputEventRequest, emitEvent, handleFlowDirectionNtf,
      handleFlowRequest, handleFsRequest, handleFsResponse,
      handleFsSendFileRequest, Process_spawn, handleClipboardNotify,
      handleClipboardGetContentRequest, handleClipboardGetContentResponse,
      sendServiceStatusNotification, sendFlowDirectionNtf, async_wake,
      sendMessage;
    run;
    repeat match goal with
           | |- context [match ?x with _ => _ end] =>
               match type of x with
               | bool => destruct x
               | option _ => destruct x
               | FlowDirection => destruct x
               end; run
           end;
    do 2 eexists; (split; [reflexivity|]);
    (split; [cbn; eauto|]);
    (split; [unfold same_peer; cbn; split_and!; reflexivity|reflexivity]).
Qed.

Lemma parseMessage_consumes (buff : Buffer) :
  exists k,
    buf_readable (parseMessage (T := Message) buff).2 = drop k (buf_readable buff) /\
    buf_storage (parseMessage (T := Message) buff).2 = buf_storage buff.
Proof.
  unfold parseMessage.
  destruct (negb _); [exists 0%nat; split; reflexivity|].
  destruct (_ <? _); [exists 0%nat; split; reflexivity|].
  eexists. split; reflexivity.
Qed.

(** X27.  Whatever bytes arrive, with the connection in place the
    dispatcher (lines 236-354) never goes through a reset [m_conn]: for
    every buffer and every bound on the iterations it either is still
    looping at the bound or returns, and then it has only consumed from
    the front of the buffer, the connection object is still held, and the
    peer's identity, address, mountpoint and the table of input emittors
    are as before. *)
Theorem dispatcher_robust (fuel : nat) (buff : Buffer) (w : World) :
  is_Some (m_conn (machine w)) ->
  dispatcher fuel buff w = Err OutOfFuel \/
  exists buff' w',
    dispatcher fuel buff w = Ok buff' w' /\
    (exists k, buf_readable buff' = drop k (buf_readable buff)) /\
    buf_storage buff' = buf_storage buff /\
    is_Some (m_conn (machine w')) /\
    same_peer (machine w) (machine w') /\
    env w' = env w.
Proof.
  revert buff w. induction fuel as [|fuel IH]; intros buff w Hconn.
  - left. reflexivity.
  - cbn [dispatcher].
    destruct (header_size <=? Buffer.size buff).
    2:{ right. exists buff, w. split; [reflexivity|].
        split; [exists 0%nat; reflexivity|]. split; [reflexivity|].
        split; [exact Hconn|]. split; [apply same_peer_refl|reflexivity]. }
    destruct (parseMessage_consumes buff) as (k & Hk & Hst).
    destruct (parseMessage buff) as [[msg|e] buff1]; cbn [snd] in Hk, Hst.
    + destruct (handleMessage_keeps_peer msg w Hconn) as (b & w1 & Hrun & Hconn1 & Hpeer1 & Henv1).
      rewrite (bind_ok _ _ w w1 b Hrun). destruct b.
      * destruct (IH buff1 w1 Hconn1) as [Hloop|(buff' & w' & Hrest & [k' Hk'] & Hst' & Hconn' & Hpeer' & Henv')].
        { left. exact Hloop. }
        right. exists buff', w'. split; [exact Hrest|].
        split; [exists (k + k')%nat; rewrite Hk', Hk, drop_drop; reflexivity|].
        split; [congruence|]. split; [exact Hconn'|].
        split; [exact (same_peer_trans _ _ _ Hpeer1 Hpeer')|congruence].
      * right. exists buff1, w1. split; [reflexivity|].
        split; [exists k; exact Hk|]. split; [exact Hst|].
        split; [exact Hconn1|]. split; [exact Hpeer1|exact Henv1].
    + right. destruct Hconn as [c Hconn].
      destruct (decide (e = ILLEGAL_MESSAGE)) as [->|Hne].
      * rewrite bool_decide_eq_true_2 by reflexivity.
        unfold when. rewrite (bind_ok _ _ w _ tt (conn_close_closed w c Hconn)).
        eexists _, _. split; [reflexivity|].
        split; [exists k; exact Hk|]. split; [exact Hst|].
        destruct w as [m ? ? ? ?]. destruct m. cbn in Hconn. subst.
        split; [cbn; eauto|].
        split; [unfold same_peer; cbn; split_and!; reflexivity|reflexivity].
      * rewrite bool_decide_eq_false_2 by exact Hne.
        exists buff1, w. split; [reflexivity|].
        split; [exists k; exact Hk|]. split; [exact Hst|].
        split; [eauto|]. split; [apply same_peer_refl|reflexivity].
Qed.

(** X28.  The service status reaches the peer.  An agreeing PairResponse
    makes the Machine connected and has it write one
    ServiceOnOffNotification with the Manager's two switches (lines
    367-371, 755-762); the peer's dispatcher, given that frame, stores the
    clipboard switch in [m_sharedClipboard] and nothing else (lines
    374-376): the devices switch is not kept. *)
Theorem service_status_reaches_peer (resp : PairResponse) (wA wB : World) (c : TCP)
    (storage : nat -> byte) (fuel : nat) :
  m_conn (machine wA) = Some c ->
  presp_agree resp = true ->
  carried (service_status (env wA)) ->
  exists frame,
    handlePairResponseAux resp wA =
      Ok tt (set_trace
        (trace wA ++
         [dbus_adaptor (updateConnected true); tcp_write frame; virt_handleConnected])
        (set_machine (set_m_connected true (machine wA)) wA)) /\
    dispatcher (S (S fuel)) (mkBuffer frame storage) wB =
      Ok (mkBuffer [] storage)
        (set_machine
           (set_m_sharedClipboard (manager_isSharedClipboard (env wA)) (machine wB))
           wB).
Proof.
  intros Hconn Hagree Hcarried.
  exists (genMessage (service_status (env wA))). split.
  - destruct wA as [m e wk ps tr]. destruct m. cbn in Hconn. subst.
    unfold handlePairResponseAux, sendServiceStatusNotification, sendMessage.
    rewrite Hagree. run. rewrite <- !(assoc_L (++)). reflexivity.
  - apply dispatcher_single; [exact Hcarried|].
    destruct wB as [m e wk ps tr]. destruct m. reflexivity.
Qed.

(** X29.  An input event from one side to the other and back.
    [onInputGrabberEvent] (lines 623-634) writes a request with the device
    and the triple; the peer's dispatcher, whose Machine has an emittor
    for the device, injects exactly that triple (lines 423-444) and writes
    a response with the request's serial, which is 0 as the sender never
    sets it, and the pipe's verdict; the sender's dispatcher consumes the
    response and does nothing with it (lines 290-292). *)
Theorem input_event_end_to_end (deviceType : InputDeviceType) (type code value : Z)
    (wA wB : World) (cA cB : TCP) (e : InputEmittorWrapper) (stA stB : nat -> byte) :
  m_conn (machine wA) = Some cA ->
  m_conn (machine wB) = Some cB ->
  m_inputEmittors (machine wB) !! deviceType = Some e ->
  carried (kInputEventRequest
             {| ireq_serial := 0; ireq_devicetype := static_cast_DeviceType deviceType;
                ireq_type := type; ireq_code := code; ireq_value := value |}) ->
  carried (kInputEventResponse
             {| iresp_serial := 0; iresp_success := pipe_accepts (env wB) (m_type e) |}) ->
  exists request response wA1,
    onInputGrabberEvent deviceType type code value wA = Ok tt wA1 /\
    wA1 = set_trace (trace wA ++ [tcp_write request]) wA /\
    dispatcher 2 (mkBuffer request stB) wB =
      Ok (mkBuffer [] stB)
        (set_trace
           (trace wB ++ [input_emitEvent (m_type e) type code value; tcp_write response])
           wB) /\
    response = genMessage (kInputEventResponse
                 {| iresp_serial := 0;
                    iresp_success := pipe_accepts (env wB) (m_type e) |}) /\
    dispatcher 2 (mkBuffer response stA) wA1 = Ok (mkBuffer [] stA) wA1.
Proof.
  intros HconnA HconnB Hemittor Hreq Hresp.
  do 3 eexists.
  split; [|split; [reflexivity|split; [|split; [reflexivity|]]]].
  - destruct wA as [m ev wk ps tr]. destruct m. cbn in HconnA. subst. reflexivity.
  - apply (dispatcher_single _ _ _ _ 0 Hreq).
    destruct wB as [m ev wk ps tr]. destruct m. cbn in HconnB, Hemittor. subst.
    unfold handleMessage, handleInputEventRequest, emitEvent. run.
    cbn [ireq_devicetype].
    unfold static_cast_InputDeviceType, static_cast_DeviceType.
    rewrite byte_of_Z_of_byte, Hemittor. run.
    rewrite <- (assoc_L (++)). reflexivity.
  - apply (dispatcher_single _ _ _ _ 0 Hresp). reflexivity.
Qed.

End RobustnessProperties.

(** ** The properties above on concrete frames and Machines *)

Section PropertyExamples.
#[local] Existing Instance Reference.host.
#[local] Existing Instance Reference.codec.

Lemma htonll_ntohll_inverse_witness :
  ntohll (htonll 0x0102030405060708) = 0x0102030405060708 /\
  htonll (ntohll 0x0102030405060708) = 0x0102030405060708 /\
  0 <= htonll 0x0102030405060708 < 2 ^ 64.
Proof. apply (htonll_ntohll_inverse 0x0102030405060708). lia. Defined.

Lemma genMessage_wire_witness :
  genMessage mouse_event =
  MAGIC ++ reverse (le_bytes64 (ByteSizeLong mouse_event)) ++
  SerializeAsBytes mouse_event.
Proof. apply (genMessage_wire mouse_event). vm_compute. discriminate. Defined.

Lemma genMessageQ_genMessage_witness :
  genMessageQ zero_storage mouse_event = genMessage mouse_event.
Proof.
  apply (genMessageQ_genMessage zero_storage mouse_event).
  vm_compute. discriminate.
Defined.

Lemma parseMessageBody_genMessageQ_witness :
  let frame := genMessageQ zero_storage mouse_event in
  let header := parseMessageHeader (Buffer.data (mkBuffer frame zero_storage)) in
  legal header = true /\
  MessageHeader_size header = ByteSizeLong mouse_event /\
  parseMessageBody
    (fun i => Buffer.data (mkBuffer frame zero_storage) (Z.to_nat header_size + i)%nat)
    (MessageHeader_size header) = mouse_event /\
  parseMessageBodyQ (drop (Z.to_nat header_size) frame) zero_storage = mouse_event.
Proof.
  apply (parseMessageBody_genMessageQ mouse_event zero_storage zero_storage).
  - vm_compute. discriminate.
  - apply Reference_parse. vm_compute. reflexivity.
Defined.

Lemma dispatcher_waits_for_frame_witness :
  dispatcher 1 partial_buffer paired_world = Ok partial_buffer paired_world /\
  dispatcher 1 (mkBuffer (take 5 (genMessage mouse_event)) zero_storage) paired_world =
    Ok (mkBuffer (take 5 (genMessage mouse_event)) zero_storage) paired_world.
Proof.
  split.
  - apply (dispatcher_waits_for_frame mouse_event 40 zero_storage paired_world 0).
    + vm_compute. discriminate.
    + vm_compute. lia.
  - apply (dispatcher_waits_for_frame mouse_event 5 zero_storage paired_world 0).
    + vm_compute. discriminate.
    + vm_compute. lia.
Defined.

Lemma parseMessage_length_wraps_witness :
  parseMessage wrapping_buffer =
  (value (ParseFromArray (fun i => Buffer.data wrapping_buffer (16 + i)%nat) (-1)),
   Buffer.retrieve 15 wrapping_buffer) /\
  -16 <= -1 < 0 /\
  0 <= 15 < header_size.
Proof.
  exact (parseMessage_length_wraps (T := Message) wrapping_buffer
           ltac:(vm_compute; discriminate) eq_refl ltac:(vm_compute; discriminate)).
Defined.

Lemma setFlowDirection_mirrored_witness :
  exists frame,
    setFlowDirection FLOW_DIRECTION_LEFT paired_world =
      Ok tt (set_trace (trace paired_world ++ [tcp_write frame])
               (set_machine
                  (set_m_direction FLOW_DIRECTION_LEFT (machine paired_world))
                  paired_world)) /\
    dispatcher 2 (mkBuffer frame zero_storage) peer_world =
      Ok (mkBuffer [] zero_storage)
         (set_machine
            (set_m_direction (opposite FLOW_DIRECTION_LEFT) (machine peer_world))
            peer_world).
Proof.
  apply (setFlowDirection_mirrored FLOW_DIRECTION_LEFT paired_world peer_world
           paired_conn zero_storage 0).
  - reflexivity.
  - discriminate.
  - reflexivity.
  - apply Reference_carried; [vm_compute; discriminate|vm_compute; reflexivity].
Defined.

Lemma handleFsRequest_once_witness :
  exists w1,
    handleFsRequest paired_world = Ok tt w1 /\
    machine w1 =
      set_m_fuseServer
        (Some {| fuse_server_port := fuse_server_listen_port (env paired_world) |})
        (machine paired_world) /\
    trace w1 =
      trace paired_world ++
      [tcp_write (genMessage (kFsResponse
         {| fs_accepted := true;
            fs_port := fuse_server_listen_port (env paired_world) |}))] /\
    handleFsRequest w1 =
      Ok tt (set_trace
        (trace w1 ++
         [tcp_write (genMessage (kFsResponse {| fs_accepted := false; fs_port := 0 |}))])
        w1).
Proof.
  apply (handleFsRequest_once paired_world paired_conn); reflexivity.
Defined.

Lemma senders_without_connection_witness :
  requestDeviceSharing idle_world = Ok tt idle_world /\
  (forall deviceType type code value,
     onInputGrabberEvent deviceType type code value idle_world = Ok tt idle_world) /\
  (forall targets, onClipboardTargetsChanged targets idle_world = Ok tt idle_world) /\
  (forall direction x y, flowTo direction x y idle_world = Ok tt idle_world) /\
  (forall target, readTarget target idle_world = Ok tt idle_world) /\
  sendFlowDirectionNtf idle_world = Ok tt idle_world /\
  sendServiceStatusNotification idle_world = Ok tt idle_world /\
  (forall cb content, readTarget_body cb content idle_world = Ok tt idle_world) /\
  (forall filePaths, wake_body (wake_sendFiles filePaths) idle_world = Ok tt idle_world).
Proof. apply (senders_without_connection idle_world). reflexivity. Defined.

Lemma exit_body_names_file_witness :
  exit_body (exit_FsSendFile "/home/user/Downloads" 3 ("/docs" +:+ "/" +:+ "a.txt"))
    0 0 paired_world =
    Ok tt (set_trace
      (trace paired_world ++
       [notify_received_file ("/home/user/Downloads" +:+ "/" +:+ "a.txt") (0 =? 0);
        tcp_write (genMessage (kFsSendFileResult
          {| sfres_serial := 3; sfres_path := "/docs" +:+ "/" +:+ "a.txt";
             sfres_result := (0 =? 0) |}))]) paired_world) /\
  exit_body (exit_FsSendFile "/home/user/Downloads" 3 "a.txt") 0 0 paired_world =
    Ok tt (set_trace
      (trace paired_world ++
       [notify_received_file ("/home/user/Downloads" +:+ "/" +:+ "a.txt") (0 =? 0);
        tcp_write (genMessage (kFsSendFileResult
          {| sfres_serial := 3; sfres_path := "a.txt";
             sfres_result := (0 =? 0) |}))]) paired_world).
Proof.
  apply (exit_body_names_file "/home/user/Downloads" 3 "/docs" "a.txt" 0 0
           paired_world paired_conn).
  - reflexivity.
  - reflexivity.
  - vm_compute. reflexivity.
Defined.

Lemma sendFiles_writes_in_order_witness :
  sendFiles ["/a.txt"; "/b.txt"] paired_world =
    Ok tt (set_wakes [wake_sendFiles ["/a.txt"; "/b.txt"]] paired_world) /\
  (sendFiles ["/a.txt"; "/b.txt"];; async_turn) paired_world =
    Ok tt (set_trace
      (trace paired_world ++
       ((fun filePath => tcp_write (genMessage (kFsSendFileRequest
           {| sfreq_serial := 0; sfreq_path := filePath |}))) <$>
        ["/a.txt"; "/b.txt"])) paired_world).
Proof.
  apply (sendFiles_writes_in_order ["/a.txt"; "/b.txt"] paired_world paired_conn);
    reflexivity.
Defined.

Lemma rewrite_content_unchanged_witness :
  rewrite_content "/var/lib/cooperation/mp" plain_content = plain_content.
Proof.
  apply (rewrite_content_unchanged "/var/lib/cooperation/mp" plain_content).
  change (Str.getlines plain_content) with ["copy"; "hello"].
  apply Forall_cons. split; [split; [discriminate|reflexivity]|].
  apply Forall_cons. split; [split; [discriminate|reflexivity]|].
  apply Forall_nil_2.
Defined.

Lemma rewrite_line_cases_witness :
  rewrite_line "/var/lib/cooperation/mp" "/home/u/a.txt" =
    "/var/lib/cooperation/mp/home/u/a.txt" /\
  rewrite_line "/var/lib/cooperation/mp" "file:///home/u/a.txt" =
    "file:///var/lib/cooperation/mp/home/u/a.txt" /\
  rewrite_line "/var/lib/cooperation/mp" "copy" = "copy".
Proof.
  split; [|split].
  - apply (rewrite_line_cases "/var/lib/cooperation/mp" "home/u/a.txt").
  - apply (proj1 (proj2 (rewrite_line_cases "/var/lib/cooperation/mp" "/home/u/a.txt"))).
  - apply (proj2 (proj2 (rewrite_line_cases "/var/lib/cooperation/mp" ""))).
    + discriminate.
    + reflexivity.
Defined.

Lemma dispatcher_ignores_responses_witness :
  dispatcher 2
    (mkBuffer (genMessage (kFsSendFileResult
       {| sfres_serial := 3; sfres_path := "/x.txt"; sfres_result := false |}))
       zero_storage) paired_world =
  Ok (mkBuffer [] zero_storage) paired_world.
Proof.
  apply (dispatcher_ignores_responses
           (kFsSendFileResult
              {| sfres_serial := 3; sfres_path := "/x.txt"; sfres_result := false |})
           zero_storage paired_world 0).
  - apply Reference_carried; [vm_compute; discriminate|vm_compute; reflexivity].
  - exact I.
Defined.

Lemma handleFsResponse_then_request_witness :
  handleFsResponse {| fs_accepted := false; fs_port := 0 |} paired_world =
    Ok tt paired_world /\
  exists w1 w2,
    handleFsResponse {| fs_accepted := true; fs_port := 40001 |} paired_world =
      Ok tt w1 /\
    machine w1 =
      set_m_fuseClient
        (Some {| fuse_client_ip := m_ip (machine paired_world);
                 fuse_client_port := 40001;
                 fuse_client_mountpoint := m_mountpoint (machine paired_world) |})
        (machine paired_world) /\
    handleFsSendFileRequest {| sfreq_serial := 3; sfreq_path := "/x.txt" |} w1 =
      Ok tt w2 /\
    trace w2 =
      trace paired_world ++
      [tcp_write (genMessage (kFsSendFileResponse
         {| sfresp_serial := 3; sfresp_accepted := true |}));
       process_spawn "/bin/cp" []] /\
    processes w2 =
      processes paired_world ++
      [{| proc_file := "/bin/cp"; proc_args := [];
          proc_exitCb := Some (exit_FsSendFile (manager_fileStoragePath (env paired_world))
                                 3 "/x.txt") |}].
Proof.
  split.
  - apply (proj1 (handleFsResponse_then_request
                    {| fs_accepted := false; fs_port := 0 |}
                    {| sfreq_serial := 3; sfreq_path := "/x.txt" |}
                    paired_world paired_conn eq_refl)).
    reflexivity.
  - apply (proj2 (handleFsResponse_then_request
                    {| fs_accepted := true; fs_port := 40001 |}
                    {| sfreq_serial := 3; sfreq_path := "/x.txt" |}
                    paired_world paired_conn eq_refl)).
    reflexivity.
Defined.

Lemma sharing_handshake_witness :
  exists request response ntf wA1 wA2 wB1 wB2 wB3,
    requestDeviceSharing paired_world = Ok tt wA1 /\
    trace wA1 = trace paired_world ++ [tcp_write request] /\
    dispatcher 2 (mkBuffer request zero_storage) peer_world =
      Ok (mkBuffer [] zero_storage) wB1 /\
    async_turn wB1 = Ok tt wB2 /\
    trace wB2 =
      trace peer_world ++
      [tcp_write response;
       call_manager (mgr_onStartDeviceSharing (m_uuid (machine peer_world)) true);
       dbus_adaptor (updateDeviceSharing true);
       call_manager (mgr_machineCooperated (m_uuid (machine peer_world)));
       dbus_adaptor (updateDirection FLOW_DIRECTION_LEFT)] /\
    dispatcher 2 (mkBuffer response zero_storage) wA1 =
      Ok (mkBuffer [] zero_storage) wA2 /\
    trace wA2 =
      trace wA1 ++
      [dbus_adaptor (updateDeviceSharing true);
       call_manager (mgr_machineCooperated (m_uuid (machine paired_world)));
       dbus_adaptor (updateDirection FLOW_DIRECTION_RIGHT);
       tcp_write ntf;
       call_manager (mgr_onStartDeviceSharing (m_uuid (machine paired_world)) true)] /\
    dispatcher 2 (mkBuffer ntf zero_storage) wB2 = Ok (mkBuffer [] zero_storage) wB3 /\
    machine wA2 =
      set_m_direction FLOW_DIRECTION_RIGHT
        (set_m_deviceSharing true (machine paired_world)) /\
    machine wB3 =
      set_m_direction FLOW_DIRECTION_LEFT
        (set_m_deviceSharing true (machine peer_world)) /\
    m_direction (machine wA2) = opposite (m_direction (machine wB3)) /\
    manager_view (trace wA2) = true /\
    manager_view (trace wB3) = true.
Proof.
  apply (sharing_handshake paired_world peer_world paired_conn paired_conn
           zero_storage zero_storage).
  - reflexivity.
  - reflexivity.
  - reflexivity.
  - apply Reference_carried; [vm_compute; discriminate|vm_compute; reflexivity].
  - apply Reference_carried; [vm_compute; discriminate|vm_compute; reflexivity].
  - apply Reference_carried; [vm_compute; discriminate|vm_compute; reflexivity].
Defined.

Lemma stopDeviceSharing_both_ends_witness :
  exists frame,
    stopDeviceSharing paired_world =
      Ok tt (set_trace
        (trace paired_world ++
         [tcp_write frame; call_manager mgr_onStopDeviceSharing;
          dbus_adaptor (updateDeviceSharing false)])
        (set_machine (set_m_deviceSharing false (machine paired_world)) paired_world)) /\
    dispatcher 2 (mkBuffer frame zero_storage) peer_world =
      Ok (mkBuffer [] zero_storage)
        (set_trace
          (trace peer_world ++
           [call_manager mgr_onStopDeviceSharing;
            dbus_adaptor (updateDeviceSharing false)])
          (set_machine (set_m_deviceSharing false (machine peer_world)) peer_world)).
Proof.
  apply (stopDeviceSharing_both_ends paired_world peer_world paired_conn zero_storage 0).
  - reflexivity.
  - apply Reference_carried; [vm_compute; discriminate|vm_compute; reflexivity].
Defined.

Lemma first_file_uri_cases_witness :
  first_file_uri (["copy"] ++ (fileSchema +:+ "/home/u/a.txt") :: []) "" =
    "/home/u/a.txt" /\
  first_file_uri ["copy"] "" = default "" (last ["copy"]).
Proof.
  apply (first_file_uri_cases ["copy"] [] "/home/u/a.txt" "").
  apply Forall_cons. split; [reflexivity|]. apply Forall_nil_2.
Defined.

Lemma start_request_outlives_stream_witness :
  exists w1 w2 w3,
    handleDeviceSharingStartRequest paired_world = Ok tt w1 /\
    handleDisconnectedAux w1 = Ok tt w2 /\
    async_turn w2 = Ok tt w3 /\
    trace w3 =
      trace w2 ++
      [call_manager (mgr_onStartDeviceSharing (m_uuid (machine paired_world)) true);
       dbus_adaptor (updateDeviceSharing true);
       call_manager (mgr_machineCooperated (m_uuid (machine paired_world)));
       dbus_adaptor (updateDirection FLOW_DIRECTION_LEFT)] /\
    m_conn (machine w3) = None /\
    m_connected (machine w3) = false /\
    m_deviceSharing (machine w3) = true /\
    m_direction (machine w3) = FLOW_DIRECTION_LEFT /\
    wakes w3 = [].
Proof. apply (start_request_outlives_stream paired_world). reflexivity. Defined.

Lemma clipboard_targets_reach_manager_witness :
  onClipboardTargetsChanged file_targets paired_world = Ok tt paired_world /\
  exists frame,
    onClipboardTargetsChanged file_targets peer_world =
      Ok tt (set_trace (trace peer_world ++ [tcp_write frame]) peer_world) /\
    dispatcher 2 (mkBuffer frame zero_storage) peer_world =
      Ok (mkBuffer [] zero_storage)
        (set_trace
          (trace peer_world ++
           [call_manager (mgr_onMachineOwnClipboard (m_uuid (machine peer_world))
              (file_targets ++
               if bool_decide (m_os (machine peer_world) ≠ DEVICE_OS_UOS) &&
                  bool_decide (clipboardFileTarget ∈ file_targets)
               then [uriListTarget] else []))])
          peer_world).
Proof.
  split.
  - apply (proj1 (clipboard_targets_reach_manager file_targets paired_world peer_world
                    paired_conn zero_storage 0 eq_refl
                    ltac:(apply Reference_carried;
                          [vm_compute; discriminate|vm_compute; reflexivity]))).
    reflexivity.
  - apply (proj2 (clipboard_targets_reach_manager file_targets peer_world peer_world
                    paired_conn zero_storage 0 eq_refl
                    ltac:(apply Reference_carried;
                          [vm_compute; discriminate|vm_compute; reflexivity]))).
    reflexivity.
Defined.

Lemma clipboard_read_round_trip_witness :
  exists request response cb wA1 wA2 wB1 wB2,
    readTarget "UTF8_STRING" paired_world = Ok tt wA1 /\
    wA1 = set_trace (trace paired_world ++ [tcp_write request]) paired_world /\
    dispatcher 2 (mkBuffer request zero_storage) peer_world =
      Ok (mkBuffer [] zero_storage) wB1 /\
    wB1 = set_trace
            (trace peer_world ++ [clipboard_readTargetContent "UTF8_STRING" cb])
            peer_world /\
    readTarget_body cb "hello" wB1 = Ok tt wB2 /\
    wB2 = set_trace (trace wB1 ++ [tcp_write response]) wB1 /\
    dispatcher 2 (mkBuffer response zero_storage) wA1 =
      Ok (mkBuffer [] zero_storage) wA2 /\
    handleClipboardGetContentResponse
      {| cgresp_target := "UTF8_STRING"; cgresp_content := "hello" |} wA1 = Ok tt wA2.
Proof.
  apply (clipboard_read_round_trip "UTF8_STRING" "hello" paired_world peer_world
           paired_conn paired_conn zero_storage zero_storage).
  - reflexivity.
  - reflexivity.
  - apply Reference_carried; [vm_compute; discriminate|vm_compute; reflexivity].
  - apply Reference_carried; [vm_compute; discriminate|vm_compute; reflexivity].
Defined.

Lemma dispatcher_robust_witness :
  dispatcher 3 illegal_buffer paired_world = Err OutOfFuel \/
  exists buff' w',
    dispatcher 3 illegal_buffer paired_world = Ok buff' w' /\
    (exists k, buf_readable buff' = drop k (buf_readable illegal_buffer)) /\
    buf_storage buff' = buf_storage illegal_buffer /\
    is_Some (m_conn (machine w')) /\
    same_peer (machine paired_world) (machine w') /\
    env w' = env paired_world.
Proof.
  apply (dispatcher_robust 3 illegal_buffer paired_world).
  exists paired_conn. reflexivity.
Defined.

Lemma service_status_reaches_peer_witness :
  exists frame,
    handlePairResponseAux
      {| presp_key := SCAN_KEY; presp_deviceinfo := host_info; presp_agree := true |}
      peer_world =
      Ok tt (set_trace
        (trace peer_world ++
         [dbus_adaptor (updateConnected true); tcp_write frame; virt_handleConnected])
        (set_machine (set_m_connected true (machine peer_world)) peer_world)) /\
    dispatcher 2 (mkBuffer frame zero_storage) paired_world =
      Ok (mkBuffer [] zero_storage)
        (set_machine
           (set_m_sharedClipboard (manager_isSharedClipboard (env peer_world))
              (machine paired_world))
           paired_world).
Proof.
  apply (service_status_reaches_peer
           {| presp_key := SCAN_KEY; presp_deviceinfo := host_info; presp_agree := true |}
           peer_world paired_world paired_conn zero_storage 0).
  - reflexivity.
  - reflexivity.
  - apply Reference_carried; [vm_compute; discriminate|vm_compute; reflexivity].
Defined.

Lemma input_event_end_to_end_witness :
  exists request response wA1,
    onInputGrabberEvent MOUSE 2 0 5 paired_world = Ok tt wA1 /\
    wA1 = set_trace (trace paired_world ++ [tcp_write request]) paired_world /\
    dispatcher 2 (mkBuffer request zero_storage) peer_world =
      Ok (mkBuffer [] zero_storage)
        (set_trace
           (trace peer_world ++
            [input_emitEvent (m_type {| m_type := MOUSE |}) 2 0 5; tcp_write response])
           peer_world) /\
    response = genMessage (kInputEventResponse
                 {| iresp_serial := 0;
                    iresp_success :=
                      pipe_accepts (env peer_world) (m_type {| m_type := MOUSE |}) |}) /\
    dispatcher 2 (mkBuffer response zero_storage) wA1 = Ok (mkBuffer [] zero_storage) wA1.
Proof.
  apply (input_event_end_to_end MOUSE 2 0 5 paired_world peer_world
           paired_conn paired_conn {| m_type := MOUSE |} zero_storage zero_storage).
  - reflexivity.
  - reflexivity.
  - vm_compute. reflexivity.
  - apply Reference_carried; [vm_compute; discriminate|vm_compute; reflexivity].
  - apply Reference_carried; [vm_compute; discriminate|vm_compute; reflexivity].
Defined.

End PropertyExamples.
